(** * nms-invoicer: the invoice ledger and the report pipeline

    A shallow embedding of [src/helper.py] (record validation, the per-event
    ledger file) and of [inserter.py] (the report builder that loads a
    ledger, sorts and pads it, writes the LaTeX fragments and drives the
    external compiler), followed by the properties of the specification.

    Python values are embedded as follows.
    - [str] is [string]; the text is taken to be ASCII (characters above
      127 are carried along as opaque symbols, neither spaces nor digits
      nor letters).
    - [float] is IEEE 754 binary64, as [spec_float] with the standard
      library's correctly rounded operations; [float(s)], [repr] and
      [round(x, 2)] are computed on exact integers.
    - a [dict] with string keys is a [gmap string _]; lists are lists.
    - exceptions are the constructors of [exn]; a function that can raise
      returns a [res]; code with side effects threads a [world]. *)

From Stdlib Require Import ZArith String Ascii List Lia Bool.
From Stdlib Require Import Floats.SpecFloat DecimalString.
From stdpp Require Import gmap strings list sorting.

Local Open Scope Z_scope.

(** ** Exceptions and results *)

Inductive exn : Type :=
  | InvalidFormatError (msg : string)
  | NotSetError (msg : string)
  | InputError (msg : string) (field : string)
  | KeyError (key : string)
  | IndexError
  | ValueError
  | TypeError
  | AttributeError
  | StopIteration
  | FileNotFoundError (path : string)
  | FileExistsError (path : string)
  | NotADirectoryError (path : string)
  | IsADirectoryError (path : string)
  | CalledProcessError (returncode : Z) (cmd : list string).

Inductive res (A : Type) : Type :=
  | Ok (a : A)
  | Raise (e : exn).
Arguments Ok {A} a.
Arguments Raise {A} e.

Definition res_bind {A B} (r : res A) (k : A -> res B) : res B :=
  match r with
  | Ok a => k a
  | Raise e => Raise e
  end.

#[global] Instance res_ret : MRet res := fun A a => Ok a.
#[global] Instance res_mbind : MBind res := fun A B k r => res_bind r k.

Fixpoint res_map {A B} (f : A -> res B) (l : list A) : res (list B) :=
  match l with
  | [] => Ok []
  | a :: l' =>
      match f a with
      | Ok b => match res_map f l' with
                | Ok bs => Ok (b :: bs)
                | Raise e => Raise e
                end
      | Raise e => Raise e
      end
  end.

(** ** Python strings *)

Module PyStr.

Definition code (c : ascii) : N := N_of_ascii c.

(** [str.isspace] on the ASCII range: TAB..CR, FS..US and the blank. *)
Definition isspace (c : ascii) : bool :=
  let n := code c in
  ((9 <=? n) && (n <=? 13) || (28 <=? n) && (n <=? 32))%N.

Definition isdigit (c : ascii) : bool :=
  let n := code c in ((48 <=? n) && (n <=? 57))%N.

Definition digit_val (c : ascii) : Z := Z.of_N (code c) - 48.

(** [str.lower] and [str.upper] on one character of the ASCII range: the
    letters [A] to [Z] and [a] to [z] change case, every other character
    of the range is left. Characters above 127 are left as well, which is
    not what Python does with them (it maps the letters among them); the
    properties that depend on the case of a character say which
    characters they are about. *)
Definition lower_char (c : ascii) : ascii :=
  let n := code c in
  if ((65 <=? n) && (n <=? 90))%N then ascii_of_N (n + 32) else c.

Definition upper_char (c : ascii) : ascii :=
  let n := code c in
  if ((97 <=? n) && (n <=? 122))%N then ascii_of_N (n - 32) else c.

Fixpoint map_chars (f : ascii -> ascii) (s : string) : string :=
  match s with
  | EmptyString => EmptyString
  | String c s' => String (f c) (map_chars f s')
  end.

Definition lower : string -> string := map_chars lower_char.
Definition upper : string -> string := map_chars upper_char.

(** [s.capitalize()]: first character upper-cased, the rest lower-cased. *)
Definition capitalize (s : string) : string :=
  match s with
  | EmptyString => EmptyString
  | String c s' => String (upper_char c) (lower s')
  end.

(** [s.replace(c, "")] for a one-character [c]. *)
Fixpoint remove_char (c : ascii) (s : string) : string :=
  match s with
  | EmptyString => EmptyString
  | String a s' =>
      if Ascii.eqb a c then remove_char c s'
      else String a (remove_char c s')
  end.

(** [s.replace(c, d)] for one-character [c] and [d]. *)
Definition replace_char (c d : ascii) : string -> string :=
  map_chars (fun a => if Ascii.eqb a c then d else a).

Fixpoint lstrip (s : string) : string :=
  match s with
  | EmptyString => EmptyString
  | String c s' => if isspace c then lstrip s' else s
  end.

(** [s.rstrip()]: a character is dropped when it is a space and all that
    follows it has been dropped. *)
Fixpoint rstrip (s : string) : string :=
  match s with
  | EmptyString => EmptyString
  | String c s' =>
      match rstrip s' with
      | EmptyString => if isspace c then EmptyString
                       else String c EmptyString
      | r => String c r
      end
  end.

Definition strip (s : string) : string := rstrip (lstrip s).

(** [s.split(sep)] for a one-character separator: never an empty list. *)
Fixpoint split (sep : ascii) (s : string) : list string :=
  match s with
  | EmptyString => [EmptyString]
  | String c s' =>
      if Ascii.eqb c sep then EmptyString :: split sep s'
      else match split sep s' with
           | [] => [String c EmptyString]
           | w :: ws => String c w :: ws
           end
  end.

(** [sep.join(l)] *)
Fixpoint join (sep : string) (l : list string) : string :=
  match l with
  | [] => EmptyString
  | [w] => w
  | w :: ws => w +:+ sep +:+ join sep ws
  end.

Fixpoint startswith (s pre : string) : bool :=
  match pre, s with
  | EmptyString, _ => true
  | String p pre', String c s' => Ascii.eqb c p && startswith s' pre'
  | String _ _, EmptyString => false
  end.

(** [s[::-1]] *)
Definition reversed (s : string) : string := String.rev s.

Definition endswith (s suf : string) : bool :=
  startswith (reversed s) (reversed suf).

(** [s.find(c)] for a one-character [c]: the first index, or -1. *)
Fixpoint find (c : ascii) (s : string) : Z :=
  match s with
  | EmptyString => -1
  | String a s' =>
      if Ascii.eqb a c then 0
      else let i := find c s' in if i <? 0 then -1 else i + 1
  end.

(** [s[0]] and [s[1:]] *)
Definition first (s : string) : res string :=
  match s with
  | EmptyString => Raise IndexError
  | String c _ => Ok (String c EmptyString)
  end.

Definition from1 (s : string) : string :=
  match s with
  | EmptyString => EmptyString
  | String _ s' => s'
  end.

Definition of_Z (z : Z) : string :=
  match z with
  | Z0 => "0"
  | Zpos p => NilEmpty.string_of_uint (Pos.to_uint p)
  | Zneg p => "-" +:+ NilEmpty.string_of_uint (Pos.to_uint p)
  end.

Fixpoint zeros (n : nat) : string :=
  match n with
  | O => EmptyString
  | S n' => String "0" (zeros n')
  end.

(** [str(z).zfill(w)] for a non-negative [z], as [%02d] and friends. *)
Definition zfill (w : nat) (z : Z) : string :=
  let s := of_Z z in zeros (w - String.length s) +:+ s.

End PyStr.

(** ** Python floats: IEEE 754 binary64 *)

Module PyFloat.

Definition prec : Z := 53.
Definition emax : Z := 1024.

Definition float : Type := spec_float.

Definition pzero : float := S754_zero false.
Definition add : float -> float -> float := SFadd prec emax.

Definition with_sign (neg : bool) (x : float) : float :=
  if neg then SFopp x else x.

Definition is_neg (x : float) : bool :=
  match x with
  | S754_zero s | S754_infinity s | S754_finite s _ _ => s
  | S754_nan => false
  end.

(** The binary64 value nearest to [n / d] (ties to even), for [0 <= n]
    and [0 < d]. *)
Definition of_ratio (n d : Z) : float :=
  if n =? 0 then pzero
  else
    let '(q, e, l) := SFdiv_core_binary prec emax n 0 d 0 in
    binary_round_aux prec emax false q e l.

(** Zeros at the end of the digits are dropped against a negative
    decimal exponent: [120 * 10 ^ -2] is read as [12 * 10 ^ -1]. *)
Fixpoint drop_trailing_zeros (fuel : nat) (m e : Z) : Z * Z :=
  match fuel with
  | O => (m, e)
  | S f =>
      if (e <? 0) && (m mod 10 =? 0)
      then drop_trailing_zeros f (m / 10) (e + 1)
      else (m, e)
  end.

(** The binary64 value nearest to [m * 10 ^ e], for [0 <= m]: what
    [strtod] returns for the digits [m] and the decimal exponent [e]. *)
Definition of_decimal (m e : Z) : float :=
  let '(m, e) := drop_trailing_zeros (Z.to_nat (- e)) m e in
  if 0 <=? e then of_ratio (m * 10 ^ e) 1 else of_ratio m (10 ^ (- e)).

(** The exact value of a finite positive float as a fraction. *)
Definition to_ratio (m : positive) (e : Z) : Z * Z :=
  if 0 <=? e then (Zpos m * 2 ^ e, 1) else (Zpos m, 2 ^ (- e)).

Definition eqb_bits (x y : float) : bool :=
  match x, y with
  | S754_zero a, S754_zero b => Bool.eqb a b
  | S754_infinity a, S754_infinity b => Bool.eqb a b
  | S754_nan, S754_nan => true
  | S754_finite a m e, S754_finite b m' e' =>
      Bool.eqb a b && (m =? m')%positive && (e =? e')
  | _, _ => false
  end.

(** *** [float(s)] *)

Inductive literal : Type :=
  | LNum (neg : bool) (mant : Z) (exp10 : Z)
  | LInf (neg : bool)
  | LNan.

Definition after_underscore (prev : option ascii) : bool :=
  match prev with
  | Some p => Ascii.eqb p "_"
  | None => false
  end.

(** Underscores may only stand between two digits; they are removed
    before the number is read. [prev] is the character before [s]. *)
Fixpoint strip_underscores (prev : option ascii) (s : string)
  : option string :=
  match s with
  | EmptyString =>
      (* Underscores are not allowed at the end. *)
      if after_underscore prev then None else Some EmptyString
  | String c s' =>
      if Ascii.eqb c "_" then
        (* Underscores are only allowed after digits. *)
        match prev with
        | Some p => if PyStr.isdigit p then strip_underscores (Some c) s'
                    else None
        | None => None
        end
      else
        (* Underscores are only allowed before digits. *)
        if after_underscore prev && negb (PyStr.isdigit c) then None
        else
          match strip_underscores (Some c) s' with
          | Some r => Some (String c r)
          | None => None
          end
  end.

(** A maximal run of digits: its value continuing [acc], how many digits
    were read, and the rest of the string. *)
Fixpoint digits (acc : Z) (n : Z) (s : string) : Z * Z * string :=
  match s with
  | String c s' =>
      if PyStr.isdigit c
      then digits (10 * acc + PyStr.digit_val c) (n + 1) s'
      else (acc, n, s)
  | EmptyString => (acc, n, s)
  end.

Definition read_sign (s : string) : bool * string :=
  match s with
  | String c s' =>
      if Ascii.eqb c "-" then (true, s')
      else if Ascii.eqb c "+" then (false, s')
      else (false, s)
  | EmptyString => (false, s)
  end.

(** The exponent part: nothing, or [e] or [E], an optional sign and at
    least one digit, up to the end of the string. *)
Definition read_exponent (s : string) : option Z :=
  match s with
  | EmptyString => Some 0
  | String c s' =>
      if Ascii.eqb c "e" || Ascii.eqb c "E" then
        let '(neg, s1) := read_sign s' in
        match digits 0 0 s1 with
        | (v, n, EmptyString) =>
            if 0 <? n then Some (if neg then - v else v) else None
        | _ => None
        end
      else None
  end.

Definition read_number (neg : bool) (s : string) : option literal :=
  let '(i, ni, s1) := digits 0 0 s in
  let '(m, nf, s2) :=
    match s1 with
    | String c s1' => if Ascii.eqb c "." then digits i 0 s1' else (i, 0, s1)
    | EmptyString => (i, 0, s1)
    end in
  if 0 <? ni + nf then
    match read_exponent s2 with
    | Some e => Some (LNum neg m (e - nf))
    | None => None
    end
  else None.

Definition read_literal (s : string) : option literal :=
  let '(neg, body) := read_sign s in
  let name := PyStr.lower body in
  if String.eqb name "inf" || String.eqb name "infinity" then Some (LInf neg)
  else if String.eqb name "nan" then Some LNan
  else read_number neg body.

Definition of_literal (l : literal) : float :=
  match l with
  | LNum neg m e => with_sign neg (of_decimal m e)
  | LInf neg => S754_infinity neg
  | LNan => S754_nan
  end.

(** The white space of the C library, which is what [float] skips at
    both ends: the blank and TAB, LF, VT, FF, CR. The separators
    [0x1c]-[0x1f], which [str.strip] drops, are no white space here. *)
Definition isspace (c : ascii) : bool :=
  let n := PyStr.code c in
  ((9 <=? n) && (n <=? 13) || (n =? 32))%N.

Fixpoint lstrip (s : string) : string :=
  match s with
  | EmptyString => EmptyString
  | String c s' => if isspace c then lstrip s' else s
  end.

Fixpoint rstrip (s : string) : string :=
  match s with
  | EmptyString => EmptyString
  | String c s' =>
      match rstrip s' with
      | EmptyString => if isspace c then EmptyString
                       else String c EmptyString
      | r => String c r
      end
  end.

(** [float(s)]; [None] stands for the [ValueError]. The underscores are
    checked and removed on the text as it comes, the white space at both
    ends is skipped after that, and the literal must reach the end. *)
Definition of_string (s : string) : option float :=
  match strip_underscores None s with
  | Some t =>
      match read_literal (rstrip (lstrip t)) with
      | Some l => Some (of_literal l)
      | None => None
      end
  | None => None
  end.

(** *** [repr(x)]: the shortest digits that read back as [x] *)

(** [decpt n d] for [0 < n / d]: the [k] with
    [10 ^ (k - 1) <= n / d < 10 ^ k]. *)
Fixpoint decpt_up (fuel : nat) (n d : Z) (k : Z) : Z :=
  match fuel with
  | O => k
  | S f => if n <? d then k else decpt_up f n (10 * d) (k + 1)
  end.

Fixpoint decpt_down (fuel : nat) (n d : Z) (k : Z) : Z :=
  match fuel with
  | O => k
  | S f => if d <=? 10 * n then k else decpt_down f (10 * n) d (k - 1)
  end.

Definition decpt (n d : Z) : Z :=
  if d <=? n then decpt_up 400 n d 0 else decpt_down 400 n d 0.

(** [n / d] scaled by [10 ^ s], as a fraction. *)
Definition scale10 (n d s : Z) : Z * Z :=
  if 0 <=? s then (n * 10 ^ s, d) else (n, d * 10 ^ (- s)).

(** The [p]-digit decimals just below and just above [x = n / d], and
    which of them read back as [x]: the nearer one that does, if any,
    as digits and a decimal exponent. *)
Definition candidate (x : float) (n d : Z) (k : Z) (p : Z)
  : option (Z * Z) :=
  let '(sn, sd) := scale10 n d (p - k) in
  let lo := sn / sd in
  let r := sn mod sd in
  let hi := lo + 1 in
  let ok_lo := eqb_bits (of_decimal lo (k - p)) x in
  let ok_hi := eqb_bits (of_decimal hi (k - p)) x in
  let lo_nearer := (2 * r <? sd) || ((2 * r =? sd) && Z.even lo) in
  if ok_lo && (lo_nearer || negb ok_hi) then Some (lo, k - p)
  else if ok_hi then Some (hi, k - p)
  else None.

Fixpoint shortest (fuel : nat) (x : float) (n d k : Z) (p : Z) : Z * Z :=
  match fuel with
  | O => (n / d, 0)
  | S f =>
      match candidate x n d k p with
      | Some c => c
      | None => shortest f x n d k (p + 1)
      end
  end.

Fixpoint drop_zeros (fuel : nat) (m e : Z) : Z * Z :=
  match fuel with
  | O => (m, e)
  | S f => if (m mod 10 =? 0) && negb (m =? 0)
           then drop_zeros f (m / 10) (e + 1) else (m, e)
  end.

(** The digit string of a finite positive float and the position of the
    decimal point relative to its start. *)
Definition shortest_digits (m : positive) (e : Z) : string * Z :=
  let '(n, d) := to_ratio m e in
  let k := decpt n d in
  let '(dm, de) := shortest 17 (S754_finite false m e) n d k 1 in
  let '(dm, de) := drop_zeros 400 dm de in
  let ds := PyStr.of_Z dm in
  (ds, Z.of_nat (String.length ds) + de).

Definition exponent_str (e : Z) : string :=
  (if e <? 0 then "-" else "+") +:+ PyStr.zfill 2 (Z.abs e).

(** The layout of [repr]: scientific when the exponent is below -4 or
    at least 16, otherwise positional with at least one fractional
    digit. *)
Definition format_r (ds : string) (k : Z) : string :=
  let n := Z.of_nat (String.length ds) in
  if (k <=? -4) || (16 <? k) then
    let frac := PyStr.from1 ds in
    String.substring 0 1 ds
      +:+ (match frac with
           | EmptyString => EmptyString
           | _ => "." +:+ frac
           end)
      +:+ "e" +:+ exponent_str (k - 1)
  else if k <=? 0 then "0." +:+ PyStr.zeros (Z.to_nat (- k)) +:+ ds
  else if k <? n then
    String.substring 0 (Z.to_nat k) ds +:+ "." +:+
    String.substring (Z.to_nat k) (Z.to_nat (n - k)) ds
  else ds +:+ PyStr.zeros (Z.to_nat (k - n)) +:+ ".0".

Definition repr (x : float) : string :=
  match x with
  | S754_nan => "nan"
  | S754_infinity s => if s then "-inf" else "inf"
  | S754_zero s => if s then "-0.0" else "0.0"
  | S754_finite s m e =>
      let '(ds, k) := shortest_digits m e in
      (if s then "-" else EmptyString) +:+ format_r ds k
  end.

(** *** [round(x, 2)] *)

(** The decimal with two fractional digits nearest to the exact value
    (ties to even), read back as a float; zeros, infinities and NaN
    round to themselves. *)
Definition round2 (x : float) : float :=
  match x with
  | S754_finite s m e =>
      let '(n, d) := to_ratio m e in
      let q := (100 * n) / d in
      let r := (100 * n) mod d in
      let q' := if (d <? 2 * r) || ((2 * r =? d) && Z.odd q)
                then q + 1 else q in
      if q' =? 0 then S754_zero s else with_sign s (of_decimal q' (-2))
  | _ => x
  end.

End PyFloat.

(** ** Python numbers, as far as [sum], [round] and [str] see them *)

Inductive pynum : Type :=
  | PyInt (z : Z)
  | PyFlt (x : PyFloat.float).

Module PyNum.

(** [int(z)] converted for an addition with a float. *)
Definition float_of_int (z : Z) : PyFloat.float :=
  match z with
  | Z0 => PyFloat.pzero
  | Zpos _ => PyFloat.of_ratio z 1
  | Zneg _ => SFopp (PyFloat.of_ratio (- z) 1)
  end.

Definition add_float (a : pynum) (x : PyFloat.float) : pynum :=
  match a with
  | PyInt z => PyFlt (PyFloat.add (float_of_int z) x)
  | PyFlt y => PyFlt (PyFloat.add y x)
  end.

(** [sum(xs)] of floats: starts from the integer [0] and adds from left
    to right. (CPython from 3.12 on also carries a compensation term,
    which is zero whenever every partial sum is exact.) *)
Definition sum (xs : list PyFloat.float) : pynum :=
  fold_left add_float xs (PyInt 0).

(** [round(a, 2)]: an integer is returned as it is. *)
Definition round2 (a : pynum) : pynum :=
  match a with
  | PyInt z => PyInt z
  | PyFlt x => PyFlt (PyFloat.round2 x)
  end.

Definition str (a : pynum) : string :=
  match a with
  | PyInt z => PyStr.of_Z z
  | PyFlt x => PyFloat.repr x
  end.

End PyNum.

(** ** Calendar dates: [datetime.strptime] and [datetime.strftime] *)

Module PyDate.

(** A [datetime] read with the format [%Y-%m-%d]: the time of day is
    midnight, so the three fields decide every comparison. *)
Record date : Type := mkdate { year : Z; month : Z; day : Z }.

Definition ltb (a b : date) : bool :=
  (year a <? year b)
  || ((year a =? year b)
      && ((month a <? month b)
          || ((month a =? month b) && (day a <? day b)))).

Definition is_leap (y : Z) : bool :=
  (y mod 4 =? 0) && (negb (y mod 100 =? 0) || (y mod 400 =? 0)).

Definition days_in_month (y m : Z) : Z :=
  if m =? 2 then (if is_leap y then 29 else 28)
  else if (m =? 4) || (m =? 6) || (m =? 9) || (m =? 11) then 30
  else 31.

Definition in_range (lo hi c : ascii) : bool :=
  (PyStr.code lo <=? PyStr.code c)%N && (PyStr.code c <=? PyStr.code hi)%N.

Definition two (a b : ascii) : Z :=
  10 * PyStr.digit_val a + PyStr.digit_val b.

(** The directive [%m] is the pattern [1[0-2]|0[1-9]|[1-9]]: the
    alternatives in this order, each with what it leaves unread. *)
Definition month_alternatives (s : string) : list (Z * string) :=
  match s with
  | String a t =>
      (match t with
       | String b u =>
           (if Ascii.eqb a "1" && in_range "0" "2" b
            then [(two a b, u)] else [])
           ++ (if Ascii.eqb a "0" && in_range "1" "9" b
               then [(two a b, u)] else [])
       | EmptyString => []
       end)
      ++ (if in_range "1" "9" a then [(PyStr.digit_val a, t)] else [])
  | EmptyString => []
  end.

(** The directive [%d] is [3[0-1]|[1-2]\d|0[1-9]|[1-9]| [1-9]]. *)
Definition day_alternatives (s : string) : list (Z * string) :=
  match s with
  | String a t =>
      (match t with
       | String b u =>
           (if Ascii.eqb a "3" && in_range "0" "1" b
            then [(two a b, u)] else [])
           ++ (if in_range "1" "2" a && PyStr.isdigit b
               then [(two a b, u)] else [])
           ++ (if Ascii.eqb a "0" && in_range "1" "9" b
               then [(two a b, u)] else [])
       | EmptyString => []
       end)
      ++ (if in_range "1" "9" a then [(PyStr.digit_val a, t)] else [])
      ++ (match t with
          | String b u =>
              if Ascii.eqb a " " && in_range "1" "9" b
              then [(PyStr.digit_val b, u)] else []
          | EmptyString => []
          end)
  | EmptyString => []
  end.

(** The first alternative after which the rest of the pattern matches. *)
Fixpoint first_match {A B} (k : A -> string -> option B)
  (alts : list (A * string)) : option B :=
  match alts with
  | [] => None
  | (a, rest) :: alts' =>
      match k a rest with
      | Some b => Some b
      | None => first_match k alts'
      end
  end.

(** The match of [(\d\d\d\d)-(%m)-(%d)] at the start of [s]: the three
    numbers and the unread rest. *)
Definition match_ymd (s : string) : option (Z * Z * Z * string) :=
  match s with
  | String y1 (String y2 (String y3 (String y4 (String "-" s1)))) =>
      if PyStr.isdigit y1 && PyStr.isdigit y2
         && PyStr.isdigit y3 && PyStr.isdigit y4
      then
        let y := 100 * two y1 y2 + two y3 y4 in
        first_match
          (fun m s2 =>
             match s2 with
             | String "-" s3 =>
                 first_match (fun d s4 => Some (y, m, d, s4))
                   (day_alternatives s3)
             | _ => None
             end)
          (month_alternatives s1)
      else None
  | _ => None
  end.

(** [datetime.strptime(s, "%Y-%m-%d")]: the pattern must match, nothing
    may remain unread, and the date must exist. *)
Definition strptime (s : string) : res date :=
  match match_ymd s with
  | Some (y, m, d, EmptyString) =>
      if (1 <=? y) && (d <=? days_in_month y m)
      then Ok (mkdate y m d) else Raise ValueError
  | _ => Raise ValueError
  end.

(** [datetime.strftime(d, "%d.%m.%Y")] (the C library prints the year
    without padding). *)
Definition strftime (d : date) : string :=
  PyStr.zfill 2 (day d) +:+ "." +:+ PyStr.zfill 2 (month d)
    +:+ "." +:+ PyStr.of_Z (year d).

End PyDate.

(** ** [sorted]: a stable sort by a key *)

Module PySort.
Section Sorted.
Context {A K : Type} (ltb : K -> K -> bool) (key : A -> K).

(** [x] goes before the first element whose key is not below its own:
    elements with equal keys keep their order. *)
Fixpoint insert (x : A) (l : list A) : list A :=
  match l with
  | [] => [x]
  | y :: l' =>
      if ltb (key y) (key x) then y :: insert x l' else x :: y :: l'
  end.

Definition sorted (l : list A) : list A := foldr insert [] l.
End Sorted.

(** [sorted(range(len(seq)), key=seq.__getitem__)] *)
Definition argsort {K} (ltb : K -> K -> bool) (seq : list K) : list nat :=
  (sorted ltb snd (imap (fun i x => (i, x)) seq)).*1.
End PySort.

(** ** The operating system: a file tree and external processes *)

Module OS.

(** A path is the list of its components; [.] and empty components are
    dropped, a leading slash is kept as a first component. The working
    directory is the empty path. A component [..] is kept as a name of
    its own and is not resolved to the parent: paths with [..] are
    outside of what is modelled, and the paths that the program builds
    ([db/<event>.data] and the fixed paths under [tex]) have none when
    the name of the event has no slash. *)
Definition path : Type := list string.

Definition norm (p : string) : path :=
  let parts :=
    filter (fun c => c ≠ EmptyString ∧ c ≠ ".") (PyStr.split "/" p) in
  if PyStr.startswith p "/" then "/" :: parts else parts.

Definition parent (p : path) : path := take (length p - 1) p.

Record fs : Type := mkfs {
  dirs : gset path;
  files : gmap path string
}.

(** What a process does: [None] when the program cannot be started,
    otherwise its exit status; and the file tree it leaves. *)
Definition system : Type := list string -> fs -> option Z * fs.

(** A process that was run: its command line, its exit status ([None]
    when it could not be started) and the file tree it left. *)
Record event : Type := mkevent {
  argv : list string;
  status : option Z;
  left_tree : fs
}.

(** The state of the machine: the file tree and the processes that
    were run, oldest first. *)
Record world : Type := mkworld {
  tree : fs;
  spawned : list event
}.

Definition M (A : Type) : Type := world -> res A * world.

Definition ret {A} (a : A) : M A := fun w => (Ok a, w).
Definition raise {A} (e : exn) : M A := fun w => (Raise e, w).
Definition bind {A B} (m : M A) (k : A -> M B) : M B :=
  fun w => match m w with
           | (Ok a, w') => k a w'
           | (Raise e, w') => (Raise e, w')
           end.
Definition lift {A} (r : res A) : M A := fun w => (r, w).

#[global] Instance M_ret : MRet M := @ret.
#[global] Instance M_bind : MBind M := fun A B k m => bind m k.

Definition has_dir (t : fs) (p : path) : bool :=
  match p with
  | [] => true
  | [r] => String.eqb r "/" || bool_decide (p ∈ dirs t)
  | _ => bool_decide (p ∈ dirs t)
  end.

Definition has_file (t : fs) (p : path) : bool :=
  bool_decide (is_Some (files t !! p)).

Definition with_tree (f : fs -> fs) : M unit :=
  fun w => (Ok tt, mkworld (f (tree w)) (spawned w)).

(** [os.path.isdir], [os.path.isfile] *)
Definition isdir (p : string) : M bool :=
  fun w => (Ok (has_dir (tree w) (norm p)), w).
Definition isfile (p : string) : M bool :=
  fun w => (Ok (has_file (tree w) (norm p)), w).

(** Where the resolution of a path stops when it does not lead to a
    directory: the first component, from the top, that is no directory
    gives [NotADirectoryError] when it is a regular file and
    [FileNotFoundError] when there is no such name. [seen] is the part
    already resolved. *)
Fixpoint obstacle (t : fs) (name : string) (seen todo : path) : exn :=
  match todo with
  | [] => FileNotFoundError name
  | c :: todo' =>
      let q := seen ++ [c] in
      if has_dir t q then obstacle t name q todo'
      else if has_file t q then NotADirectoryError name
      else FileNotFoundError name
  end.

(** Why a new entry cannot be made at [p], if it cannot: the directory
    it is to stand in does not resolve. A file tree is taken to be well
    formed (what stands above a directory is a directory), so that the
    parent being a directory is enough for the entry to be made. *)
Definition parent_error (t : fs) (name : string) (p : path) : option exn :=
  if has_dir t (parent p) then None
  else Some (obstacle t name [] (parent p)).

(** [os.mkdir] *)
Definition mkdir (name : string) : M unit :=
  fun w =>
    let t := tree w in
    let p := norm name in
    if has_dir t p || has_file t p then (Raise (FileExistsError name), w)
    else match parent_error t name p with
         | Some e => (Raise e, w)
         | None => with_tree (fun t => mkfs ({[p]} ∪ dirs t) (files t)) w
         end.

(** [os.makedirs(name, exist_ok=True)]: the missing ancestors first. *)
Fixpoint makedirs_from (name : string) (done todo : path) : M unit :=
  match todo with
  | [] => ret tt
  | c :: todo' =>
      let p := done ++ [c] in
      fun w =>
        let t := tree w in
        if has_dir t p then makedirs_from name p todo' w
        else if has_file t p then
          (Raise (match todo' with
                  | [] => FileExistsError name
                  | _ => NotADirectoryError name
                  end), w)
        else
          bind (with_tree (fun t => mkfs ({[p]} ∪ dirs t) (files t)))
               (fun _ => makedirs_from name p todo') w
  end.

Definition makedirs (name : string) : M unit :=
  makedirs_from name [] (norm name).

(** [open(name, "r")] and reading it to the end. *)
Definition read (name : string) : M string :=
  fun w =>
    let t := tree w in
    let p := norm name in
    if has_dir t p then (Raise (IsADirectoryError name), w)
    else match files t !! p with
         | Some s => (Ok s, w)
         | None => (Raise (match parent_error t name p with
                           | Some e => e
                           | None => FileNotFoundError name
                           end), w)
         end.

(** [open(name, "w")] and [open(name, "w+")]: the file is made empty. *)
Definition open_w (name : string) : M unit :=
  fun w =>
    let t := tree w in
    let p := norm name in
    if has_dir t p then (Raise (IsADirectoryError name), w)
    else match parent_error t name p with
         | Some e => (Raise e, w)
         | None =>
             with_tree (fun t => mkfs (dirs t) (<[p := EmptyString]> (files t))) w
         end.

(** [open(name, "a")]: the file is made if it is missing. *)
Definition open_a (name : string) : M unit :=
  fun w =>
    let t := tree w in
    let p := norm name in
    if has_dir t p then (Raise (IsADirectoryError name), w)
    else match parent_error t name p with
         | Some e => (Raise e, w)
         | None =>
             with_tree
               (fun t => mkfs (dirs t)
                           (<[p := default EmptyString (files t !! p)]>
                              (files t))) w
         end.

(** [f.write(s)] on a file opened by one of the two above. *)
Definition write (name : string) (s : string) : M unit :=
  with_tree
    (fun t => mkfs (dirs t)
                (<[norm name :=
                     default EmptyString (files t !! norm name) +:+ s]>
                   (files t))).

(** [subprocess.call(cmd)]: the exit status. *)
Definition call (sys : system) (cmd : list string) : M Z :=
  fun w =>
    let '(r, t) := sys cmd (tree w) in
    let w' := mkworld t (spawned w ++ [mkevent cmd r t]) in
    match r with
    | Some code => (Ok code, w')
    | None =>
        (Raise (FileNotFoundError (default EmptyString (head cmd))), w')
    end.

(** [subprocess.check_call(cmd)] *)
Definition check_call (sys : system) (cmd : list string) : M unit :=
  code ← call sys cmd;
  if code =? 0 then ret tt
  else raise (CalledProcessError code cmd).

(** Text files are read with universal newlines: [\r\n] and a lone [\r]
    arrive as [\n]. *)
Fixpoint universal_newlines (s : string) : string :=
  match s with
  | EmptyString => EmptyString
  | String c s' =>
      if Ascii.eqb c "013" then
        match s' with
        | String "010" _ => universal_newlines s'
        | _ => String "010" (universal_newlines s')
        end
      else String c (universal_newlines s')
  end.

(** The lines of a text, each with its line feed (the last one may
    lack it). *)
Fixpoint lines (s : string) : list string :=
  match s with
  | EmptyString => []
  | String c s' =>
      if Ascii.eqb c "010" then String c EmptyString :: lines s'
      else match lines s' with
           | [] => [String c EmptyString]
           | l :: ls => String c l :: ls
           end
  end.

(** [for line in f] *)
Definition readlines (s : string) : list string :=
  lines (universal_newlines s).

End OS.

(** ** [d[k]] on a dict with string keys *)

Definition getitem {V} (d : gmap string V) (k : string) : res V :=
  match d !! k with
  | Some v => Ok v
  | None => Raise (KeyError k)
  end.

(** [l[i]] on a list, for a non-negative [i] *)
Definition list_getitem {V} (l : list V) (i : nat) : res V :=
  match l !! i with
  | Some v => Ok v
  | None => Raise IndexError
  end.

(** ** [helper.py] *)

Module Helper.

(** *** The submitted form

    The state of a submitted view maps a block id to a map from an
    action id to the state of that input element. An element carries
    the entries its kind has; an absent entry is a missing key. The
    entry of an input that was left empty is there and holds JSON
    [null], Python's [None]: so for the text of a text input and for
    the option of a select menu. The date of the date picker is a
    string (a date left unpicked, which [strip] would hand on as
    [None] without raising, is outside the model). *)
Inductive nullable (A : Type) : Type :=
  | Null
  | Val (a : A).
Arguments Null {A}.
Arguments Val {A} a.

Record text_object : Type := { text : option string }.
Record option_object : Type := { option_text : option text_object }.
Record element : Type := {
  selected_option : option (nullable option_object);
  selected_date : option string;
  value : option (nullable string)
}.

Definition entry {V} (k : string) (o : option V) : res V :=
  match o with
  | Some v => Ok v
  | None => Raise (KeyError k)
  end.

(** [o[k]] and [o[0]] need an object: [None] is not subscriptable. *)
Definition subscriptable {A} (o : nullable A) : res A :=
  match o with
  | Val a => Ok a
  | Null => Raise TypeError
  end.

(** The block and action ids of the form: the values of the enumeration
    [Events] of the module [values], which is not part of the sources
    at hand; they are taken as they come. *)
Record Events : Type := {
  INVOICE_SELECT_EVENT : string;
  INVOICE_SELECT_DATE : string;
  INVOICE_SELECT_AMOUNT : string;
  INVOICE_SELECT_DESCRIPTION : string
}.

(** The dict [out] that [strip] returns: its keys in insertion order
    and its values. *)
Record invoice : Type := mkinvoice {
  invoice_date : string;
  event_name : string;
  purpose : string;
  cost : PyFloat.float;
  user : string
}.

Definition keys (d : invoice) : list string :=
  ["invoice_date"; "event_name"; "purpose"; "cost"; "user"].

(** [str(v) for v in d.values()] *)
Definition values_str (d : invoice) : list string :=
  [invoice_date d; event_name d; purpose d; PyFloat.repr (cost d); user d].

Definition msg_not_a_number : string :=
  "Bitte Ganzzahl oder Englisches Format nutzen. Bsp: 2 oder 12.69".
Definition msg_too_many_digits : string :=
  "Mehr als zwei Nachkommastellen gibt es nicht amk.".

(** The four entries that [strip] reads from the form, in the order in
    which it reads them; the two text inputs may hold [None]. *)
Record raw : Type := mkraw {
  raw_event_name : string;
  raw_invoice_date : string;
  raw_cost : nullable string;
  raw_purpose : nullable string
}.

Definition fields (ev : Events) (v : gmap string (gmap string element))
  : res raw :=
  b ← getitem v (INVOICE_SELECT_EVENT ev);
  a ← getitem b (INVOICE_SELECT_EVENT ev);
  o ← entry "selected_option" (selected_option a);
  o ← subscriptable o;
  t ← entry "text" (option_text o);
  event_name ← entry "text" (text t);
  b ← getitem v (INVOICE_SELECT_DATE ev);
  a ← getitem b (INVOICE_SELECT_DATE ev);
  invoice_date ← entry "selected_date" (selected_date a);
  b ← getitem v (INVOICE_SELECT_AMOUNT ev);
  a ← getitem b "plain_text_input-action";
  cost ← entry "value" (value a);
  b ← getitem v (INVOICE_SELECT_DESCRIPTION ev);
  a ← getitem b "purpose";
  purpose ← entry "value" (value a);
  Ok (mkraw event_name invoice_date cost purpose).

(** [float(cost)] under the [try] with its bare [except]: [None]
    stands for whatever is raised, the [ValueError] of a text that is
    no number as well as the [TypeError] of [float(None)]. *)
Definition float_of_value (cost : nullable string) : option PyFloat.float :=
  match cost with
  | Val s => PyFloat.of_string s
  | Null => None
  end.

Definition strip (ev : Events) (v : gmap string (gmap string element))
  (user_id : string) : res invoice :=
  r ← fields ev v;
  let user := user_id in
  (* Capitalize first letter *)
  p ← subscriptable (raw_purpose r);
  c ← PyStr.first p;
  let purpose := PyStr.upper c +:+ PyStr.from1 p in
  match float_of_value (raw_cost r) with
  | None => Raise (InputError msg_not_a_number "invoice_cost")
  | Some cost =>
      if 2 <? PyStr.find "." (PyStr.reversed (PyFloat.repr cost))
      then Raise (InputError msg_too_many_digits "invoice_cost")
      else Ok (mkinvoice (raw_invoice_date r) (raw_event_name r)
                 purpose cost user)
  end.

(** *** The ledger file of an event *)

Record Datafile : Type := mkDatafile {
  df_event_name : string;
  is_new_file : bool;
  filename : string;
  date_of_event : string
}.

Definition datapath : string := "db/".
Definition extension : string := ".data".

(** [Datafile(event_name)]. The dict that [get_events()] of the module
    [api] returns is taken as it comes: that module is not part of the
    sources at hand. *)
Definition Datafile_init (get_events : gmap string (gmap string string))
  (event_name : string) : OS.M Datafile :=
  let filename := datapath +:+ event_name +:+ extension in
  e ← OS.lift (getitem get_events event_name);
  date ← OS.lift (getitem e "date");
  d ← OS.isdir datapath;
  (if d : bool then OS.ret tt else OS.mkdir datapath);;
  f ← OS.isfile filename;
  if f : bool then OS.ret (mkDatafile event_name false filename date)
  else
    OS.open_w filename;;
    OS.ret (mkDatafile event_name true filename date).

(** [self.event_date()] *)
Definition event_date (self : Datafile) : res string :=
  d ← PyDate.strptime (date_of_event self);
  Ok (PyDate.strftime d).

Definition header_line (d : invoice) : string :=
  PyStr.join "," (keys d) +:+ "
".
Definition row_line (d : invoice) : string :=
  PyStr.join "," (values_str d) +:+ "
".

(** [self.store(d)]: the object as the call leaves it. *)
Definition store (self : Datafile) (d : invoice) : OS.M Datafile :=
  OS.open_a (filename self);;
  (if is_new_file self then OS.write (filename self) (header_line d)
   else OS.ret tt);;
  OS.write (filename self) (row_line d);;
  OS.ret (mkDatafile (df_event_name self) false (filename self)
            (date_of_event self)).

(** One submission, as the view handler of [invoicer.py] records it:
    [file = Datafile(stripped["event_name"]); file.store(stripped)]. *)
Definition append (get_events : gmap string (gmap string string))
  (d : invoice) : OS.M Datafile :=
  file ← Datafile_init get_events (event_name d);
  store file d.

(** A run of submissions, each to the event of its own record. *)
Fixpoint append_all (get_events : gmap string (gmap string string))
  (ds : list invoice) : OS.M unit :=
  match ds with
  | [] => OS.ret tt
  | d :: ds' =>
      append get_events d;;
      append_all get_events ds'
  end.

End Helper.

(** ** [inserter.py] *)

Module Inserter.

(** [self.dates] holds [datetime] values until [sort_by_date] replaces
    them by their display strings. *)
Inductive dates_field : Type :=
  | Datetimes (l : list PyDate.date)
  | Strings (l : list string).

Record LatexBuilder : Type := mkLatexBuilder {
  data_size : nat;
  event_date : string;
  is_set : bool;
  data : gmap string (list string);
  total : string;
  dates : dates_field;
  event_name : string
}.

Definition msg_wrong_format : string :=
  "Wrong file fromat. Can only generate LatexBuilder from '.data' files.".
Definition msg_not_set : string :=
  "No data to compile. Set the data by calling 'set()' first".

(** [self.data = {key: [] for key in header}] *)
Definition empty_columns (header : list string) : gmap string (list string) :=
  foldl (fun d key => <[key := []]> d) ∅ header.

(** [for pair in zip(header, entry): self.data[key].append(val)] *)
Definition add_entry (header entry : list string)
  (d : gmap string (list string)) : gmap string (list string) :=
  foldl (fun d '(key, val) => alter (fun col => col ++ [val]) key d)
    d (zip header entry).

(** The loop over the lines of the file: [self.data], unset when the
    file has no line at all, and [self.data_size]. *)
Definition load (file_lines : list string)
  : option (gmap string (list string)) * nat :=
  match file_lines with
  | [] => (None, O)
  | first :: rest =>
      let header := PyStr.split "," (PyStr.rstrip first) in
      (Some (foldl (fun d line =>
                      add_entry header
                        (PyStr.split "," (PyStr.rstrip line)) d)
               (empty_columns header) rest),
       length rest)
  end.

Definition float_of (price : string) : res PyFloat.float :=
  match PyFloat.of_string price with
  | Some x => Ok x
  | None => Raise ValueError
  end.

(** [str(round(sum(float(price) for price in cost), 2))] *)
Definition total_of (cost : list string) : res string :=
  prices ← res_map float_of cost;
  Ok (PyNum.str (PyNum.round2 (PyNum.sum prices))).

(** [LatexBuilder(datafile, event_date)] *)
Definition init (datafile event_date : string) : OS.M LatexBuilder :=
  if negb (PyStr.endswith datafile ".data")
  then OS.raise (InvalidFormatError msg_wrong_format)
  else
    text ← OS.read datafile;
    let '(d, data_size) := load (OS.readlines text) in
    OS.lift (
      data ← match d with
             | Some data => Ok data
             | None => Raise AttributeError
             end;
      cost ← getitem data "cost";
      total ← total_of cost;
      invoice_date ← getitem data "invoice_date";
      dates ← res_map PyDate.strptime invoice_date;
      names ← getitem data "event_name";
      name ← list_getitem names 0;
      let event_name := PyStr.remove_char " " (PyStr.lower name) in
      Ok (mkLatexBuilder data_size event_date false data total
            (Datetimes dates) event_name)).

(** [argsort(self.dates)] *)
Definition argsort_dates (ds : dates_field) : list nat :=
  match ds with
  | Datetimes l => PySort.argsort PyDate.ltb l
  | Strings l => PySort.argsort String.ltb l
  end.

(** [[val[s] for s in indices]] *)
Definition take_indices (indices : list nat) (val : list string)
  : res (list string) :=
  res_map (list_getitem val) indices.

Definition sort_by_date (self : LatexBuilder) : res LatexBuilder :=
  (* Get argsorted indices for dates *)
  let indices := argsort_dates (dates self) in
  (* Argsort by dates *)
  columns ← res_map (fun '(key, val) =>
                       col ← take_indices indices val; Ok (key, col))
              (map_to_list (data self));
  let data : gmap string (list string) := list_to_map columns in
  (* Make the dates strings again to parse them later *)
  dates ← match dates self with
          | Datetimes l => Ok (PyDate.strftime <$> l)
          | Strings [] => Ok []
          | Strings (_ :: _) => Raise TypeError
          end;
  Ok (mkLatexBuilder (data_size self) (event_date self) (is_set self)
        data (total self) (Strings dates) (event_name self)).

(** One round of the loop of [pad_prices]: the price at [idx] gets a
    zero when it ends in [.0]. *)
Definition pad_at (cost : list string) (idx : nat) : list string :=
  match cost !! idx with
  | Some price =>
      if PyStr.endswith price ".0" then <[idx := price +:+ "0"]> cost
      else cost
  | None => cost
  end.

Definition pad_prices (self : LatexBuilder) : res LatexBuilder :=
  cost ← getitem (data self) "cost";
  (* Append total to inlude in padding *)
  let cost := cost ++ [total self] in
  let cost := foldl pad_at cost (seq 0 (length cost)) in
  total ← match last cost with
          | Some t => Ok t
          | None => Raise IndexError
          end;
  let cost := removelast cost in
  Ok (mkLatexBuilder (data_size self) (event_date self) (is_set self)
        (<["cost" := cost]> (data self)) total (dates self)
        (event_name self)).

(** Construct a list entry formatted as tabularx *)
Definition build_list_entry (purpose date price : string) : string :=
  purpose +:+ "&" +:+ date +:+ "&\amount{" +:+ price +:+ "}\\".

Definition newline : string := "
".

(** [for _ in range(n): write(build_list_entry( *next(invoice)) + "\n")]
    where [invoice] zips the three columns. *)
Fixpoint write_entries (name : string) (n : nat)
  (invoice : list (string * (string * string))) : OS.M unit :=
  match n with
  | O => OS.ret tt
  | S n' =>
      match invoice with
      | [] => OS.raise StopIteration
      | (purpose, (date, price)) :: invoice' =>
          OS.write name (build_list_entry purpose date price +:+ newline);;
          write_entries name n' invoice'
      end
  end.

Definition prefix : string := "tex/blocks/".

(** [self.set()]: the object as the call leaves it. *)
Definition set (self : LatexBuilder) : OS.M LatexBuilder :=
  self ← OS.lift (sort_by_date self);
  self ← OS.lift (pad_prices self);
  (* Open file to write all submitted invoices one per line *)
  OS.open_w (prefix +:+ "tableitems.tex");;
  purpose ← OS.lift (getitem (data self) "purpose");
  invoice_date ← OS.lift (getitem (data self) "invoice_date");
  cost ← OS.lift (getitem (data self) "cost");
  write_entries (prefix +:+ "tableitems.tex") (data_size self)
    (zip purpose (zip invoice_date cost));;
  (* Write event name *)
  event_name_to_print ← OS.lift
    (list_getitem (PyStr.split "_" (event_name self)) 0);
  OS.open_w (prefix +:+ "eventname.tex");;
  OS.write (prefix +:+ "eventname.tex")
    (PyStr.capitalize event_name_to_print);;
  OS.open_w (prefix +:+ "eventdate.tex");;
  OS.write (prefix +:+ "eventdate.tex") (event_date self);;
  OS.open_w (prefix +:+ "total.tex");;
  OS.write (prefix +:+ "total.tex") ("\amount{" +:+ total self +:+ "}");;
  OS.ret (mkLatexBuilder (data_size self) (event_date self) true
            (data self) (total self) (dates self) (event_name self)).

Definition find_delete (extension : string) : list string :=
  ["find"; "."; "-name"; "*." +:+ extension; "-type"; "f"; "-delete"].

Fixpoint cleanup (sys : OS.system) (extensions : list string) : OS.M unit :=
  match extensions with
  | [] => OS.ret tt
  | extension :: rest =>
      OS.check_call sys (find_delete extension);;
      cleanup sys rest
  end.

(** [self.compile(debug)] *)
Definition compile (sys : OS.system) (self : LatexBuilder) (debug : bool)
  : OS.M unit :=
  if negb (is_set self) then OS.raise (NotSetError msg_not_set)
  else
    let tex_dir := "./tex/" in
    let output_dir := "./out/" in
    d ← OS.isdir output_dir;
    (if d : bool then OS.ret tt else OS.mkdir output_dir);;
    let jobname := PyStr.replace_char "_" "-" (event_name self) in
    found ← OS.call sys ["which"; "tectonic"];
    (if found =? 0 then
       let out := output_dir +:+ jobname in
       OS.makedirs out;;
       OS.check_call sys ["tectonic"; tex_dir +:+ "main.tex"; "-o"; out]
     else
       found ← OS.call sys ["which"; "pdflatex"];
       if found =? 0 then
         OS.check_call sys
           ["pdflatex"; "-interaction=batchmode";
            "-output-directory=" +:+ output_dir;
            "-jobname=" +:+ jobname;
            tex_dir +:+ "main.tex"]
       else OS.ret tt);;
    if debug then OS.ret tt
    else cleanup sys ["aux"; "log"; "out"; "gz"].

End Inserter.

(** ** Sample data *)

Module Sample.

Definition ids : Helper.Events := {|
  Helper.INVOICE_SELECT_EVENT := "invoice_event";
  Helper.INVOICE_SELECT_DATE := "invoice_date";
  Helper.INVOICE_SELECT_AMOUNT := "invoice_cost";
  Helper.INVOICE_SELECT_DESCRIPTION := "invoice_description"
|}.

Definition input (s : string) : Helper.element :=
  {| Helper.selected_option := None; Helper.selected_date := None;
     Helper.value := Some (Helper.Val s) |}.

(** A text input that was left empty. *)
Definition empty_input : Helper.element :=
  {| Helper.selected_option := None; Helper.selected_date := None;
     Helper.value := Some Helper.Null |}.

Definition picked_date (s : string) : Helper.element :=
  {| Helper.selected_option := None; Helper.selected_date := Some s;
     Helper.value := None |}.

Definition picked_option (s : string) : Helper.element :=
  {| Helper.selected_option :=
       Some (Helper.Val
               {| Helper.option_text := Some {| Helper.text := Some s |} |});
     Helper.selected_date := None; Helper.value := None |}.

(** A submitted form with the four entries filled in. *)
Definition form (event date cost purpose : string)
  : gmap string (gmap string Helper.element) :=
  {[ "invoice_event" := {[ "invoice_event" := picked_option event ]};
     "invoice_date" := {[ "invoice_date" := picked_date date ]};
     "invoice_cost" := {[ "plain_text_input-action" := input cost ]};
     "invoice_description" := {[ "purpose" := input purpose ]} ]}.

Definition minus_five : PyFloat.float :=
  S754_finite true 5629499534213120 (-50).

Definition events : gmap string (gmap string string) :=
  {[ "Berlin_2024" := {[ "date" := "2024-05-01" ]} ]}.

(** A machine on which only the directory of the fragments exists. *)
Definition machine : OS.world :=
  OS.mkworld (OS.mkfs {[ ["tex"]; ["tex"; "blocks"] ]} ∅) [].

Definition builder (ready : bool) : Inserter.LatexBuilder :=
  Inserter.mkLatexBuilder 1 "01.05.2024" ready
    {[ "invoice_date" := ["2024-03-01"]; "event_name" := ["Berlin_2024"];
       "purpose" := ["Taxi"]; "cost" := ["10.00"]; "user" := ["U1"] ]}
    "10.00" (Inserter.Strings ["01.03.2024"]) "berlin_2024".

(** A system with [tectonic] installed, which fails on the template and
    leaves its log behind. *)
Definition failing_tectonic : OS.system :=
  fun cmd t =>
    match cmd with
    | ["which"; "tectonic"] => (Some 0, t)
    | "tectonic" :: _ =>
        (Some 1,
         OS.mkfs (OS.dirs t)
           (<[ ["out"; "berlin-2024"; "main.log"] := "! Undefined control sequence." ]>
              (OS.files t)))
    | _ => (Some 0, t)
    end.

Definition amount (s : string) : PyFloat.float :=
  default PyFloat.pzero (PyFloat.of_string s).

Definition taxi : Helper.invoice :=
  Helper.mkinvoice "2024-03-01" "Berlin_2024" "Taxi" (amount "10.0") "U1".
Definition hotel : Helper.invoice :=
  Helper.mkinvoice "2024-01-15" "Berlin_2024" "Hotel" (amount "5.5") "U2".
Definition food : Helper.invoice :=
  Helper.mkinvoice "2024-02-20" "Berlin_2024" "Food" (amount "2") "U1".

(** A ledger with the costs [10.0], [5.5] and [2], and a machine that
    holds it. *)
Definition ledger : string :=
  "invoice_date,event_name,purpose,cost,user
2024-03-01,Berlin_2024,Taxi,10.0,U1
2024-01-15,Berlin_2024,Hotel,5.5,U2
2024-02-20,Berlin_2024,Food,2,U1
".

Definition with_ledger (text : string) : OS.world :=
  OS.mkworld
    (OS.mkfs {[ ["db"]; ["tex"]; ["tex"; "blocks"] ]}
       {[ ["db"; "Berlin_2024.data"] := text ]})
    [].

(** The same ledger with a first row that lacks its last field. *)
Definition ragged : string :=
  "invoice_date,event_name,purpose,cost,user
2024-03-01,Berlin_2024,Taxi,10.0
2024-01-15,Berlin_2024,Hotel,5.5,U2
".

(** A ledger that is only its header line. *)
Definition header_only : string :=
  "invoice_date,event_name,purpose,cost,user
".

(** The builder that [LatexBuilder("db/Berlin_2024.data", "01.05.2024")]
    makes of that ledger. *)
Definition loaded : Inserter.LatexBuilder :=
  Inserter.mkLatexBuilder 3 "01.05.2024" false
    {[ "invoice_date" := ["2024-03-01"; "2024-01-15"; "2024-02-20"];
       "event_name" := ["Berlin_2024"; "Berlin_2024"; "Berlin_2024"];
       "purpose" := ["Taxi"; "Hotel"; "Food"];
       "cost" := ["10.0"; "5.5"; "2"];
       "user" := ["U1"; "U2"; "U1"] ]}
    "17.5"
    (Inserter.Datetimes
       [PyDate.mkdate 2024 3 1; PyDate.mkdate 2024 1 15;
        PyDate.mkdate 2024 2 20])
    "berlin_2024".

(** The run of [compile] on that system, and the process it ends with. *)
Definition failed_run : res unit * OS.world :=
  Inserter.compile failing_tectonic (builder true) false machine.

Definition failed_event : OS.event :=
  OS.mkevent ["tectonic"; "./tex/main.tex"; "-o"; "./out/berlin-2024"]
    (Some 1) (OS.tree failed_run.2).

End Sample.

(** ** Notions used to state the properties *)

(** The character [c] occurs in [s]. *)
Fixpoint occurs (c : ascii) (s : string) : bool :=
  match s with
  | EmptyString => false
  | String a s' => Ascii.eqb a c || occurs c s'
  end.

(** The command line starts one of the two LaTeX compilers. *)
Definition is_compiler (cmd : list string) : bool :=
  match cmd with
  | prog :: _ => String.eqb prog "tectonic" || String.eqb prog "pdflatex"
  | [] => false
  end.

(** The command line is one of the deletions of the cleanup. *)
Definition is_cleanup (cmd : list string) : bool :=
  match cmd with
  | prog :: _ => String.eqb prog "find"
  | [] => false
  end.

(** A process that the cleanup did not start and that, if it is a
    compiler, did not exit with a failure status. *)
Definition quiet (ev : OS.event) : Prop :=
  is_cleanup (OS.argv ev) = false
  ∧ (is_compiler (OS.argv ev) = true →
     ∀ code, OS.status ev = Some code → code = 0).

(** The texts of [l] one after the other. *)
Definition join_all (l : list string) : string :=
  foldr String.append EmptyString l.

(** Where the ledger of the event [e] lives. *)
Definition ledger_path (e : string) : OS.path :=
  ["db"; e +:+ Helper.extension].

(** The ledger of the event [e] exists and holds [c]. *)
Definition holds (e : string) (w : OS.world) (c : string) : Prop :=
  OS.has_dir (OS.tree w) ["db"] = true
  ∧ OS.has_dir (OS.tree w) (ledger_path e) = false
  ∧ OS.files (OS.tree w) !! ledger_path e = Some c.

(** The ledger of the event [e] does not exist, and nothing is in the
    way of making it. *)
Definition absent (e : string) (w : OS.world) : Prop :=
  OS.has_file (OS.tree w) ["db"] = false
  ∧ OS.has_dir (OS.tree w) (ledger_path e) = false
  ∧ OS.has_file (OS.tree w) (ledger_path e) = false.


(** What the padding makes of one price. *)
Definition padded (price : string) : string :=
  if PyStr.endswith price ".0" then price +:+ "0" else price.

(** The header that [store] writes. *)
Definition expected_header : list string :=
  ["invoice_date"; "event_name"; "purpose"; "cost"; "user"].

(** A row of a ledger: five fields, of which the date reads as a date
    and the cost as a float. *)
Definition well_formed_row (line : string) : bool :=
  match PyStr.split "," (PyStr.rstrip line) with
  | [d; _; _; c; _] =>
      match PyDate.strptime d, PyFloat.of_string c with
      | Ok _, Some _ => true
      | _, _ => false
      end
  | _ => false
  end.

(** A ledger: the header line and at least one row. *)
Definition well_formed (text : string) : bool :=
  match OS.readlines text with
  | first :: row :: rows =>
      bool_decide (PyStr.split "," (PyStr.rstrip first) = expected_header)
      && forallb well_formed_row (row :: rows)
  | _ => false
  end.

(** The five columns of a loaded ledger. *)
Definition columns (ds es ps cs us : list string)
  : gmap string (list string) :=
  <["invoice_date" := ds]> (<["event_name" := es]> (<["purpose" := ps]>
    (<["cost" := cs]> (<["user" := us]> ∅)))).

(** What has been loaded after [n] well-formed rows. *)
Definition loaded_rows (n : nat) (data : gmap string (list string)) : Prop :=
  ∃ ds es ps cs us,
    data = columns ds es ps cs us
    ∧ length ds = n ∧ length es = n ∧ length ps = n
    ∧ length cs = n ∧ length us = n
    ∧ Forall (fun d => ∃ x, PyDate.strptime d = Ok x) ds
    ∧ Forall (fun c => ∃ x, Inserter.float_of c = Ok x) cs.

(** The order that [sorted] establishes on positions paired with their
    keys: by key, and by position among keys of which neither is below
    the other. *)
Definition key_then_position {K} (ltb : K → K → bool) (x y : nat * K) : Prop :=
  ltb x.2 y.2 = true ∨ (ltb y.2 x.2 = false ∧ (x.1 < y.1)%nat).

(** [ltb] is a strict weak order: what [sorted] needs of [<]. *)
Definition strict_weak {K} (ltb : K → K → bool) : Prop :=
  (∀ a b c, ltb a b = true → ltb b c = true → ltb a c = true)
  ∧ (∀ a b c, ltb a b = false → ltb b c = false → ltb a c = false).

(** The column [col] read at the positions [indices]. *)
Definition at_positions (indices : list nat) (col : list string)
  : list string :=
  (fun i => col !!! i) <$> indices.

Definition put (p : OS.path) (text : string) (w : OS.world) : OS.world :=
  OS.mkworld
    (OS.mkfs (OS.dirs (OS.tree w)) (<[p := text]> (OS.files (OS.tree w))))
    (OS.spawned w).

(** The line of the table for the row at position [i]. *)
Definition table_line (purpose invoice_date cost : list string) (i : nat)
  : string :=
  Inserter.build_list_entry (purpose !!! i) (invoice_date !!! i)
    (padded (cost !!! i)) +:+ Inserter.newline.

(** The builder that the constructor makes of the ragged sample ledger:
    its column [user] has one entry for two rows. *)
Definition ragged_builder : Inserter.LatexBuilder :=
  Inserter.mkLatexBuilder 2 "01.05.2024" false
    {[ "invoice_date" := ["2024-03-01"; "2024-01-15"];
       "event_name" := ["Berlin_2024"; "Berlin_2024"];
       "purpose" := ["Taxi"; "Hotel"];
       "cost" := ["10.0"; "5.5"];
       "user" := ["U2"] ]}
    "15.5"
    (Inserter.Datetimes [PyDate.mkdate 2024 3 1; PyDate.mkdate 2024 1 15])
    "berlin_2024".

(** A machine without the directory of the fragments. *)
Definition bare_machine : OS.world :=
  OS.mkworld (OS.mkfs {[ ["db"] ]} ∅) [].

(** The machine [w] with the directory [db], made if it is missing. *)
Definition with_db (w : OS.world) : OS.world :=
  if OS.has_dir (OS.tree w) ["db"] then w
  else OS.mkworld
         (OS.mkfs ({[ ["db"] ]} ∪ OS.dirs (OS.tree w)) (OS.files (OS.tree w)))
         (OS.spawned w).

(** Two objects made for one event before either stores, and then a
    store through each, the later object first. *)
Definition two_objects (get_events : gmap string (gmap string string))
  (e : string) (d1 d2 : Helper.invoice) : OS.M Helper.Datafile :=
  file1 ← Helper.Datafile_init get_events e;
  file2 ← Helper.Datafile_init get_events e;
  Helper.store file2 d2;;
  Helper.store file1 d1.

(** The text [YYYY-MM-DD] of a date. *)
Definition iso (y m d : Z) : string :=
  PyStr.zfill 4 y +:+ "-" +:+ PyStr.zfill 2 m +:+ "-" +:+ PyStr.zfill 2 d.

(** The years, months and days for which [strptime] reads [iso] back. *)
Definition reads_back_year (y : Z) : bool :=
  match PyStr.zfill 4 y with
  | String y1 (String y2 (String y3 (String y4 EmptyString))) =>
      PyStr.isdigit y1 && PyStr.isdigit y2 && PyStr.isdigit y3
      && PyStr.isdigit y4
      && (100 * PyDate.two y1 y2 + PyDate.two y3 y4 =? y)
  | _ => false
  end.

(** The match of [(%m)-(%d)]: the two numbers and the unread rest. *)
Definition match_md (s : string) : option (Z * Z * string) :=
  PyDate.first_match
    (fun m s2 =>
       match s2 with
       | String "-" s3 =>
           PyDate.first_match (fun d s4 => Some (m, d, s4))
             (PyDate.day_alternatives s3)
       | _ => None
       end)
    (PyDate.month_alternatives s).

Definition reads_back_day (md : Z * Z) : bool :=
  bool_decide
    (match_md (PyStr.zfill 2 md.1 +:+ "-" +:+ PyStr.zfill 2 md.2)
     = Some (md.1, md.2, EmptyString)).

(** Every character of [s] passes [P]. *)
Fixpoint all_chars (P : ascii → bool) (s : string) : bool :=
  match s with
  | EmptyString => true
  | String c s' => P c && all_chars P s'
  end.

(** The text is ASCII: where the embedding of [str] is the code's. *)
Definition is_ascii (s : string) : bool :=
  all_chars (fun c => (PyStr.code c <? 128)%N) s.

(** The characters that end a field or a line of a ledger: the comma,
    the line feed and the carriage return. *)
Definition separator (c : ascii) : bool :=
  Ascii.eqb c "," || Ascii.eqb c "010" || Ascii.eqb c "013".

(** A text without any of them. *)
Definition plain (s : string) : bool :=
  all_chars (fun c => negb (separator c)) s.

(** A record whose texts can be stored as one line of five fields: they
    are plain, and the user, the last field, does not end in a space. *)
Definition storable (d : Helper.invoice) : bool :=
  plain (Helper.invoice_date d) && plain (Helper.event_name d)
  && plain (Helper.purpose d) && plain (Helper.user d)
  && bool_decide (PyStr.rstrip (Helper.user d) = Helper.user d).

(** [rstrip] keeps the text whole: it is not empty and does not end in a
    space. *)
Definition kept (s : string) : Prop :=
  PyStr.rstrip s = s ∧ s ≠ EmptyString.

(** A record whose purpose has a comma. *)
Definition night_taxi : Helper.invoice :=
  Helper.mkinvoice "2024-03-01" "Berlin_2024" "Taxi, at night"
    (Sample.amount "10.0") "U1".

(** The command lines of [compile]. *)
Definition jobname (self : Inserter.LatexBuilder) : string :=
  PyStr.replace_char "_" "-" (Inserter.event_name self).

Definition which (prog : string) : list string := ["which"; prog].

Definition tectonic_cmd (self : Inserter.LatexBuilder) : list string :=
  ["tectonic"; "./tex/main.tex"; "-o"; "./out/" +:+ jobname self].

Definition pdflatex_cmd (self : Inserter.LatexBuilder) : list string :=
  ["pdflatex"; "-interaction=batchmode"; "-output-directory=./out/";
   "-jobname=" +:+ jobname self; "./tex/main.tex"].

Definition finds (debug : bool) : list (list string) :=
  if debug then []
  else Inserter.find_delete <$> ["aux"; "log"; "out"; "gz"].

(** The three runs that [compile] can make: with [tectonic], with
    [pdflatex], and with neither. *)
Definition runs (self : Inserter.LatexBuilder) (debug : bool)
  : list (list (list string)) :=
  [ [which "tectonic"; tectonic_cmd self] ++ finds debug;
    [which "tectonic"; which "pdflatex"; pdflatex_cmd self] ++ finds debug;
    [which "tectonic"; which "pdflatex"] ++ finds debug ].

(** Between [w] and [w'] the processes [cmds] were started, in this
    order, and no other. *)
Definition ran (w w' : OS.world) (cmds : list (list string)) : Prop :=
  ∃ evs, OS.spawned w' = OS.spawned w ++ evs ∧ OS.argv <$> evs = cmds.

(** A system without a LaTeX compiler. *)
Definition no_compiler : OS.system :=
  fun cmd t =>
    match cmd with
    | "which" :: _ => (Some 1, t)
    | _ => (Some 0, t)
    end.

(** A machine on which the directory of the documents exists. *)
Definition machine_with_out : OS.world :=
  OS.mkworld (OS.mkfs {[ ["out"]; ["tex"]; ["tex"; "blocks"] ]} ∅) [].

(** A machine whose ledger is an empty file. *)
Definition empty_ledger : OS.world := Sample.with_ledger EmptyString.

(** The exception is a [NotSetError]. *)
Definition is_not_set (e : exn) : bool :=
  match e with
  | NotSetError _ => true
  | _ => false
  end.

(** The text has no line break: neither a line feed nor a carriage
    return. *)
Definition no_line_break (s : string) : bool :=
  all_chars (fun c => negb (Ascii.eqb c "010" || Ascii.eqb c "013")) s.

(** The texts of a record have no line break. *)
Definition one_line (d : Helper.invoice) : bool :=
  no_line_break (Helper.invoice_date d) && no_line_break (Helper.event_name d)
  && no_line_break (Helper.purpose d) && no_line_break (Helper.user d).

(** The characters of the text that [str] gives for a float. *)
Definition float_char (c : ascii) : bool :=
  PyStr.isdigit c
  || existsb (Ascii.eqb c) (list_ascii_of_string "-+.einfa").

(** A record whose purpose has line feeds, and the ledger's header in
    between. *)
Definition three_line_taxi : Helper.invoice :=
  Helper.mkinvoice "2024-03-01" "Berlin_2024"
    "Taxi
invoice_date,event_name,purpose,cost,user
and back" (Sample.amount "10.0") "U1".

(** * Properties *)

(** ** Strings *)

Lemma append_nil_l (s : string) : EmptyString +:+ s = s.
Proof. reflexivity. Qed.

Lemma append_cons (c : ascii) (a b : string) :
  String c a +:+ b = String c (a +:+ b).
Proof. reflexivity. Qed.

Lemma append_nil_r (s : string) : s +:+ EmptyString = s.
Proof.
  induction s as [|c s IH]; [done|]. by rewrite append_cons, IH.
Qed.

Lemma append_assoc (a b c : string) : (a +:+ b) +:+ c = a +:+ (b +:+ c).
Proof.
  induction a as [|x a IH]; [done|]. by rewrite !append_cons, IH.
Qed.

Lemma rev_app_append (s acc : string) :
  String.rev_app s acc = String.rev_app s EmptyString +:+ acc.
Proof.
  revert acc. induction s as [|c s IH]; intros acc; [done|].
  cbn [String.rev_app]. rewrite (IH (String c acc)), (IH (String c EmptyString)).
  by rewrite append_assoc.
Qed.

Lemma reversed_nil : PyStr.reversed EmptyString = EmptyString.
Proof. reflexivity. Qed.

Lemma reversed_cons (c : ascii) (s : string) :
  PyStr.reversed (String c s) = PyStr.reversed s +:+ String c EmptyString.
Proof.
  unfold PyStr.reversed, String.rev. cbn [String.rev_app].
  apply rev_app_append.
Qed.

Lemma reversed_append (a b : string) :
  PyStr.reversed (a +:+ b) = PyStr.reversed b +:+ PyStr.reversed a.
Proof.
  induction a as [|c a IH].
  - by rewrite append_nil_l, reversed_nil, append_nil_r.
  - rewrite append_cons, !reversed_cons, IH. by rewrite append_assoc.
Qed.

Lemma reversed_involutive (s : string) : PyStr.reversed (PyStr.reversed s) = s.
Proof.
  induction s as [|c s IH]; [done|].
  rewrite reversed_cons, reversed_append, IH. done.
Qed.

Lemma startswith_append (s pre : string) :
  PyStr.startswith s pre = true ↔ ∃ rest, s = pre +:+ rest.
Proof.
  revert s. induction pre as [|p pre IH]; intros s.
  - split; [intros _; by exists s | by destruct s].
  - destruct s as [|c s]; cbn [PyStr.startswith].
    + split; [done | intros [rest H]; discriminate H].
    + rewrite andb_true_iff, IH. split.
      * intros [Hc [rest ->]]. apply Ascii.eqb_eq in Hc as ->. by exists rest.
      * intros [rest H]. rewrite append_cons in H. injection H as -> ->.
        split; [apply Ascii.eqb_refl | by exists rest].
Qed.

(** [s.endswith(suf)] holds exactly when [s] is some text followed by
    [suf]. *)
Lemma endswith_append (s suf : string) :
  PyStr.endswith s suf = true ↔ ∃ front, s = front +:+ suf.
Proof.
  unfold PyStr.endswith. rewrite startswith_append. split.
  - intros [rest H]. exists (PyStr.reversed rest).
    rewrite <- (reversed_involutive s), H, reversed_append.
    by rewrite reversed_involutive.
  - intros [front ->]. exists (PyStr.reversed front).
    apply reversed_append.
Qed.

Lemma length_append (a b : string) :
  String.length (a +:+ b) = (String.length a + String.length b)%nat.
Proof.
  induction a as [|c a IH]; [done|].
  rewrite append_cons. cbn [String.length]. by rewrite IH.
Qed.

Lemma length_reversed (s : string) :
  String.length (PyStr.reversed s) = String.length s.
Proof.
  induction s as [|c s IH]; [done|].
  rewrite reversed_cons, length_append, IH. cbn. lia.
Qed.

Lemma occurs_append (c : ascii) (a b : string) :
  occurs c (a +:+ b) = occurs c a || occurs c b.
Proof.
  induction a as [|x a IH]; [done|].
  rewrite append_cons. cbn [occurs]. by rewrite IH, orb_assoc.
Qed.

Lemma occurs_reversed (c : ascii) (s : string) :
  occurs c (PyStr.reversed s) = occurs c s.
Proof.
  induction s as [|x s IH]; [done|].
  rewrite reversed_cons, occurs_append, IH. cbn [occurs].
  rewrite orb_false_r. apply orb_comm.
Qed.

(** [find] returns the length of the text before the first occurrence. *)
Lemma find_first_occurrence (c : ascii) (a b : string) :
  occurs c a = false →
  PyStr.find c (a +:+ String c b) = Z.of_nat (String.length a).
Proof.
  induction a as [|x a IH]; intros Ha.
  - rewrite append_nil_l. cbn [PyStr.find]. by rewrite Ascii.eqb_refl.
  - cbn [occurs] in Ha. apply orb_false_iff in Ha as [Hx Ha].
    rewrite append_cons. cbn [PyStr.find String.length].
    rewrite Hx, (IH Ha).
    destruct (Z.ltb_spec (Z.of_nat (String.length a)) 0); lia.
Qed.

Lemma find_absent (c : ascii) (s : string) :
  occurs c s = false → PyStr.find c s = -1.
Proof.
  induction s as [|x s IH]; [done|]. cbn [occurs PyStr.find].
  intros [Hx Hs]%orb_false_iff. by rewrite Hx, (IH Hs).
Qed.

(** The test of [strip] on the fractional digits: in the reversed text,
    [find] gives the number of characters after the last point. *)
Lemma find_reversed_point (a b : string) :
  occurs "." b = false →
  PyStr.find "." (PyStr.reversed (a +:+ "." +:+ b))
  = Z.of_nat (String.length b).
Proof.
  intros Hb. rewrite reversed_append, reversed_append.
  change (PyStr.reversed ".") with ".".
  rewrite append_assoc.
  change ("." +:+ PyStr.reversed a) with (String "." (PyStr.reversed a)).
  rewrite find_first_occurrence by by rewrite occurs_reversed.
  by rewrite length_reversed.
Qed.

(** ** The record validator: [strip] *)

Lemma strip_unfold ev v user_id r :
  Helper.fields ev v = Ok r →
  Helper.strip ev v user_id =
    match Helper.raw_purpose r with
    | Helper.Null => Raise TypeError
    | Helper.Val p =>
        match PyStr.first p with
        | Raise e => Raise e
        | Ok c =>
            match Helper.float_of_value (Helper.raw_cost r) with
            | None =>
                Raise (InputError Helper.msg_not_a_number "invoice_cost")
            | Some cost =>
                if 2 <? PyStr.find "." (PyStr.reversed (PyFloat.repr cost))
                then Raise (InputError Helper.msg_too_many_digits
                              "invoice_cost")
                else Ok (Helper.mkinvoice (Helper.raw_invoice_date r)
                           (Helper.raw_event_name r)
                           (PyStr.upper c +:+ PyStr.from1 p)
                           cost user_id)
            end
        end
    end.
Proof.
  intros H. unfold Helper.strip. rewrite H.
  unfold mbind, res_mbind. cbn [res_bind].
  destruct (Helper.raw_purpose r) as [|p];
    cbn [Helper.subscriptable res_bind]; [reflexivity|].
  destruct (PyStr.first p); reflexivity.
Qed.

(** C10. When the purpose entry of the form is the empty string, [strip]
    raises [IndexError] (from [purpose[0]]), which is not the
    [InputError] of the validator. *)
Theorem strip_empty_purpose ev v user_id r :
  Helper.fields ev v = Ok r →
  Helper.raw_purpose r = Helper.Val EmptyString →
  Helper.strip ev v user_id = Raise IndexError.
Proof.
  intros H Hp. rewrite (strip_unfold _ _ _ _ H), Hp. reflexivity.
Qed.

Lemma strip_empty_purpose_witness :
  let v := Sample.form "Berlin_2024" "2024-03-01" "12.69" EmptyString in
  let r := Helper.mkraw "Berlin_2024" "2024-03-01" (Helper.Val "12.69")
             (Helper.Val EmptyString) in
  Helper.fields Sample.ids v = Ok r
  ∧ Helper.raw_purpose r = Helper.Val EmptyString
  ∧ Helper.strip Sample.ids v "U1" = Raise IndexError.
Proof.
  intros v r.
  assert (Hf : Helper.fields Sample.ids v = Ok r) by reflexivity.
  assert (Hp : Helper.raw_purpose r = Helper.Val EmptyString)
    by reflexivity.
  exact (conj Hf (conj Hp (strip_empty_purpose Sample.ids v "U1" r Hf Hp))).
Defined.

(** C5, as the code has it by design. With all four entries present and
    a purpose that is not empty, [strip] raises the [InputError]
    addressed to [invoice_cost] when the cost is no number: when [float]
    rejects its text (as it does [abc]) and when the input was left
    empty. It also raises it on the cost [1.234]. What [strip] does with
    other costs of more than two fractional digits is left open here. *)
Theorem strip_rejects_cost ev v user_id r p :
  Helper.fields ev v = Ok r →
  Helper.raw_purpose r = Helper.Val p →
  p ≠ EmptyString →
  (∀ cost,
     Helper.raw_cost r = Helper.Val cost →
     is_ascii cost = true →
     PyFloat.of_string cost = None →
     Helper.strip ev v user_id
     = Raise (InputError Helper.msg_not_a_number "invoice_cost"))
  ∧ (Helper.raw_cost r = Helper.Null →
     Helper.strip ev v user_id
     = Raise (InputError Helper.msg_not_a_number "invoice_cost"))
  ∧ (Helper.raw_cost r = Helper.Val "1.234" →
     Helper.strip ev v user_id
     = Raise (InputError Helper.msg_too_many_digits "invoice_cost"))
  ∧ is_ascii "abc" = true
  ∧ PyFloat.of_string "abc" = None.
Proof.
  intros H Hp Hne. rewrite (strip_unfold _ _ _ _ H), Hp.
  destruct p as [|c p]; [done|]. cbn [PyStr.first].
  repeat split.
  - intros cost -> _ Hnone. cbn [Helper.float_of_value]. by rewrite Hnone.
  - by intros ->.
  - intros ->. vm_compute. reflexivity.
Qed.

Lemma strip_rejects_cost_witness :
  let v := Sample.form "Berlin_2024" "2024-03-01" "abc" "taxi" in
  let r := Helper.mkraw "Berlin_2024" "2024-03-01" (Helper.Val "abc")
             (Helper.Val "taxi") in
  Helper.fields Sample.ids v = Ok r
  ∧ Helper.raw_purpose r = Helper.Val "taxi"
  ∧ "taxi" ≠ EmptyString
  ∧ Helper.raw_cost r = Helper.Val "abc"
  ∧ is_ascii "abc" = true
  ∧ PyFloat.of_string "abc" = None
  ∧ Helper.strip Sample.ids v "U1"
    = Raise (InputError Helper.msg_not_a_number "invoice_cost").
Proof.
  intros v r.
  assert (Hf : Helper.fields Sample.ids v = Ok r) by reflexivity.
  assert (Hp : Helper.raw_purpose r = Helper.Val "taxi") by reflexivity.
  assert (Hne : "taxi" ≠ EmptyString) by discriminate.
  assert (Hc : Helper.raw_cost r = Helper.Val "abc") by reflexivity.
  assert (Ha : is_ascii "abc" = true) by reflexivity.
  assert (Hn : PyFloat.of_string "abc" = None) by reflexivity.
  exact (conj Hf (conj Hp (conj Hne (conj Hc (conj Ha (conj Hn
           (proj1 (strip_rejects_cost Sample.ids v "U1" r "taxi" Hf Hp Hne)
              "abc" Hc Ha Hn))))))).
Defined.

(** The cost [1.234] on the sample form. *)
Lemma strip_rejects_three_digits :
  Helper.strip Sample.ids
    (Sample.form "Berlin_2024" "2024-03-01" "1.234" "taxi") "U1"
  = Raise (InputError Helper.msg_too_many_digits "invoice_cost").
Proof. vm_compute. reflexivity. Qed.

(** A cost that was left empty. *)
Lemma strip_rejects_empty_cost :
  Helper.strip Sample.ids
    (<["invoice_cost" := {[ "plain_text_input-action" := Sample.empty_input ]}]>
       (Sample.form "Berlin_2024" "2024-03-01" "1" "taxi")) "U1"
  = Raise (InputError Helper.msg_not_a_number "invoice_cost").
Proof. vm_compute. reflexivity. Qed.

(** C5 does not hold as stated: with an empty purpose the cost [abc] is
    never looked at, and the error is an [IndexError]. *)
Lemma strip_bad_cost_empty_purpose :
  Helper.fields Sample.ids
    (Sample.form "Berlin_2024" "2024-03-01" "abc" EmptyString)
  = Ok (Helper.mkraw "Berlin_2024" "2024-03-01" (Helper.Val "abc")
          (Helper.Val EmptyString))
  ∧ PyFloat.of_string "abc" = None
  ∧ Helper.strip Sample.ids
      (Sample.form "Berlin_2024" "2024-03-01" "abc" EmptyString) "U1"
    = Raise IndexError.
Proof. repeat split; vm_compute; reflexivity. Qed.

(** The test of the fractional digits looks at the text that [str] gives
    for the float, not at the cost as typed. A cost with five
    fractional digits passes, its text being [1e-05], which has no
    point; and a whole number of eighteen digits is turned down for its
    digits, its text being [1.2345678901234568e+17]. *)
Lemma strip_accepts_small_cost :
  ∃ d, Helper.strip Sample.ids
         (Sample.form "Berlin_2024" "2024-03-01" "0.00001" "taxi") "U1"
       = Ok d
       ∧ PyFloat.repr (Helper.cost d) = "1e-05".
Proof.
  eexists. split; [vm_compute; reflexivity|]. vm_compute. reflexivity.
Qed.

Lemma strip_rejects_long_integer :
  Helper.strip Sample.ids
    (Sample.form "Berlin_2024" "2024-03-01" "123456789012345678" "taxi")
    "U1"
  = Raise (InputError Helper.msg_too_many_digits "invoice_cost").
Proof. vm_compute. reflexivity. Qed.

(** C6, as the code has it. The cost of a record that [strip] returns is
    the float read from the cost entry, whatever its sign, and its
    [repr] has at most two characters after the point. *)
Theorem strip_cost_is_parsed ev v user_id d :
  Helper.strip ev v user_id = Ok d →
  ∃ r cost,
    Helper.fields ev v = Ok r
    ∧ Helper.raw_cost r = Helper.Val cost
    ∧ PyFloat.of_string cost = Some (Helper.cost d)
    ∧ PyStr.find "." (PyStr.reversed (PyFloat.repr (Helper.cost d))) ≤ 2.
Proof.
  intros H. destruct (Helper.fields ev v) as [r|e] eqn:Hf.
  - exists r. rewrite (strip_unfold _ _ _ _ Hf) in H.
    destruct (Helper.raw_purpose r) as [|p]; [done|].
    destruct (PyStr.first p); [|done].
    destruct (Helper.raw_cost r) as [|cost]; [done|]. exists cost.
    cbn [Helper.float_of_value] in H.
    destruct (PyFloat.of_string cost) as [x|]; [|done].
    destruct (Z.ltb_spec 2
                (PyStr.find "." (PyStr.reversed (PyFloat.repr x)))); [done|].
    injection H as <-. cbn. done.
  - unfold Helper.strip in H. rewrite Hf in H. done.
Qed.

Lemma strip_cost_is_parsed_witness :
  let v := Sample.form "Berlin_2024" "2024-03-01" "-5" "taxi" in
  let d := Helper.mkinvoice "2024-03-01" "Berlin_2024" "Taxi"
             Sample.minus_five "U1" in
  Helper.strip Sample.ids v "U1" = Ok d
  ∧ ∃ r cost,
      Helper.fields Sample.ids v = Ok r
      ∧ Helper.raw_cost r = Helper.Val cost
      ∧ PyFloat.of_string cost = Some (Helper.cost d)
      ∧ PyStr.find "." (PyStr.reversed (PyFloat.repr (Helper.cost d))) ≤ 2.
Proof.
  intros v d.
  assert (H : Helper.strip Sample.ids v "U1" = Ok d)
    by (vm_compute; reflexivity).
  exact (conj H (strip_cost_is_parsed Sample.ids v "U1" d H)).
Defined.

(** C6 does not hold as stated: the cost [-5] passes and the record
    carries the negative float [-5.0]. *)
Lemma strip_negative_cost :
  Helper.strip Sample.ids
    (Sample.form "Berlin_2024" "2024-03-01" "-5" "taxi") "U1"
  = Ok (Helper.mkinvoice "2024-03-01" "Berlin_2024" "Taxi"
          Sample.minus_five "U1")
  ∧ PyFloat.is_neg Sample.minus_five = true
  ∧ SFltb Sample.minus_five PyFloat.pzero = true
  ∧ PyFloat.repr Sample.minus_five = "-5.0".
Proof. repeat split; vm_compute; reflexivity. Qed.

(** C9. Before [set] has run, [compile] raises [NotSetError] and leaves
    the machine as it was: no directory is made, no process is started,
    no file is deleted. *)
Theorem compile_before_set sys self debug w :
  Inserter.is_set self = false →
  Inserter.compile sys self debug w
  = (Raise (NotSetError Inserter.msg_not_set), w).
Proof. intros H. unfold Inserter.compile. rewrite H. reflexivity. Qed.

Lemma compile_before_set_witness :
  Inserter.is_set (Sample.builder false) = false
  ∧ Inserter.compile Sample.failing_tectonic (Sample.builder false) false
      Sample.machine
    = (Raise (NotSetError Inserter.msg_not_set), Sample.machine).
Proof.
  split; [reflexivity|].
  apply (compile_before_set Sample.failing_tectonic (Sample.builder false)
           false Sample.machine).
  reflexivity.
Defined.

Lemma bind_inv {A B} (m : OS.M A) (k : A → OS.M B) w r w' :
  OS.bind m k w = (r, w') →
  (∃ a w1, m w = (Ok a, w1) ∧ k a w1 = (r, w'))
  ∨ (∃ e, m w = (Raise e, w') ∧ r = Raise e).
Proof.
  unfold OS.bind. destruct (m w) as [[a|e] w1]; intros H.
  - left. eauto.
  - right. injection H as <- <-. eauto.
Qed.

Lemma mkdir_spawned name w r w' :
  OS.mkdir name w = (r, w') → OS.spawned w' = OS.spawned w.
Proof.
  unfold OS.mkdir, OS.with_tree.
  repeat case_match; intros [= <- <-]; reflexivity.
Qed.

Lemma makedirs_from_spawned name todo done w r w' :
  OS.makedirs_from name done todo w = (r, w') →
  OS.spawned w' = OS.spawned w.
Proof.
  revert done w. induction todo as [|c todo IH]; intros done w; cbn.
  - intros H. injection H as <- <-. reflexivity.
  - repeat case_match.
    + apply IH.
    + intros [= <- <-]; reflexivity.
    + intros [= <- <-]; reflexivity.
    + unfold OS.bind, OS.with_tree. intros Hrun. apply IH in Hrun. exact Hrun.
Qed.

Lemma call_inv sys cmd w r w' :
  OS.call sys cmd w = (r, w') →
  ∃ ev, OS.argv ev = cmd
        ∧ OS.spawned w' = OS.spawned w ++ [ev]
        ∧ OS.tree w' = OS.left_tree ev
        ∧ r = match OS.status ev with
              | Some code => Ok code
              | None =>
                  Raise (FileNotFoundError (default EmptyString (head cmd)))
              end.
Proof.
  unfold OS.call. destruct (sys cmd (OS.tree w)) as [st t] eqn:E. intros H.
  exists (OS.mkevent cmd st t).
  destruct st; injection H as <- <-; done.
Qed.

Lemma check_call_inv sys cmd w r w' :
  OS.check_call sys cmd w = (r, w') →
  ∃ ev, OS.argv ev = cmd
        ∧ OS.spawned w' = OS.spawned w ++ [ev]
        ∧ OS.tree w' = OS.left_tree ev
        ∧ r = match OS.status ev with
              | Some code =>
                  if code =? 0 then Ok tt
                  else Raise (CalledProcessError code cmd)
              | None =>
                  Raise (FileNotFoundError (default EmptyString (head cmd)))
              end.
Proof.
  unfold OS.check_call. intros H.
  apply (bind_inv (OS.call sys cmd)) in H
    as [(code & w1 & Hc & H)|(e & Hc & ->)];
    apply call_inv in Hc as (ev & Ha & Hs & Ht & Hr); exists ev.
  - destruct (OS.status ev) as [code'|]; [|done].
    injection Hr as ->. unfold OS.ret, OS.raise in H.
    destruct (code' =? 0); injection H as <- <-; done.
  - destruct (OS.status ev); [done|]. injection Hr as ->. done.
Qed.

(** The cleanup starts nothing but [find]. *)
Lemma cleanup_spawned sys extensions w r w' :
  Inserter.cleanup sys extensions w = (r, w') →
  ∃ evs, OS.spawned w' = OS.spawned w ++ evs
         ∧ Forall (fun ev => is_cleanup (OS.argv ev) = true) evs.
Proof.
  revert w. induction extensions as [|x xs IH]; intros w; cbn.
  - intros H. injection H as <- <-. exists []. by rewrite app_nil_r.
  - intros H.
    apply (bind_inv (OS.check_call sys _)) in H
      as [(a & w1 & Hc & H)|(e & Hc & ->)];
      apply check_call_inv in Hc as (ev & Ha & Hs & _ & _).
    + apply IH in H as (evs & Hs' & Hall). exists (ev :: evs).
      split; [by rewrite Hs', Hs, <- app_assoc|].
      constructor; [by rewrite Ha | exact Hall].
    + exists [ev]. split; [exact Hs|]. constructor; [by rewrite Ha | done].
Qed.

(** [check_call] either ran a process that did not exit with a failure
    status, or raises the [CalledProcessError] of that status. *)
Lemma check_call_cases sys cmd w r w' :
  OS.check_call sys cmd w = (r, w') →
  ∃ ev, OS.argv ev = cmd
        ∧ OS.spawned w' = OS.spawned w ++ [ev]
        ∧ OS.tree w' = OS.left_tree ev
        ∧ ((∀ code, OS.status ev = Some code → code = 0)
           ∨ (∃ code, code ≠ 0 ∧ OS.status ev = Some code
                      ∧ r = Raise (CalledProcessError code (OS.argv ev)))).
Proof.
  intros (ev & Ha & Hs & Ht & Hr)%check_call_inv. exists ev.
  repeat split; try done.
  destruct (OS.status ev) as [code|]; [|by left].
  destruct (decide (code = 0)) as [Heq|Hne].
  - left. by intros ? [= <-].
  - right. exists code. apply Z.eqb_neq in Hne as Hb.
    by rewrite Hb, <- Ha in Hr.
Qed.

Lemma isdir_inv name w r w' :
  OS.isdir name w = (r, w') → w' = w ∧ ∃ b, r = Ok b.
Proof. unfold OS.isdir. intros [= <- <-]. eauto. Qed.

Lemma ensure_dir_spawned (d : bool) name w r w' :
  (if d then OS.ret tt else OS.mkdir name) w = (r, w') →
  OS.spawned w' = OS.spawned w.
Proof.
  destruct d; [intros [= <- <-]; reflexivity | apply mkdir_spawned].
Qed.

Lemma quiet_only (es : list OS.event) ev code :
  Forall quiet es → ev ∈ es →
  is_compiler (OS.argv ev) = true → OS.status ev = Some code → code = 0.
Proof.
  rewrite Forall_forall. intros Hall Hin Hc Hs.
  destruct (Hall ev Hin) as [_ H]. by apply H.
Qed.

Lemma cleanup_not_compiler ev :
  is_cleanup (OS.argv ev) = true → is_compiler (OS.argv ev) = false.
Proof.
  destruct (OS.argv ev) as [|prog ?]; [done|]. cbn.
  by intros ->%String.eqb_eq.
Qed.

(** When every process before the cleanup was quiet, no compiler failed
    in the whole run. *)
Lemma quiet_run sys (debug : bool) w w4 w' r es evs ev code :
  OS.spawned w4 = OS.spawned w ++ es →
  Forall quiet es →
  (if debug then OS.ret tt
   else Inserter.cleanup sys ["aux"; "log"; "out"; "gz"]) w4 = (r, w') →
  OS.spawned w' = OS.spawned w ++ evs →
  ev ∈ evs →
  is_compiler (OS.argv ev) = true →
  OS.status ev = Some code →
  code = 0.
Proof.
  intros Hes Hq Hrun Hevs Hin Hc Hs.
  assert (∃ fs, OS.spawned w' = OS.spawned w4 ++ fs
                ∧ Forall (fun ev => is_cleanup (OS.argv ev) = true) fs)
    as (fs & Hfs & Hall).
  { destruct debug; [|by apply cleanup_spawned in Hrun].
    injection Hrun as <- <-. exists []. by rewrite app_nil_r. }
  rewrite Hfs, Hes, <- app_assoc in Hevs. apply app_inv_head in Hevs as <-.
  apply elem_of_app in Hin as [Hin|Hin].
  - by apply (quiet_only es ev).
  - rewrite Forall_forall in Hall.
    apply Hall, cleanup_not_compiler in Hin. congruence.
Qed.

(** When the last process of a run is the only one that was not quiet,
    it is the compiler that failed. *)
Lemma failed_last (es : list OS.event) last_ev ev code :
  Forall quiet es →
  ev ∈ es ++ [last_ev] →
  is_compiler (OS.argv ev) = true → OS.status ev = Some code → code ≠ 0 →
  ev = last_ev.
Proof.
  intros Hq [Hin|Hin%list_elem_of_singleton]%elem_of_app Hc Hs Hcode; [|done].
  by destruct Hcode; apply (quiet_only es ev).
Qed.

Lemma quiet_which ev prog :
  OS.argv ev = ["which"; prog] → quiet ev.
Proof. intros H. by split; rewrite H. Qed.

Lemma quiet_status ev prog args :
  OS.argv ev = prog :: args →
  String.eqb prog "find" = false →
  (∀ code, OS.status ev = Some code → code = 0) →
  quiet ev.
Proof. intros H Hp Hs. split; [by rewrite H | by intros _]. Qed.

Ltac quiet_list :=
  lazymatch goal with
  | |- Forall _ [] => constructor
  | |- Forall _ (_ :: _) =>
      constructor;
      [first [assumption
             | eapply quiet_status; [eassumption | reflexivity | assumption]]
      | quiet_list]
  end.

Theorem compile_failure_skips_cleanup sys self debug w r w' evs ev code :
  Inserter.compile sys self debug w = (r, w') →
  OS.spawned w' = OS.spawned w ++ evs →
  ev ∈ evs →
  is_compiler (OS.argv ev) = true →
  OS.status ev = Some code →
  code ≠ 0 →
  r = Raise (CalledProcessError code (OS.argv ev))
  ∧ last evs = Some ev
  ∧ Forall (fun e => is_cleanup (OS.argv e) = false) evs
  ∧ OS.tree w' = OS.left_tree ev.
Proof.
  intros Hrun Hevs Hin Hcomp Hstatus Hcode.
  (* A run all of whose processes were quiet is excluded. *)
  assert (Hquiet : ∀ es, evs = es → Forall quiet es → False).
  { intros es -> Hq. by apply Hcode, (quiet_only es ev). }
  (* So is a run that reached the cleanup. *)
  assert (Hclean : ∀ w4 es,
            OS.spawned w4 = OS.spawned w ++ es → Forall quiet es →
            (if debug then OS.ret tt
             else Inserter.cleanup sys ["aux"; "log"; "out"; "gz"]) w4
            = (r, w') → False).
  { intros w4 es Hes Hq Hc.
    by apply Hcode, (quiet_run sys debug w w4 w' r es evs ev code). }
  (* A run that ended with the failure of its last process. *)
  assert (Hfail : ∀ es e2 c,
            evs = es ++ [e2] → Forall quiet es →
            c ≠ 0 → OS.status e2 = Some c →
            r = Raise (CalledProcessError c (OS.argv e2)) →
            is_cleanup (OS.argv e2) = false →
            OS.tree w' = OS.left_tree e2 →
            r = Raise (CalledProcessError code (OS.argv ev))
            ∧ last evs = Some ev
            ∧ Forall (fun e => is_cleanup (OS.argv e) = false) evs
            ∧ OS.tree w' = OS.left_tree ev).
  { intros es e2 c -> Hq Hc Hs2 -> Hcl Ht.
    assert (ev = e2) as -> by by apply (failed_last es e2 ev code).
    assert (c = code) as -> by congruence.
    repeat split; [by rewrite last_snoc| |done].
    apply Forall_app. split; [|by constructor].
    eapply Forall_impl; [exact Hq|]. by intros ? [? _]. }
  unfold Inserter.compile in Hrun.
  destruct (Inserter.is_set self); cbn [negb] in Hrun.
  2:{ injection Hrun as <- <-. exfalso; apply (Hquiet []); [|done].
      apply (app_inv_head (OS.spawned w)). by rewrite app_nil_r. }
  apply bind_inv in Hrun as [(d & w1 & Hd & Hrun)|(e & Hd & ->)].
  2:{ apply isdir_inv in Hd as [_ [b Hb]]. done. }
  apply isdir_inv in Hd as [-> _].
  apply bind_inv in Hrun as [([] & w2 & Hmk & Hrun)|(e & Hmk & ->)];
    apply ensure_dir_spawned in Hmk.
  2:{ exfalso; apply (Hquiet []); [|done]. apply (app_inv_head (OS.spawned w)).
      by rewrite app_nil_r, <- Hevs. }
  apply bind_inv in Hrun as [(found & w3 & Hwhich & Hrun)|(e & Hwhich & ->)];
    apply call_inv in Hwhich as (e1 & Ha1 & Hs3 & _ & _);
    rewrite Hmk in Hs3; apply quiet_which in Ha1.
  2:{ exfalso; apply (Hquiet [e1]); [|quiet_list].
      apply (app_inv_head (OS.spawned w)). by rewrite <- Hevs. }
  destruct (found =? 0).
  - (* tectonic *)
    apply bind_inv in Hrun as [([] & w4 & Hbuild & Hrun)|(e & Hbuild & ->)];
      apply bind_inv in Hbuild as [([] & w5 & Hmd & Hcc)|(e' & Hmd & He)];
      apply makedirs_from_spawned in Hmd;
      try (apply check_call_cases in Hcc as (e2 & Ha2 & Hs5 & Ht5 & Hcc);
           rewrite Hmd, Hs3, <- app_assoc in Hs5).
    + destruct Hcc as [Hok|(c & _ & _ & [=])].
      exfalso. apply (Hclean w4 [e1; e2]); [exact Hs5 | quiet_list | done].
    + done.
    + rewrite Hs5 in Hevs. apply app_inv_head in Hevs as <-.
      destruct Hcc as [Hok|(c & Hc & Hs2 & [= ->])].
      * exfalso. apply (Hquiet [e1; e2]); [done | quiet_list].
      * apply (Hfail [e1] e2 c);
          [done | quiet_list | done | done | done | by rewrite Ha2 | done].
    + exfalso. apply (Hquiet [e1]); [|quiet_list].
      apply (app_inv_head (OS.spawned w)). by rewrite <- Hevs, Hmd.
  - (* pdflatex, or no compiler at all *)
    apply bind_inv in Hrun as [([] & w4 & Hbuild & Hrun)|(e & Hbuild & ->)];
      apply bind_inv in Hbuild
        as [(found' & w5 & Hwhich & Hcc)|(e' & Hwhich & He)];
      apply call_inv in Hwhich as (e2 & Ha2 & Hs5 & _ & _);
      rewrite Hs3, <- app_assoc in Hs5; apply quiet_which in Ha2.
    + destruct (found' =? 0).
      * apply check_call_cases in Hcc as (e3 & Ha3 & Hs6 & Ht6 & Hcc).
        rewrite Hs5, <- app_assoc in Hs6.
        destruct Hcc as [Hok|(c & _ & _ & [=])].
        exfalso. apply (Hclean w4 [e1; e2; e3]); [exact Hs6 | quiet_list | done].
      * injection Hcc as <-.
        exfalso. apply (Hclean w5 [e1; e2]); [exact Hs5 | quiet_list | done].
    + done.
    + destruct (found' =? 0).
      * apply check_call_cases in Hcc as (e3 & Ha3 & Hs6 & Ht6 & Hcc).
        rewrite Hs5, <- app_assoc in Hs6.
        rewrite Hs6 in Hevs. apply app_inv_head in Hevs as <-.
        destruct Hcc as [Hok|(c & Hc & Hs2 & [= ->])].
        -- exfalso. apply (Hquiet [e1; e2; e3]); [done | quiet_list].
        -- apply (Hfail [e1; e2] e3 c);
             [done | quiet_list | done | done | done | by rewrite Ha3 | done].
      * done.
    + exfalso. apply (Hquiet [e1; e2]); [|quiet_list].
      apply (app_inv_head (OS.spawned w)). by rewrite <- Hevs.
Qed.

Lemma compile_failure_skips_cleanup_witness :
  let r := Sample.failed_run.1 in
  let w' := Sample.failed_run.2 in
  let ev := Sample.failed_event in
  Inserter.compile Sample.failing_tectonic (Sample.builder true) false
    Sample.machine = (r, w')
  ∧ OS.spawned w' = OS.spawned Sample.machine ++ OS.spawned w'
  ∧ ev ∈ OS.spawned w'
  ∧ is_compiler (OS.argv ev) = true
  ∧ OS.status ev = Some 1
  ∧ 1 ≠ 0
  ∧ r = Raise (CalledProcessError 1 (OS.argv ev))
  ∧ last (OS.spawned w') = Some ev
  ∧ Forall (fun e => is_cleanup (OS.argv e) = false) (OS.spawned w')
  ∧ OS.tree w' = OS.left_tree ev.
Proof.
  intros r w' ev.
  assert (H1 : Inserter.compile Sample.failing_tectonic (Sample.builder true)
                 false Sample.machine = (r, w'))
    by apply surjective_pairing.
  assert (H2 : OS.spawned w' = OS.spawned Sample.machine ++ OS.spawned w')
    by reflexivity.
  assert (H3 : ev ∈ OS.spawned w').
  { apply list_elem_of_lookup. exists 1%nat. vm_compute. reflexivity. }
  assert (H4 : is_compiler (OS.argv ev) = true) by reflexivity.
  assert (H5 : OS.status ev = Some 1) by reflexivity.
  assert (H6 : 1 ≠ 0) by lia.
  exact (conj H1 (conj H2 (conj H3 (conj H4 (conj H5 (conj H6
           (compile_failure_skips_cleanup _ _ _ _ _ _ _ _ _
              H1 H2 H3 H4 H5 H6))))))).
Defined.

(** ** The ledger store: [Datafile] *)

Lemma split_absent (c : ascii) (s : string) :
  occurs c s = false → PyStr.split c s = [s].
Proof.
  induction s as [|a s IH]; [done|]. cbn [occurs PyStr.split].
  intros [Ha Hs]%orb_false_iff. by rewrite Ha, (IH Hs).
Qed.

Lemma append_not_nil (a : string) (c : ascii) (b : string) :
  a +:+ String c b ≠ EmptyString.
Proof. by destruct a. Qed.

Lemma norm_ledger (e : string) :
  occurs "/" e = false →
  OS.norm (Helper.datapath +:+ e +:+ Helper.extension) = ledger_path e.
Proof.
  intros He.
  unfold ledger_path, OS.norm, Helper.datapath, Helper.extension.
  assert (Hs : PyStr.split "/" ("db/" +:+ e +:+ ".data")
               = ["db"; e +:+ ".data"]).
  { change ("db/" +:+ e +:+ ".data")
      with (String "d" (String "b" (String "/" (e +:+ ".data")))).
    cbn [PyStr.split]. 
    rewrite split_absent; [done|].
    by rewrite occurs_append, He. }
  rewrite Hs. clear Hs.
  change (PyStr.startswith ("db/" +:+ e +:+ ".data") "/") with false.
  assert (Hne : ∀ t, e +:+ ".data" = t → (String.length t < 5)%nat → False).
  { intros t <-. rewrite length_append. cbn. lia. }
  rewrite filter_cons_True by done.
  rewrite filter_cons_True; [done|].
  split; intros H; apply (Hne _ H); cbn; lia.
Qed.

Lemma has_dir_dirs (t t' : OS.fs) (p : OS.path) :
  OS.dirs t = OS.dirs t' → OS.has_dir t p = OS.has_dir t' p.
Proof. intros H. destruct p as [|a [|b p]]; cbn; by rewrite ?H. Qed.

Lemma has_dir_add (ds : gset OS.path) fs (q p : OS.path) :
  OS.has_dir (OS.mkfs ({[q]} ∪ ds) fs) p
  = bool_decide (p = q) || OS.has_dir (OS.mkfs ds fs) p.
Proof.
  assert (H : bool_decide (p ∈ ({[q]} ∪ ds : gset OS.path))
              = bool_decide (p = q) || bool_decide (p ∈ ds)).
  { apply eq_true_iff_eq.
    rewrite orb_true_iff, !bool_decide_eq_true. set_solver. }
  destruct p as [|a [|b p]]; cbn [OS.has_dir OS.dirs].
  - by rewrite orb_true_r.
  - rewrite H, !orb_assoc. f_equal. apply orb_comm.
  - exact H.
Qed.

Section Ledger.
Context (get_events : gmap string (gmap string string)).
Context (e date : string) (info : gmap string string).
Hypothesis Hevent : get_events !! e = Some info.
Hypothesis Hdate : info !! "date" = Some date.
Hypothesis Hplain : occurs "/" e = false.

Let name := Helper.datapath +:+ e +:+ Helper.extension.
Local Abbreviation p := (ledger_path e).

Lemma Datafile_init_existing w c :
  OS.has_dir (OS.tree w) ["db"] = true →
  OS.files (OS.tree w) !! p = Some c →
  Helper.Datafile_init get_events e w
  = (Ok (Helper.mkDatafile e false name date), w).
Proof.
  intros Hdb Hc. unfold Helper.Datafile_init.
  unfold mbind, OS.M_bind, OS.bind, OS.lift, getitem.
  rewrite Hevent, Hdate. unfold OS.isdir.
  change (OS.norm Helper.datapath) with ["db"]. rewrite Hdb.
  unfold OS.ret, OS.isfile. rewrite norm_ledger by done. fold p.
  unfold OS.has_file. rewrite Hc.
  rewrite bool_decide_eq_true_2 by eauto. reflexivity.
Qed.

Lemma Datafile_init_fresh w :
  absent e w →
  ∃ w1, Helper.Datafile_init get_events e w
        = (Ok (Helper.mkDatafile e true name date), w1)
        ∧ holds e w1 EmptyString.
Proof.
  intros (Hdb & Hpd & Hpf). unfold Helper.Datafile_init.
  unfold mbind, OS.M_bind, OS.bind, OS.lift, getitem.
  rewrite Hevent, Hdate. unfold OS.isdir.
  change (OS.norm Helper.datapath) with ["db"].
  destruct (OS.has_dir (OS.tree w) ["db"]) eqn:Hd.
  - unfold OS.ret, OS.isfile. rewrite norm_ledger by done. fold p.
    rewrite Hpf. unfold OS.open_w. rewrite norm_ledger by done. fold p.
    rewrite Hpd. unfold OS.parent_error.
    change (OS.parent p) with ["db"]. rewrite Hd.
    eexists. split; [reflexivity|]. unfold holds. fold p. cbn [OS.with_tree OS.tree].
    rewrite !(has_dir_dirs (OS.mkfs _ _) (OS.tree w)) by done.
    repeat split; try done. cbn. by rewrite lookup_insert_eq.
  - unfold OS.mkdir. change (OS.norm Helper.datapath) with ["db"].
    rewrite Hd, Hdb. cbn [orb]. unfold OS.parent_error.
    change (OS.parent ["db"]) with (@nil string). cbn [OS.has_dir].
    unfold OS.with_tree, OS.isfile. cbn [OS.tree].
    rewrite norm_ledger by done. fold p.
    unfold OS.has_file at 1. cbn [OS.files]. fold (OS.has_file (OS.tree w) p).
    rewrite Hpf. unfold OS.open_w. rewrite norm_ledger by done. fold p.
    cbn [OS.tree]. 
    assert (Hp : ∀ fs, OS.has_dir (OS.mkfs ({[["db"]]} ∪ OS.dirs (OS.tree w)) fs) p = false).
    { intros fs. rewrite has_dir_add.
      rewrite (bool_decide_eq_false_2 (p = ["db"])) by done.
      by rewrite (has_dir_dirs _ (OS.tree w)). }
    assert (Hq : ∀ fs, OS.has_dir (OS.mkfs ({[["db"]]} ∪ OS.dirs (OS.tree w)) fs) ["db"] = true).
    { intros fs. rewrite has_dir_add. by rewrite bool_decide_eq_true_2. }
    rewrite Hp. unfold OS.parent_error. change (OS.parent p) with ["db"].
    rewrite Hq.
    eexists. split; [reflexivity|]. unfold holds. fold p. cbn [OS.with_tree OS.tree].
    rewrite Hp, Hq.
    repeat split. cbn. by rewrite lookup_insert_eq.
Qed.

Lemma open_a_holds w c :
  holds e w c → ∃ w1, OS.open_a name w = (Ok tt, w1) ∧ holds e w1 c.
Proof.
  intros (Hdb & Hpd & Hc). unfold OS.open_a, name.
  rewrite norm_ledger by done. fold p.
  rewrite Hpd. unfold OS.parent_error. change (OS.parent p) with ["db"].
  rewrite Hdb. eexists. split; [reflexivity|].
  unfold holds. fold p. cbn [OS.with_tree OS.tree].
  rewrite !(has_dir_dirs (OS.mkfs _ _) (OS.tree w)) by done.
  repeat split; try done. cbn [OS.files].
  by rewrite lookup_insert_eq, Hc.
Qed.

Lemma write_holds w c s :
  holds e w c → ∃ w1, OS.write name s w = (Ok tt, w1) ∧ holds e w1 (c +:+ s).
Proof.
  intros (Hdb & Hpd & Hc). unfold OS.write, name.
  rewrite norm_ledger by done. fold p.
  eexists. split; [reflexivity|].
  unfold holds. fold p. cbn [OS.with_tree OS.tree].
  rewrite !(has_dir_dirs (OS.mkfs _ _) (OS.tree w)) by done.
  repeat split; try done. cbn [OS.files].
  by rewrite lookup_insert_eq, Hc.
Qed.

Lemma store_holds (new : bool) d w c :
  holds e w c →
  ∃ w1, Helper.store (Helper.mkDatafile e new name date) d w
        = (Ok (Helper.mkDatafile e false name date), w1)
        ∧ holds e w1 (c +:+ (if new then Helper.header_line d
                           else EmptyString)
                      +:+ Helper.row_line d).
Proof.
  intros H. unfold Helper.store.
  unfold mbind, OS.M_bind, OS.bind. cbn [Helper.filename Helper.is_new_file].
  destruct (open_a_holds w c H) as (w1 & -> & H1).
  assert (∃ w2, (if new then OS.write name (Helper.header_line d)
                 else OS.ret tt) w1 = (Ok tt, w2)
                ∧ holds e w2 (c +:+ (if new then Helper.header_line d
                                   else EmptyString)))
    as (w2 & -> & H2).
  { destruct new; [by apply write_holds|].
    exists w1. by rewrite append_nil_r. }
  destruct (write_holds w2 _ (Helper.row_line d) H2) as (w3 & -> & H3).
  exists w3. split; [reflexivity|]. by rewrite <- append_assoc.
Qed.

Lemma append_absent d w :
  Helper.event_name d = e → absent e w →
  ∃ w1, Helper.append get_events d w
        = (Ok (Helper.mkDatafile e false name date), w1)
        ∧ holds e w1 (Helper.header_line d +:+ Helper.row_line d).
Proof.
  intros He Ha. unfold Helper.append. rewrite He.
  unfold mbind, OS.M_bind, OS.bind.
  destruct (Datafile_init_fresh w Ha) as (w1 & -> & H1).
  destruct (store_holds true d w1 _ H1) as (w2 & -> & H2).
  exists w2. split; [reflexivity|]. by rewrite append_nil_l in H2.
Qed.

Lemma append_holds d w c :
  Helper.event_name d = e → holds e w c →
  ∃ w1, Helper.append get_events d w
        = (Ok (Helper.mkDatafile e false name date), w1)
        ∧ holds e w1 (c +:+ Helper.row_line d).
Proof.
  intros He H. unfold Helper.append. rewrite He.
  unfold mbind, OS.M_bind, OS.bind.
  destruct H as (Hdb & Hpd & Hc).
  rewrite (Datafile_init_existing w c Hdb Hc).
  destruct (store_holds false d w c) as (w2 & -> & H2); [done|].
  exists w2. split; [reflexivity|]. by rewrite append_nil_l in H2.
Qed.

Lemma append_all_holds ds w c :
  Forall (fun d => Helper.event_name d = e) ds → holds e w c →
  ∃ w1, Helper.append_all get_events ds w = (Ok tt, w1)
        ∧ holds e w1 (c +:+ join_all (Helper.row_line <$> ds)).
Proof.
  revert w c. induction ds as [|d ds IH]; intros w c Hall H.
  - exists w. split; [reflexivity|]. by rewrite append_nil_r.
  - apply Forall_cons in Hall as [He Hall].
    cbn [Helper.append_all]. unfold mbind, OS.M_bind, OS.bind.
    destruct (append_holds d w c He H) as (w1 & -> & H1).
    destruct (IH w1 _ Hall H1) as (w2 & -> & H2).
    exists w2. split; [reflexivity|]. by rewrite append_assoc in H2.
Qed.
End Ledger.

(** The text of the ledger after the submissions [d :: ds] to an event
    that the lookup knows, whose name has no slash and whose ledger did
    not exist: what the first submission writes for the header, then what
    each submission writes for its record. *)
Lemma ledger_text get_events e info date d ds w :
  get_events !! e = Some info →
  info !! "date" = Some date →
  occurs "/" e = false →
  Forall (fun d' => Helper.event_name d' = e) (d :: ds) →
  absent e w →
  ∃ w', Helper.append_all get_events (d :: ds) w = (Ok tt, w')
        ∧ OS.files (OS.tree w')
            !! OS.norm (Helper.datapath +:+ e +:+ Helper.extension)
          = Some ("invoice_date,event_name,purpose,cost,user
" +:+ join_all (Helper.row_line <$> d :: ds)).
Proof.
  intros Hevent Hdate Hplain [He Hall]%Forall_cons Habsent.
  cbn [Helper.append_all]. unfold mbind, OS.M_bind, OS.bind.
  destruct (append_absent get_events e date info Hevent Hdate Hplain
              d w He Habsent) as (w1 & -> & H1).
  destruct (append_all_holds get_events e date info Hevent Hdate Hplain
              ds w1 _ Hall H1) as (w2 & -> & H2).
  exists w2. split; [reflexivity|].
  rewrite norm_ledger by done. destruct H2 as (_ & _ & ->).
  by rewrite append_assoc.
Qed.

(** The ledger that the three sample submissions leave. *)
Lemma ledger_after_three :
  ∃ w', Helper.append_all Sample.events
          [Sample.taxi; Sample.hotel; Sample.food] Sample.machine
        = (Ok tt, w')
        ∧ OS.files (OS.tree w') !! ["db"; "Berlin_2024.data"]
          = Some "invoice_date,event_name,purpose,cost,user
2024-03-01,Berlin_2024,Taxi,10.0,U1
2024-01-15,Berlin_2024,Hotel,5.5,U2
2024-02-20,Berlin_2024,Food,2.0,U1
".
Proof.
  eexists. split; [vm_compute; reflexivity|]. vm_compute. reflexivity.
Qed.

(** ** Reading a float back after padding *)















(** ** The report assembler: [pad_prices] *)


(** The loop of [pad_prices], up to the round [idx]: the prices before
    [idx] are padded, the others are still to do. *)
Lemma pad_at_loop (seen todo : list string) :
  foldl Inserter.pad_at (seen ++ todo) (seq (length seen) (length todo))
  = seen ++ (padded <$> todo).
Proof.
  revert seen. induction todo as [|price todo IH]; intros seen; [done|].
  cbn [length seq foldl].
  assert (Inserter.pad_at (seen ++ price :: todo) (length seen)
          = (seen ++ [padded price]) ++ todo) as ->.
  { unfold Inserter.pad_at, padded.
    rewrite list_lookup_middle by done.
    destruct (PyStr.endswith price ".0"); [|by rewrite <- app_assoc].
    rewrite <- (Nat.add_0_r (length seen)), insert_app_r.
    by rewrite <- app_assoc. }
  replace (S (length seen)) with (length (seen ++ [padded price]))
    by (rewrite length_app; cbn; lia).
  rewrite IH. by rewrite <- app_assoc.
Qed.

Lemma pad_prices_result self cost :
  Inserter.data self !! "cost" = Some cost →
  Inserter.pad_prices self
  = Ok (Inserter.mkLatexBuilder (Inserter.data_size self)
          (Inserter.event_date self) (Inserter.is_set self)
          (<["cost" := padded <$> cost]> (Inserter.data self))
          (padded (Inserter.total self)) (Inserter.dates self)
          (Inserter.event_name self)).
Proof.
  intros Hc. unfold Inserter.pad_prices, getitem. rewrite Hc.
  cbn [mbind res_mbind res_bind].
  pose proof (pad_at_loop [] (cost ++ [Inserter.total self])) as H.
  rewrite !app_nil_l in H. change (length (@nil string)) with O in H.
  rewrite H, fmap_app. cbn [fmap list_fmap].
  rewrite last_snoc. cbn [mbind res_mbind res_bind].
  by rewrite removelast_last.
Qed.

(** ** The report assembler: loading a ledger *)

Lemma empty_columns_expected :
  Inserter.empty_columns expected_header = columns [] [] [] [] [].
Proof. vm_compute. reflexivity. Qed.

Lemma add_entry_columns d e p c u ds es ps cs us :
  Inserter.add_entry expected_header [d; e; p; c; u] (columns ds es ps cs us)
  = columns (ds ++ [d]) (es ++ [e]) (ps ++ [p]) (cs ++ [c]) (us ++ [u]).
Proof. vm_compute. reflexivity. Qed.

Lemma columns_lookup ds es ps cs us :
  columns ds es ps cs us !! "invoice_date" = Some ds
  ∧ columns ds es ps cs us !! "event_name" = Some es
  ∧ columns ds es ps cs us !! "purpose" = Some ps
  ∧ columns ds es ps cs us !! "cost" = Some cs
  ∧ columns ds es ps cs us !! "user" = Some us.
Proof. repeat split; vm_compute; reflexivity. Qed.

Lemma res_map_ok {A B} (f : A → res B) (l : list A) :
  Forall (fun a => ∃ b, f a = Ok b) l →
  ∃ bs, res_map f l = Ok bs ∧ length bs = length l.
Proof.
  induction 1 as [|a l [b Hb] _ (bs & IH & Hlen)]; cbn.
  - by exists [].
  - rewrite Hb, IH. exists (b :: bs). cbn. by rewrite Hlen.
Qed.

Lemma loaded_rows_step n data line :
  loaded_rows n data →
  well_formed_row line = true →
  loaded_rows (S n)
    (Inserter.add_entry expected_header
       (PyStr.split "," (PyStr.rstrip line)) data).
Proof.
  intros (ds & es & ps & cs & us & -> & Hd & He & Hp & Hc & Hu & Hds & Hcs).
  unfold well_formed_row.
  destruct (PyStr.split "," (PyStr.rstrip line))
    as [|d [|e [|p [|c [|u [|]]]]]]; try done.
  destruct (PyDate.strptime d) as [x|] eqn:Ex; [|done].
  destruct (PyFloat.of_string c) as [y|] eqn:Ey; [|done]. intros _.
  rewrite add_entry_columns.
  exists (ds ++ [d]), (es ++ [e]), (ps ++ [p]), (cs ++ [c]), (us ++ [u]).
  rewrite !length_app. cbn [length].
  repeat split; try lia.
  - apply Forall_app. split; [done|]. constructor; [by exists x | done].
  - apply Forall_app. split; [done|].
    constructor; [|done]. exists y. unfold Inserter.float_of. by rewrite Ey.
Qed.

Lemma loaded_rows_all rows n data :
  loaded_rows n data →
  forallb well_formed_row rows = true →
  loaded_rows (n + length rows)
    (foldl (fun d line =>
              Inserter.add_entry expected_header
                (PyStr.split "," (PyStr.rstrip line)) d) data rows).
Proof.
  revert n data. induction rows as [|line rows IH]; intros n data H Hall.
  - cbn. by rewrite Nat.add_0_r.
  - cbn [forallb] in Hall. apply andb_true_iff in Hall as [Hl Hall].
    cbn [foldl length]. rewrite <- Nat.add_succ_comm.
    apply IH; [|done]. by apply loaded_rows_step.
Qed.

(** A well-formed ledger loads, and its five columns have the length
    [data_size]. *)
Lemma init_well_formed name date text w :
  PyStr.endswith name ".data" = true →
  OS.read name w = (Ok text, w) →
  well_formed text = true →
  ∃ self, Inserter.init name date w = (Ok self, w)
          ∧ (0 < Inserter.data_size self)%nat
          ∧ S (Inserter.data_size self) = length (OS.readlines text)
          ∧ ∀ key, key ∈ expected_header →
              ∃ col, Inserter.data self !! key = Some col
                     ∧ length col = Inserter.data_size self.
Proof.
  intros Hname Hread Hwf. unfold Inserter.init. rewrite Hname. cbn [negb].
  unfold mbind, OS.M_bind, OS.bind. rewrite Hread.
  unfold well_formed in Hwf.
  destruct (OS.readlines text) as [|first [|row rows]]; try done.
  apply andb_true_iff in Hwf as [Hh%bool_decide_eq_true Hrows].
  unfold Inserter.load. rewrite Hh, empty_columns_expected.
  assert (H0 : loaded_rows 0 (columns [] [] [] [] []))
    by (exists [], [], [], [], []; repeat split; constructor).
  pose proof (loaded_rows_all (row :: rows) 0 _ H0 Hrows) as H.
  destruct H as (ds & es & ps & cs & us & -> & Hd & He & Hp & Hc & Hu & Hds & Hcs).
  destruct (columns_lookup ds es ps cs us) as (Ld & Le & Lp & Lc & Lu).
  unfold OS.lift, getitem. cbn [mbind res_mbind res_bind]. rewrite Lc.
  unfold res_mbind at 1. cbn [res_bind]. unfold Inserter.total_of.
  destruct (res_map_ok Inserter.float_of cs Hcs) as (prices & -> & _).
  unfold mbind, res_mbind. cbn [res_bind]. rewrite Ld. cbn [res_bind].
  destruct (res_map_ok PyDate.strptime ds Hds) as (dates & -> & _).
  cbn [res_bind]. rewrite Le. cbn [res_bind].
  destruct es as [|name0 es]; [cbn in He; lia|].
  cbn [list_getitem lookup list_lookup res_bind].
  eexists. split; [reflexivity|]. cbn [Inserter.data_size Inserter.data length].
  repeat split; [lia|].
  intros key Hkey. unfold expected_header in Hkey.
  rewrite !elem_of_cons in Hkey. cbn [length Nat.add] in *.
  destruct Hkey as [->|[->|[->|[->|[->|Hnil]]]]]; eauto.
  by apply elem_of_nil in Hnil.
Qed.

Lemma res_map_raise {A B} (f : A → res B) (l : list A) e :
  res_map f l = Raise e → ∃ a, f a = Raise e.
Proof.
  induction l as [|a l IH]; cbn; [done|].
  destruct (f a) as [b|e'] eqn:E; [|intros [= <-]; eauto].
  destruct (res_map f l); [done|]. intros [= <-]. by apply IH.
Qed.

Lemma obstacle_cases t name seen todo :
  OS.obstacle t name seen todo = NotADirectoryError name
  ∨ OS.obstacle t name seen todo = FileNotFoundError name.
Proof.
  revert seen. induction todo as [|c todo IH]; intros seen; cbn.
  - by right.
  - destruct (OS.has_dir _ _); [apply IH|].
    destruct (OS.has_file _ _); [by left | by right].
Qed.

Lemma read_no_format_error name w w1 msg :
  OS.read name w ≠ (Raise (InvalidFormatError msg), w1).
Proof.
  unfold OS.read, OS.parent_error. cbv zeta.
  destruct (OS.has_dir _ (OS.norm name)); [by intros [=]|].
  destruct (OS.files _ !! _); [by intros [=]|].
  destruct (OS.has_dir _ _); [by intros [=]|].
  destruct (obstacle_cases (OS.tree w) name [] (OS.parent (OS.norm name)))
    as [-> | ->]; by intros [=].
Qed.

(** Past the test of the file name, nothing in the constructor raises
    [InvalidFormatError]. *)
Lemma init_no_format_error name date w msg :
  PyStr.endswith name ".data" = true →
  (Inserter.init name date w).1 ≠ Raise (InvalidFormatError msg).
Proof.
  intros Hname. unfold Inserter.init. rewrite Hname. cbn [negb].
  unfold mbind, OS.M_bind, OS.bind.
  destruct (OS.read name w) as [[text|e] w1] eqn:Hread.
  - destruct (Inserter.load (OS.readlines text)) as [d n].
    unfold OS.lift, getitem, Inserter.total_of. cbn [fst]. 
    destruct d as [data|]; [|done].
    unfold mbind, res_mbind. cbn [res_bind].
    destruct (data !! "cost") as [cost|]; [|done]. cbn [res_bind].
    destruct (res_map Inserter.float_of cost) as [prices|e] eqn:E1.
    2:{ apply res_map_raise in E1 as [a Ha]. unfold Inserter.float_of in Ha.
        destruct (PyFloat.of_string a); [done|]. by injection Ha as <-. }
    cbn [res_bind].
    destruct (data !! "invoice_date") as [ds|]; [|done]. cbn [res_bind].
    destruct (res_map PyDate.strptime ds) as [dates|e] eqn:E2.
    2:{ apply res_map_raise in E2 as [a Ha]. unfold PyDate.strptime in Ha.
        cbn [res_bind]. intros [= ->]. revert Ha. by repeat case_match. }
    cbn [res_bind].
    destruct (data !! "event_name") as [names|]; [|done]. cbn [res_bind].
    by destruct names.
  - cbn [fst]. intros [= ->]. by apply read_no_format_error in Hread.
Qed.

(** C3, as the code has it. The constructor raises [InvalidFormatError]
    exactly when the file name does not end in [.data]: neither the
    header nor the number of fields of a row is checked. On a machine
    whose file holds a well-formed ledger (the expected header, then at
    least one row of five fields with a date and a cost that can be
    read), it returns a builder whose five columns all have the length
    [data_size], the number of rows. *)
Theorem init_checks_name_only name date w :
  (PyStr.endswith name ".data" = false →
   Inserter.init name date w
   = (Raise (InvalidFormatError Inserter.msg_wrong_format), w))
  ∧ (PyStr.endswith name ".data" = true →
     ∀ msg, (Inserter.init name date w).1 ≠ Raise (InvalidFormatError msg))
  ∧ (∀ text,
       PyStr.endswith name ".data" = true →
       OS.read name w = (Ok text, w) →
       well_formed text = true →
       ∃ self, Inserter.init name date w = (Ok self, w)
               ∧ (0 < Inserter.data_size self)%nat
               ∧ S (Inserter.data_size self) = length (OS.readlines text)
               ∧ ∀ key, key ∈ expected_header →
                   ∃ col, Inserter.data self !! key = Some col
                          ∧ length col = Inserter.data_size self).
Proof.
  repeat split.
  - intros H. unfold Inserter.init. by rewrite H.
  - intros H msg. by apply init_no_format_error.
  - intros text. apply init_well_formed.
Qed.

Lemma init_checks_name_only_witness :
  let name := "db/Berlin_2024.data" in
  let w := Sample.with_ledger Sample.ledger in
  PyStr.endswith name ".data" = true
  ∧ OS.read name w = (Ok Sample.ledger, w)
  ∧ well_formed Sample.ledger = true
  ∧ ∃ self, Inserter.init name "01.05.2024" w = (Ok self, w)
            ∧ (0 < Inserter.data_size self)%nat
            ∧ S (Inserter.data_size self)
              = length (OS.readlines Sample.ledger)
            ∧ ∀ key, key ∈ expected_header →
                ∃ col, Inserter.data self !! key = Some col
                       ∧ length col = Inserter.data_size self.
Proof.
  intros name w.
  assert (H1 : PyStr.endswith name ".data" = true) by reflexivity.
  assert (H2 : OS.read name w = (Ok Sample.ledger, w))
    by (vm_compute; reflexivity).
  assert (H3 : well_formed Sample.ledger = true) by (vm_compute; reflexivity).
  exact (conj H1 (conj H2 (conj H3
           (proj2 (proj2 (init_checks_name_only name "01.05.2024" w))
              Sample.ledger H1 H2 H3)))).
Defined.

(** C3 does not hold as stated: a ledger whose first row has four fields
    under a header of five loads without any error, and its columns
    differ in length. *)
Lemma init_accepts_ragged :
  ∃ self,
    Inserter.init "db/Berlin_2024.data" "01.05.2024"
      (Sample.with_ledger Sample.ragged)
    = (Ok self, Sample.with_ledger Sample.ragged)
    ∧ Inserter.data_size self = 2%nat
    ∧ Inserter.data self !! "cost" = Some ["10.0"; "5.5"]
    ∧ Inserter.data self !! "user" = Some ["U2"].
Proof.
  eexists. split; [vm_compute; reflexivity|].
  repeat split; vm_compute; reflexivity.
Qed.

(** A header that lacks the field [cost] gives a [KeyError]. *)
Lemma init_other_header :
  Inserter.init "db/Berlin_2024.data" "01.05.2024"
    (Sample.with_ledger "date,event,purpose,amount,user
2024-03-01,Berlin_2024,Taxi,10.0,U1
")
  = (Raise (KeyError "cost"),
     Sample.with_ledger "date,event,purpose,amount,user
2024-03-01,Berlin_2024,Taxi,10.0,U1
").
Proof. vm_compute. reflexivity. Qed.

(** The sample builder is what the constructor makes of the sample
    ledger; its total, before any padding, is [17.5]. *)
Lemma loaded_from_ledger :
  Inserter.init "db/Berlin_2024.data" "01.05.2024"
    (Sample.with_ledger Sample.ledger)
  = (Ok Sample.loaded, Sample.with_ledger Sample.ledger)
  ∧ Inserter.total Sample.loaded = "17.5".
Proof. split; vm_compute; reflexivity. Qed.



(** C7. [pad_prices] at the costs [10.0], [5.5] and [2] with the total
    [17.5]: the padding leaves [5.5] and the total [17.5] as they are;
    they do not become [5.50] and [17.50], the prices with cents that
    the docstring of [pad_prices] announces (zeros are padded to the end
    of every price, for the alignment of euro and cents). The loop tests
    for the suffix [.0] only, so a price with one digit of cents other
    than zero is not padded. *)
Lemma pad_prices_leaves_one_digit :
  ∃ after,
    Inserter.pad_prices Sample.loaded = Ok after
    ∧ Inserter.data after !! "cost" = Some ["10.00"; "5.5"; "2"]
    ∧ Inserter.data after !! "cost" ≠ Some ["10.00"; "5.50"; "2"]
    ∧ Inserter.total after = "17.5"
    ∧ Inserter.total after ≠ "17.50".
Proof.
  eexists. split; [vm_compute; reflexivity|].
  repeat split; try (vm_compute; reflexivity); vm_compute; discriminate.
Qed.

(** ** The report assembler: [set] *)

(** C1, on the rows dated 2024-03-01, 2024-01-15 and 2024-02-20. [set]
    writes the rows in ascending order of their dates, but each row shows
    its date as the ledger has it: the display strings that
    [sort_by_date] makes are stored in [self.dates], in the order of the
    ledger, and the rows are written from [self.data]. *)
Theorem set_writes_ledger_dates :
  ∃ self' w',
    Inserter.set Sample.loaded (Sample.with_ledger Sample.ledger)
    = (Ok self', w')
    ∧ OS.files (OS.tree w') !! OS.norm "tex/blocks/tableitems.tex"
      = Some "Hotel&2024-01-15&\amount{5.5}\\
Food&2024-02-20&\amount{2}\\
Taxi&2024-03-01&\amount{10.00}\\
"
    ∧ Inserter.data self' !! "invoice_date"
      = Some ["2024-01-15"; "2024-02-20"; "2024-03-01"]
    ∧ Inserter.dates self'
      = Inserter.Strings ["01.03.2024"; "15.01.2024"; "20.02.2024"].
Proof.
  eexists _, _. split; [vm_compute; reflexivity|].
  repeat split; vm_compute; reflexivity.
Qed.

(** C2, as the code has it. A ledger that is only the header line does
    not load: the constructor raises [IndexError] where it takes the
    event name from the first row, so [set] is never reached with no
    rows. The total of an empty cost column is the string [0], and the
    padding leaves it [0]. *)
Theorem init_header_only name date w d :
  PyStr.endswith name ".data" = true →
  OS.read name w = (Ok (Helper.header_line d), w) →
  Inserter.init name date w = (Raise IndexError, w)
  ∧ Inserter.total_of [] = Ok "0"
  ∧ padded "0" = "0".
Proof.
  intros Hname Hread. split; [|by split].
  unfold Inserter.init. rewrite Hname. cbn [negb].
  unfold mbind, OS.M_bind, OS.bind. rewrite Hread.
  vm_compute. reflexivity.
Qed.

Lemma init_header_only_witness :
  let name := "db/Berlin_2024.data" in
  let w := Sample.with_ledger Sample.header_only in
  PyStr.endswith name ".data" = true
  ∧ OS.read name w = (Ok (Helper.header_line Sample.taxi), w)
  ∧ Inserter.init name "01.05.2024" w = (Raise IndexError, w)
  ∧ Inserter.total_of [] = Ok "0"
  ∧ padded "0" = "0".
Proof.
  intros name w.
  assert (H1 : PyStr.endswith name ".data" = true) by reflexivity.
  assert (H2 : OS.read name w = (Ok (Helper.header_line Sample.taxi), w))
    by (vm_compute; reflexivity).
  exact (conj H1 (conj H2
           (init_header_only name "01.05.2024" w Sample.taxi H1 H2))).
Defined.

(** C2 does not hold as stated: on the ledger that is only its header
    line the constructor fails, so there is no builder to call [set] on;
    and the total of no costs is [0], not [0.00]. *)
Lemma no_builder_from_header_only :
  Inserter.init "db/Berlin_2024.data" "01.05.2024"
    (Sample.with_ledger Sample.header_only)
  = (Raise IndexError, Sample.with_ledger Sample.header_only)
  ∧ Inserter.total_of [] = Ok "0"
  ∧ Inserter.total_of [] ≠ Ok "0.00".
Proof. repeat split; vm_compute; (reflexivity || discriminate). Qed.

Section SortedFacts.
Context {A K : Type} (ltb : K → K → bool) (key : A → K).

Lemma insert_perm (x : A) (l : list A) :
  PySort.insert ltb key x l ≡ₚ x :: l.
Proof.
  induction l as [|y l IH]; cbn; [done|].
  destruct (ltb (key y) (key x)); [|done].
  rewrite IH. apply Permutation_swap.
Qed.

Lemma sorted_cons (x : A) (l : list A) :
  PySort.sorted ltb key (x :: l)
  = PySort.insert ltb key x (PySort.sorted ltb key l).
Proof. reflexivity. Qed.

Lemma sorted_perm (l : list A) : PySort.sorted ltb key l ≡ₚ l.
Proof.
  induction l as [|x l IH]; [done|].
  by rewrite sorted_cons, insert_perm, IH.
Qed.
End SortedFacts.

Lemma insert_ordered {K} (ltb : K → K → bool) (x : nat * K) l :
  strict_weak ltb →
  Forall (fun y => (x.1 < y.1)%nat) l →
  StronglySorted (key_then_position ltb) l →
  StronglySorted (key_then_position ltb) (PySort.insert ltb snd x l).
Proof.
  intros [Htrans Hneg] Hx Hl. induction l as [|y l IH]; cbn.
  - repeat constructor.
  - apply Forall_cons in Hx as [Hxy Hx].
    apply StronglySorted_cons in Hl as [Hy Hl].
    destruct (ltb y.2 x.2) eqn:E.
    + apply StronglySorted_cons. split; [|by apply IH].
      rewrite insert_perm. constructor; [by left | done].
    + apply StronglySorted_cons. split; [|by apply StronglySorted_cons].
      constructor; [by right|].
      rewrite Forall_forall in Hy, Hx |- *. intros z Hz.
      specialize (Hy z Hz). specialize (Hx z Hz).
      destruct (ltb z.2 x.2) eqn:Ez; [|by right].
      exfalso. destruct Hy as [Hyz|[Hzy _]].
      * by rewrite (Htrans _ _ _ Hyz Ez) in E.
      * by rewrite (Hneg _ _ _ Hzy E) in Ez.
Qed.

Lemma sorted_ordered {K} (ltb : K → K → bool) (l : list (nat * K)) :
  strict_weak ltb →
  StronglySorted (fun x y => (x.1 < y.1)%nat) l →
  StronglySorted (key_then_position ltb) (PySort.sorted ltb snd l).
Proof.
  intros Hltb. induction 1 as [|x l Hl IH Hx]; [constructor|].
  rewrite sorted_cons. apply insert_ordered; [done| |done].
  by rewrite sorted_perm.
Qed.

Lemma imap_pair_from {K} (seq : list K) (n : nat) :
  (imap (fun i x => (n + i, x)%nat) seq).*1 = List.seq n (length seq)
  ∧ StronglySorted (fun x y => (x.1 < y.1)%nat)
      (imap (fun i x => (n + i, x)%nat) seq)
  ∧ Forall (fun x => (n ≤ x.1)%nat ∧ seq !! (x.1 - n)%nat = Some x.2)
      (imap (fun i x => (n + i, x)%nat) seq).
Proof.
  revert n. induction seq as [|a seq IH]; intros n.
  - repeat split; constructor.
  - destruct (IH (S n)) as (H1 & H2 & H3).
    assert (E : imap ((fun i x => (n + i, x)%nat) ∘ S) seq
                = imap (fun i x => (S n + i, x)%nat) seq).
    { apply imap_ext. intros i x _. cbn. f_equal. lia. }
    rewrite imap_cons, E, Nat.add_0_r. repeat split.
    + rewrite fmap_cons, H1. reflexivity.
    + constructor; [done|]. eapply Forall_impl; [exact H3|].
      cbn. intros x [Hx _]. lia.
    + constructor; [cbn; split; [lia | by rewrite Nat.sub_diag]|].
      eapply Forall_impl; [exact H3|]. cbn. intros x [Hx Hlook]. split; [lia|].
      replace (x.1 - n)%nat with (S (x.1 - S n)) by lia. done.
Qed.

Lemma imap_pair {K} (seq : list K) :
  (imap (fun i x => (i, x)) seq).*1 = List.seq 0 (length seq)
  ∧ StronglySorted (fun x y : nat * K => (x.1 < y.1)%nat)
      (imap (fun i x => (i, x)) seq)
  ∧ Forall (fun x : nat * K => seq !! x.1 = Some x.2)
      (imap (fun i x => (i, x)) seq).
Proof.
  destruct (imap_pair_from seq 0) as (H1 & H2 & H3).
  repeat split; [exact H1 | exact H2 |].
  eapply Forall_impl; [exact H3|].
  cbn. intros x [_ H]. by rewrite Nat.sub_0_r in H.
Qed.

(** [argsort] returns every position once. *)
Lemma argsort_perm {K} (ltb : K → K → bool) (seq : list K) :
  PySort.argsort ltb seq ≡ₚ List.seq 0 (length seq).
Proof.
  unfold PySort.argsort. rewrite sorted_perm.
  by destruct (imap_pair seq) as [-> _].
Qed.

Lemma argsort_ordered {K} (ltb : K → K → bool) (seq : list K) :
  strict_weak ltb →
  StronglySorted
    (fun i j => ∃ a b, seq !! i = Some a ∧ seq !! j = Some b
                       ∧ (ltb a b = true ∨ (ltb b a = false ∧ (i < j)%nat)))
    (PySort.argsort ltb seq).
Proof.
  intros Hltb. unfold PySort.argsort.
  destruct (imap_pair seq) as (_ & Hidx & Hlook).
  pose proof (sorted_ordered ltb _ Hltb Hidx) as Hs.
  assert (Hall : Forall (fun x : nat * K => seq !! x.1 = Some x.2)
                   (PySort.sorted ltb snd (imap (fun i x => (i, x)) seq)))
    by by rewrite sorted_perm.
  revert Hs Hall.
  generalize (PySort.sorted ltb snd (imap (fun i x => (i, x)) seq)).
  intros l. induction 1 as [|x l Hl IH Hx]; intros Hall;
    [constructor|].
  apply Forall_cons in Hall as [Hxl Hall]. rewrite fmap_cons.
  constructor; [by apply IH|].
  rewrite Forall_fmap. rewrite Forall_forall in Hx, Hall |- *.
  intros y Hy. exists x.2, y.2. repeat split; [done | by apply Hall |].
  apply (Hx y Hy).
Qed.

Lemma date_ltb_strict_weak : strict_weak PyDate.ltb.
Proof.
  split; intros [y1 m1 d1] [y2 m2 d2] [y3 m3 d3]; unfold PyDate.ltb; cbn;
    rewrite <- ?not_true_iff_false;
    rewrite ?orb_true_iff, ?andb_true_iff, ?Z.ltb_lt, ?Z.eqb_eq; lia.
Qed.

Lemma res_map_fmap {A B} (f : A → res B) (g : A → B) (l : list A) :
  Forall (fun a => f a = Ok (g a)) l → res_map f l = Ok (g <$> l).
Proof.
  induction 1 as [|a l Ha _ IH]; cbn; [done|]. by rewrite Ha, IH.
Qed.

Lemma take_indices_ok (indices : list nat) (col : list string) :
  Forall (fun i => (i < length col)%nat) indices →
  Inserter.take_indices indices col = Ok (at_positions indices col).
Proof.
  intros H. apply res_map_fmap. eapply Forall_impl; [exact H|].
  intros i Hi. cbn in Hi. unfold list_getitem.
  destruct (lookup_lt_is_Some_2 col i Hi) as [x Hx].
  by rewrite Hx, (list_lookup_total_correct _ _ _ Hx).
Qed.

Lemma take_indices_short (indices : list nat) (col : list string) i :
  i ∈ indices → (length col ≤ i)%nat →
  Inserter.take_indices indices col = Raise IndexError.
Proof.
  intros Hin Hi. unfold Inserter.take_indices.
  induction indices as [|j indices IH]; [by apply elem_of_nil in Hin|].
  cbn. unfold list_getitem at 1.
  destruct (col !! j) as [x|] eqn:E; [|done].
  apply elem_of_cons in Hin as [->|Hin].
  - apply lookup_lt_Some in E. lia.
  - by rewrite (IH Hin).
Qed.

Lemma argsort_dates_bound (ds : Inserter.dates_field) n :
  match ds with
  | Inserter.Datetimes l => length l
  | Inserter.Strings l => length l
  end = n →
  Inserter.argsort_dates ds ≡ₚ List.seq 0 n.
Proof. intros <-. destruct ds; apply argsort_perm. Qed.

(** [sort_by_date] on a builder whose columns all have as many entries as
    there are dates. *)
Lemma sort_by_date_ok self ds :
  Inserter.dates self = Inserter.Datetimes ds →
  map_Forall (fun _ col => length col = length ds) (Inserter.data self) →
  Inserter.sort_by_date self
  = Ok (Inserter.mkLatexBuilder (Inserter.data_size self)
          (Inserter.event_date self) (Inserter.is_set self)
          (at_positions (PySort.argsort PyDate.ltb ds) <$> Inserter.data self)
          (Inserter.total self)
          (Inserter.Strings (PyDate.strftime <$> ds))
          (Inserter.event_name self)).
Proof.
  intros Hd Hcols. unfold Inserter.sort_by_date. rewrite Hd.
  cbn [Inserter.argsort_dates].
  set (indices := PySort.argsort PyDate.ltb ds).
  assert (Hidx : Forall (fun i => (i < length ds)%nat) indices).
  { unfold indices. rewrite argsort_perm. apply Forall_forall.
    intros i Hi%elem_of_seq. lia. }
  rewrite (res_map_fmap _ (prod_map id (at_positions indices))).
  - unfold mbind, res_mbind. cbn [res_bind].
    by rewrite list_to_map_fmap, list_to_map_to_list.
  - apply Forall_forall. intros [key col] Hin%elem_of_map_to_list.
    apply Hcols in Hin. cbn in Hin.
    rewrite take_indices_ok by by rewrite Hin. done.
Qed.

(** ** Writing the fragments *)

Lemma split_first (c : ascii) (s : string) :
  ∃ w ws, PyStr.split c s = w :: ws.
Proof.
  induction s as [|a s (w & ws & IH)]; cbn; [by eexists _, _|].
  destruct (Ascii.eqb a c); [by eexists _, _|]. rewrite IH. by eexists _, _.
Qed.

Lemma has_dir_put p text w q :
  OS.has_dir (OS.tree (put p text w)) q = OS.has_dir (OS.tree w) q.
Proof. by apply has_dir_dirs. Qed.

Lemma open_w_put name w :
  OS.has_dir (OS.tree w) (OS.parent (OS.norm name)) = true →
  OS.has_dir (OS.tree w) (OS.norm name) = false →
  OS.open_w name w = (Ok tt, put (OS.norm name) EmptyString w).
Proof.
  intros Hparent Hdir. unfold OS.open_w, OS.parent_error.
  by rewrite Hdir, Hparent.
Qed.

Lemma write_put name text c w :
  OS.files (OS.tree w) !! OS.norm name = Some c →
  OS.write name text w = (Ok tt, put (OS.norm name) (c +:+ text) w).
Proof. intros H. unfold OS.write, OS.with_tree, put. by rewrite H. Qed.

Lemma put_put p a b w : put p b (put p a w) = put p b w.
Proof. unfold put. cbn. by rewrite insert_insert_eq. Qed.

Lemma put_lookup p text w :
  OS.files (OS.tree (put p text w)) !! p = Some text.
Proof. cbn. by rewrite lookup_insert_eq. Qed.

(** [open(name, "w")] followed by one [write]. *)
Lemma write_whole_file_then {A} name text (k : unit → OS.M A) w :
  OS.has_dir (OS.tree w) (OS.parent (OS.norm name)) = true →
  OS.has_dir (OS.tree w) (OS.norm name) = false →
  OS.bind (OS.open_w name) (fun _ => OS.bind (OS.write name text) k) w
  = k tt (put (OS.norm name) text w).
Proof.
  intros Hparent Hdir. unfold OS.bind. rewrite open_w_put by done.
  rewrite (write_put _ _ EmptyString) by apply put_lookup.
  by rewrite put_put, append_nil_l.
Qed.

Lemma write_entries_ok name c (rows : list (string * (string * string))) w :
  OS.files (OS.tree w) !! OS.norm name = Some c →
  Inserter.write_entries name (length rows) rows w
  = (Ok tt,
     put (OS.norm name)
       (c +:+ join_all
                ((fun '(p, (d, x)) =>
                    Inserter.build_list_entry p d x +:+ Inserter.newline)
                   <$> rows)) w).
Proof.
  revert c w. induction rows as [|[p [d x]] rows IH]; intros c w Hc.
  - cbn. unfold OS.ret, put. rewrite append_nil_r, insert_id by done.
    by destruct w as [[] ?].
  - cbn [length Inserter.write_entries]. unfold mbind, OS.M_bind, OS.bind.
    rewrite (write_put _ _ c) by done.
    rewrite (IH _ _ (put_lookup _ _ _)), put_put.
    rewrite fmap_cons. cbn [join_all foldr]. by rewrite append_assoc.
Qed.

Lemma write_entries_n name c n (rows : list (string * (string * string))) w :
  n = length rows →
  OS.files (OS.tree w) !! OS.norm name = Some c →
  Inserter.write_entries name n rows w
  = (Ok tt,
     put (OS.norm name)
       (c +:+ join_all
                ((fun '(p, (d, x)) =>
                    Inserter.build_list_entry p d x +:+ Inserter.newline)
                   <$> rows)) w).
Proof. intros ->. apply write_entries_ok. Qed.

Lemma zip3_at_positions (indices : list nat) (p d c : list string) :
  zip (at_positions indices p)
    (zip (at_positions indices d) (padded <$> at_positions indices c))
  = (fun i => (p !!! i, (d !!! i, padded (c !!! i)))) <$> indices.
Proof.
  unfold at_positions. induction indices as [|i indices IH]; [done|].
  rewrite !fmap_cons. cbn [zip zip_with]. f_equal. exact IH.
Qed.

Lemma set_ok self ds purpose invoice_date cost w :
  Inserter.dates self = Inserter.Datetimes ds →
  map_Forall (fun _ col => length col = length ds) (Inserter.data self) →
  Inserter.data_size self = length ds →
  Inserter.data self !! "purpose" = Some purpose →
  Inserter.data self !! "invoice_date" = Some invoice_date →
  Inserter.data self !! "cost" = Some cost →
  OS.has_dir (OS.tree w) ["tex"; "blocks"] = true →
  (∀ f, OS.has_dir (OS.tree w) ["tex"; "blocks"; f] = false) →
  let indices := PySort.argsort PyDate.ltb ds in
  Inserter.set self w
  = (Ok (Inserter.mkLatexBuilder (Inserter.data_size self)
           (Inserter.event_date self) true
           (<["cost" := padded <$> at_positions indices cost]>
              (at_positions indices <$> Inserter.data self))
           (padded (Inserter.total self))
           (Inserter.Strings (PyDate.strftime <$> ds))
           (Inserter.event_name self)),
     put ["tex"; "blocks"; "total.tex"]
       ("\amount{" +:+ padded (Inserter.total self) +:+ "}")
       (put ["tex"; "blocks"; "eventdate.tex"] (Inserter.event_date self)
          (put ["tex"; "blocks"; "eventname.tex"]
             (PyStr.capitalize
                (default EmptyString
                   (head (PyStr.split "_" (Inserter.event_name self)))))
             (put ["tex"; "blocks"; "tableitems.tex"]
                (join_all (table_line purpose invoice_date cost <$> indices))
                w)))).
Proof.
  intros Hd Hcols Hsize Hp Hi Hc Hblocks Hfree indices.
  unfold Inserter.set. rewrite (sort_by_date_ok self ds Hd Hcols).
  fold indices. unfold mbind, OS.M_bind, OS.lift. unfold OS.bind at 1.
  rewrite (pad_prices_result _ (at_positions indices cost))
    by (cbn [Inserter.data]; by rewrite lookup_fmap, Hc).
  unfold OS.bind at 1.
  cbn [Inserter.data Inserter.data_size Inserter.event_name
       Inserter.event_date Inserter.total Inserter.is_set Inserter.dates].
  unfold OS.bind at 1. rewrite open_w_put by (apply Hblocks || apply Hfree).
  unfold getitem.
  rewrite lookup_insert_ne, lookup_fmap, Hp by done. cbn [fmap option_fmap option_map].
  unfold OS.bind at 1.
  rewrite lookup_insert_ne, lookup_fmap, Hi by done. cbn [fmap option_fmap option_map].
  unfold OS.bind at 1.
  rewrite lookup_insert_eq. unfold OS.bind at 1.
  rewrite zip3_at_positions.
  assert (Hlen : Inserter.data_size self
                 = length ((fun i => (purpose !!! i,
                                      (invoice_date !!! i,
                                       padded (cost !!! i)))) <$> indices)).
  { rewrite length_fmap, Hsize. unfold indices.
    by rewrite argsort_perm, length_seq. }
  unfold OS.bind at 1.
  rewrite (write_entries_n _ EmptyString) by (done || apply put_lookup).
  change (OS.norm (Inserter.prefix +:+ "tableitems.tex"))
    with ["tex"; "blocks"; "tableitems.tex"].
  rewrite put_put, append_nil_l, <- list_fmap_compose.
  destruct (split_first "_" (Inserter.event_name self)) as (first & others & ->).
  cbn [list_getitem lookup list_lookup head default].
  unfold OS.bind at 1.
  rewrite !write_whole_file_then
    by (rewrite !has_dir_put; (apply Hblocks || apply Hfree)).
  reflexivity.
Qed.

Lemma res_map_raise_one {A B} (f : A → res B) (l : list A) e a :
  Forall (fun x => f x = Raise e ∨ ∃ b, f x = Ok b) l →
  a ∈ l → f a = Raise e →
  res_map f l = Raise e.
Proof.
  induction 1 as [|x l Hx _ IH]; intros Hin Ha; [by apply elem_of_nil in Hin|].
  cbn. destruct Hx as [->|[b Hb]]; [done|]. rewrite Hb.
  apply elem_of_cons in Hin as [->|Hin]; [congruence|].
  by rewrite IH.
Qed.

Lemma take_indices_cases (indices : list nat) (col : list string) :
  Inserter.take_indices indices col = Raise IndexError
  ∨ ∃ b, Inserter.take_indices indices col = Ok b.
Proof.
  unfold Inserter.take_indices. induction indices as [|i indices IH]; cbn.
  - right. eauto.
  - assert (H : list_getitem col i = Raise IndexError
                 ∨ ∃ v, list_getitem col i = Ok v).
    { unfold list_getitem. destruct (col !! i); eauto. }
    destruct H as [->|[v ->]]; [by left|].
    destruct IH as [->|[b ->]]; [by left | right; eexists; reflexivity].
Qed.

(** X4. [sort_by_date] raises an [IndexError] when some column has fewer
    entries than there are dates, as after loading a ledger with a row
    that lacks a field. *)
Theorem sort_by_date_short_column self key col :
  Inserter.data self !! key = Some col →
  (length col
   < match Inserter.dates self with
     | Inserter.Datetimes l => length l
     | Inserter.Strings l => length l
     end)%nat →
  Inserter.sort_by_date self = Raise IndexError.
Proof.
  intros Hkey Hlen. unfold Inserter.sort_by_date.
  set (indices := Inserter.argsort_dates (Inserter.dates self)).
  assert (Hin : length col ∈ indices).
  { unfold indices. rewrite (argsort_dates_bound _ _ eq_refl).
    apply elem_of_seq. lia. }
  rewrite (res_map_raise_one _ _ IndexError (key, col)); [done| | |].
  - apply Forall_forall. intros [k c] _.
    destruct (take_indices_cases indices c) as [->|[b ->]];
      [by left | right; eauto].
  - by apply elem_of_map_to_list.
  - by rewrite (take_indices_short indices col (length col)).
Qed.

Lemma sort_by_date_strings self s l :
  Inserter.dates self = Inserter.Strings (s :: l) →
  map_Forall (fun _ col => length col = length (s :: l))
    (Inserter.data self) →
  Inserter.sort_by_date self = Raise TypeError.
Proof.
  intros Hd Hcols. unfold Inserter.sort_by_date. rewrite Hd.
  cbn [Inserter.argsort_dates].
  set (indices := PySort.argsort String.ltb (s :: l)).
  assert (Hidx : Forall (fun i => (i < length (s :: l))%nat) indices).
  { unfold indices. rewrite argsort_perm. apply Forall_forall.
    intros i Hi%elem_of_seq. lia. }
  rewrite (res_map_fmap _ (prod_map id (at_positions indices))); [done|].
  apply Forall_forall. intros [key col] Hin%elem_of_map_to_list.
  apply Hcols in Hin. cbn in Hin.
  rewrite take_indices_ok by by rewrite Hin. done.
Qed.

Lemma at_positions_length indices col :
  length (at_positions indices col) = length indices.
Proof. apply length_fmap. Qed.

(** X5. [sort_by_date] cannot be called twice: the first call leaves texts
    in place of the dates, and a second call on a builder with at least
    one row raises a [TypeError] where it formats them. *)
Theorem sort_by_date_second_call self ds self1 :
  Inserter.dates self = Inserter.Datetimes ds →
  ds ≠ [] →
  map_Forall (fun _ col => length col = length ds) (Inserter.data self) →
  Inserter.sort_by_date self = Ok self1 →
  Inserter.sort_by_date self1 = Raise TypeError.
Proof.
  intros Hd Hne Hcols. rewrite (sort_by_date_ok self ds Hd Hcols).
  intros [= <-]. destruct ds as [|d ds]; [done|].
  apply (sort_by_date_strings _ (PyDate.strftime d) (PyDate.strftime <$> ds));
    [done|].
  cbn [Inserter.data]. intros key col. rewrite lookup_fmap.
  destruct (Inserter.data self !! key); [|done]. intros [= <-].
  rewrite at_positions_length, argsort_perm, length_seq.
  cbn. by rewrite length_fmap.
Qed.

(** X7. [set] cannot be called twice on one builder: after a successful
    [set] on a builder with at least one row, a second [set] raises a
    [TypeError] and leaves the machine as the first call left it. *)
Theorem set_second_call self ds purpose invoice_date cost w self1 w1 :
  Inserter.dates self = Inserter.Datetimes ds →
  ds ≠ [] →
  map_Forall (fun _ col => length col = length ds) (Inserter.data self) →
  Inserter.data_size self = length ds →
  Inserter.data self !! "purpose" = Some purpose →
  Inserter.data self !! "invoice_date" = Some invoice_date →
  Inserter.data self !! "cost" = Some cost →
  OS.has_dir (OS.tree w) ["tex"; "blocks"] = true →
  (∀ f, OS.has_dir (OS.tree w) ["tex"; "blocks"; f] = false) →
  Inserter.set self w = (Ok self1, w1) →
  Inserter.set self1 w1 = (Raise TypeError, w1).
Proof.
  intros Hd Hne Hcols Hsize Hp Hi Hc Hblocks Hfree.
  rewrite (set_ok self ds purpose invoice_date cost w) by done.
  intros [= <- <-]. unfold Inserter.set.
  destruct ds as [|d ds]; [done|].
  rewrite (sort_by_date_strings _ (PyDate.strftime d)
             (PyDate.strftime <$> ds)); [done | done |].
  cbn [Inserter.data]. intros key col.
  assert (Hn : length (PySort.argsort PyDate.ltb (d :: ds))
               = length (PyDate.strftime d :: (PyDate.strftime <$> ds))).
  { rewrite argsort_perm, length_seq. cbn. by rewrite length_fmap. }
  destruct (decide (key = "cost")) as [->|Hk].
  - rewrite lookup_insert_eq. intros [= <-].
    by rewrite length_fmap, at_positions_length.
  - rewrite lookup_insert_ne, lookup_fmap by done.
    destruct (Inserter.data self !! key); [|done]. intros [= <-].
    by rewrite at_positions_length.
Qed.

Lemma ragged_builder_from_ledger :
  Inserter.init "db/Berlin_2024.data" "01.05.2024"
    (Sample.with_ledger Sample.ragged)
  = (Ok ragged_builder, Sample.with_ledger Sample.ragged).
Proof. vm_compute. reflexivity. Qed.

Lemma loaded_columns :
  map_Forall (fun _ col => length col = 3%nat) (Inserter.data Sample.loaded).
Proof.
  apply map_Forall_to_list. vm_compute. repeat constructor.
Qed.

Lemma blocks_free w :
  OS.dirs (OS.tree w) = {[ ["db"]; ["tex"]; ["tex"; "blocks"] ]} →
  ∀ f, OS.has_dir (OS.tree w) ["tex"; "blocks"; f] = false.
Proof.
  intros H f. cbn. rewrite H. apply bool_decide_eq_false.
  rewrite !elem_of_union, !elem_of_singleton. intros [[?|?]|?]; discriminate.
Qed.

(** X1. [argsort] returns every position of its argument exactly once:
    the result is a rearrangement of [0, ..., len(seq) - 1], whatever the
    order on the entries is. *)
Theorem argsort_is_permutation {K} (ltb : K → K → bool) (seq : list K) :
  PySort.argsort ltb seq ≡ₚ List.seq 0 (length seq).
Proof. apply argsort_perm. Qed.

(** X2. On a list of dates the positions that [argsort] returns are in
    ascending order of their dates, and the positions of equal dates keep
    the order they have in the list: of any two positions of the result,
    the former has the earlier date, or a date that is not later and the
    smaller position. *)
Theorem argsort_dates_ascending (ds : list PyDate.date) :
  StronglySorted
    (fun i j => ∃ a b, ds !! i = Some a ∧ ds !! j = Some b
                       ∧ (PyDate.ltb a b = true
                          ∨ (PyDate.ltb b a = false ∧ (i < j)%nat)))
    (PySort.argsort PyDate.ltb ds).
Proof. apply argsort_ordered, date_ltb_strict_weak. Qed.

(** X3. On a builder that still holds the parsed dates and whose columns
    all have one entry per date, [sort_by_date] succeeds, rearranges every
    column by the same [argsort] of the dates (so the rows stay intact),
    and replaces the dates by their [%d.%m.%Y] texts in the order they
    had before the sort; nothing else of the builder changes. *)
Theorem sort_by_date_permutes self ds :
  Inserter.dates self = Inserter.Datetimes ds →
  map_Forall (fun _ col => length col = length ds) (Inserter.data self) →
  Inserter.sort_by_date self
  = Ok (Inserter.mkLatexBuilder (Inserter.data_size self)
          (Inserter.event_date self) (Inserter.is_set self)
          (at_positions (PySort.argsort PyDate.ltb ds) <$> Inserter.data self)
          (Inserter.total self)
          (Inserter.Strings (PyDate.strftime <$> ds))
          (Inserter.event_name self)).
Proof. apply sort_by_date_ok. Qed.

Lemma sort_by_date_permutes_witness :
  let ds := [PyDate.mkdate 2024 3 1; PyDate.mkdate 2024 1 15;
             PyDate.mkdate 2024 2 20] in
  Inserter.dates Sample.loaded = Inserter.Datetimes ds
  ∧ map_Forall (fun _ col => length col = length ds)
      (Inserter.data Sample.loaded)
  ∧ Inserter.sort_by_date Sample.loaded
    = Ok (Inserter.mkLatexBuilder (Inserter.data_size Sample.loaded)
            (Inserter.event_date Sample.loaded)
            (Inserter.is_set Sample.loaded)
            (at_positions (PySort.argsort PyDate.ltb ds)
               <$> Inserter.data Sample.loaded)
            (Inserter.total Sample.loaded)
            (Inserter.Strings (PyDate.strftime <$> ds))
            (Inserter.event_name Sample.loaded)).
Proof.
  intros ds.
  assert (H1 : Inserter.dates Sample.loaded = Inserter.Datetimes ds)
    by reflexivity.
  assert (H2 : map_Forall (fun _ col => length col = length ds)
                 (Inserter.data Sample.loaded)) by exact loaded_columns.
  exact (conj H1 (conj H2 (sort_by_date_permutes Sample.loaded ds H1 H2))).
Defined.

Lemma sort_by_date_short_column_witness :
  Inserter.data ragged_builder !! "user" = Some ["U2"]
  ∧ (length ["U2"]
     < match Inserter.dates ragged_builder with
       | Inserter.Datetimes l => length l
       | Inserter.Strings l => length l
       end)%nat
  ∧ Inserter.sort_by_date ragged_builder = Raise IndexError.
Proof.
  assert (H1 : Inserter.data ragged_builder !! "user" = Some ["U2"])
    by reflexivity.
  assert (H2 : (length ["U2"]
                < match Inserter.dates ragged_builder with
                  | Inserter.Datetimes l => length l
                  | Inserter.Strings l => length l
                  end)%nat) by (cbn; lia).
  exact (conj H1 (conj H2
           (sort_by_date_short_column ragged_builder "user" ["U2"] H1 H2))).
Defined.

Lemma sort_by_date_second_call_witness :
  let ds := [PyDate.mkdate 2024 3 1; PyDate.mkdate 2024 1 15;
             PyDate.mkdate 2024 2 20] in
  let self1 :=
    Inserter.mkLatexBuilder 3 "01.05.2024" false
      {[ "invoice_date" := ["2024-01-15"; "2024-02-20"; "2024-03-01"];
         "event_name" := ["Berlin_2024"; "Berlin_2024"; "Berlin_2024"];
         "purpose" := ["Hotel"; "Food"; "Taxi"];
         "cost" := ["5.5"; "2"; "10.0"];
         "user" := ["U2"; "U1"; "U1"] ]}
      "17.5" (Inserter.Strings ["01.03.2024"; "15.01.2024"; "20.02.2024"])
      "berlin_2024" in
  Inserter.dates Sample.loaded = Inserter.Datetimes ds
  ∧ ds ≠ []
  ∧ map_Forall (fun _ col => length col = length ds)
      (Inserter.data Sample.loaded)
  ∧ Inserter.sort_by_date Sample.loaded = Ok self1
  ∧ Inserter.sort_by_date self1 = Raise TypeError.
Proof.
  intros ds self1.
  assert (H1 : Inserter.dates Sample.loaded = Inserter.Datetimes ds)
    by reflexivity.
  assert (H2 : ds ≠ []) by discriminate.
  assert (H3 : map_Forall (fun _ col => length col = length ds)
                 (Inserter.data Sample.loaded)) by exact loaded_columns.
  assert (H4 : Inserter.sort_by_date Sample.loaded = Ok self1)
    by (vm_compute; reflexivity).
  exact (conj H1 (conj H2 (conj H3 (conj H4
           (sort_by_date_second_call Sample.loaded ds self1 H1 H2 H3 H4))))).
Defined.

(** X6. What [set] does on a builder as the constructor makes it (parsed
    dates, columns of one entry per date, [data_size] rows), when
    [tex/blocks] is a directory and no directory sits at a fragment's
    place: it returns a builder with [is_set] true, the columns sorted
    by date, the costs and the total padded, and it leaves exactly four
    files changed: [tableitems.tex] holds one line
    [purpose&date&\amount{cost}\\] per row in the sorted order,
    [eventname.tex] the capitalised event name up to its first
    underscore, [eventdate.tex] the event date and [total.tex] the
    padded total in [\amount{}]. Directories, other files and the log
    of processes are as before. *)
Theorem set_writes_fragments self ds purpose invoice_date cost w :
  Inserter.dates self = Inserter.Datetimes ds →
  map_Forall (fun _ col => length col = length ds) (Inserter.data self) →
  Inserter.data_size self = length ds →
  Inserter.data self !! "purpose" = Some purpose →
  Inserter.data self !! "invoice_date" = Some invoice_date →
  Inserter.data self !! "cost" = Some cost →
  OS.has_dir (OS.tree w) ["tex"; "blocks"] = true →
  (∀ f, OS.has_dir (OS.tree w) ["tex"; "blocks"; f] = false) →
  let indices := PySort.argsort PyDate.ltb ds in
  Inserter.set self w
  = (Ok (Inserter.mkLatexBuilder (Inserter.data_size self)
           (Inserter.event_date self) true
           (<["cost" := padded <$> at_positions indices cost]>
              (at_positions indices <$> Inserter.data self))
           (padded (Inserter.total self))
           (Inserter.Strings (PyDate.strftime <$> ds))
           (Inserter.event_name self)),
     put ["tex"; "blocks"; "total.tex"]
       ("\amount{" +:+ padded (Inserter.total self) +:+ "}")
       (put ["tex"; "blocks"; "eventdate.tex"] (Inserter.event_date self)
          (put ["tex"; "blocks"; "eventname.tex"]
             (PyStr.capitalize
                (default EmptyString
                   (head (PyStr.split "_" (Inserter.event_name self)))))
             (put ["tex"; "blocks"; "tableitems.tex"]
                (join_all (table_line purpose invoice_date cost <$> indices))
                w)))).
Proof. apply set_ok. Qed.

Lemma set_writes_fragments_witness :
  let ds := [PyDate.mkdate 2024 3 1; PyDate.mkdate 2024 1 15;
             PyDate.mkdate 2024 2 20] in
  let purpose := ["Taxi"; "Hotel"; "Food"] in
  let invoice_date := ["2024-03-01"; "2024-01-15"; "2024-02-20"] in
  let cost := ["10.0"; "5.5"; "2"] in
  let w := Sample.with_ledger Sample.ledger in
  let indices := PySort.argsort PyDate.ltb ds in
  Inserter.dates Sample.loaded = Inserter.Datetimes ds
  ∧ map_Forall (fun _ col => length col = length ds)
      (Inserter.data Sample.loaded)
  ∧ Inserter.data_size Sample.loaded = length ds
  ∧ Inserter.data Sample.loaded !! "purpose" = Some purpose
  ∧ Inserter.data Sample.loaded !! "invoice_date" = Some invoice_date
  ∧ Inserter.data Sample.loaded !! "cost" = Some cost
  ∧ OS.has_dir (OS.tree w) ["tex"; "blocks"] = true
  ∧ (∀ f, OS.has_dir (OS.tree w) ["tex"; "blocks"; f] = false)
  ∧ Inserter.set Sample.loaded w
    = (Ok (Inserter.mkLatexBuilder (Inserter.data_size Sample.loaded)
             (Inserter.event_date Sample.loaded) true
             (<["cost" := padded <$> at_positions indices cost]>
                (at_positions indices <$> Inserter.data Sample.loaded))
             (padded (Inserter.total Sample.loaded))
             (Inserter.Strings (PyDate.strftime <$> ds))
             (Inserter.event_name Sample.loaded)),
       put ["tex"; "blocks"; "total.tex"]
         ("\amount{" +:+ padded (Inserter.total Sample.loaded) +:+ "}")
         (put ["tex"; "blocks"; "eventdate.tex"]
            (Inserter.event_date Sample.loaded)
            (put ["tex"; "blocks"; "eventname.tex"]
               (PyStr.capitalize
                  (default EmptyString
                     (head (PyStr.split "_"
                              (Inserter.event_name Sample.loaded)))))
               (put ["tex"; "blocks"; "tableitems.tex"]
                  (join_all
                     (table_line purpose invoice_date cost <$> indices))
                  w)))).
Proof.
  intros ds purpose invoice_date cost w indices.
  assert (H1 : Inserter.dates Sample.loaded = Inserter.Datetimes ds)
    by reflexivity.
  assert (H2 : map_Forall (fun _ col => length col = length ds)
                 (Inserter.data Sample.loaded)) by exact loaded_columns.
  assert (H3 : Inserter.data_size Sample.loaded = length ds) by reflexivity.
  assert (H4 : Inserter.data Sample.loaded !! "purpose" = Some purpose)
    by reflexivity.
  assert (H5 : Inserter.data Sample.loaded !! "invoice_date"
               = Some invoice_date) by reflexivity.
  assert (H6 : Inserter.data Sample.loaded !! "cost" = Some cost)
    by reflexivity.
  assert (H7 : OS.has_dir (OS.tree w) ["tex"; "blocks"] = true)
    by (vm_compute; reflexivity).
  assert (H8 : ∀ f, OS.has_dir (OS.tree w) ["tex"; "blocks"; f] = false)
    by (apply blocks_free; reflexivity).
  exact (conj H1 (conj H2 (conj H3 (conj H4 (conj H5 (conj H6 (conj H7
           (conj H8
              (set_writes_fragments Sample.loaded ds purpose invoice_date
                 cost w H1 H2 H3 H4 H5 H6 H7 H8))))))))).
Defined.

(** What the sample run leaves in the four fragments. *)
Lemma set_sample_fragments :
  ∃ self1 w1,
    Inserter.set Sample.loaded (Sample.with_ledger Sample.ledger)
    = (Ok self1, w1)
    ∧ OS.files (OS.tree w1) !! ["tex"; "blocks"; "tableitems.tex"]
      = Some "Hotel&2024-01-15&\amount{5.5}\\
Food&2024-02-20&\amount{2}\\
Taxi&2024-03-01&\amount{10.00}\\
"
    ∧ OS.files (OS.tree w1) !! ["tex"; "blocks"; "eventname.tex"]
      = Some "Berlin"
    ∧ OS.files (OS.tree w1) !! ["tex"; "blocks"; "eventdate.tex"]
      = Some "01.05.2024"
    ∧ OS.files (OS.tree w1) !! ["tex"; "blocks"; "total.tex"]
      = Some "\amount{17.5}".
Proof.
  eexists _, _. split; [vm_compute; reflexivity|].
  repeat split; vm_compute; reflexivity.
Qed.

Lemma set_second_call_witness :
  let ds := [PyDate.mkdate 2024 3 1; PyDate.mkdate 2024 1 15;
             PyDate.mkdate 2024 2 20] in
  let purpose := ["Taxi"; "Hotel"; "Food"] in
  let invoice_date := ["2024-03-01"; "2024-01-15"; "2024-02-20"] in
  let cost := ["10.0"; "5.5"; "2"] in
  let w := Sample.with_ledger Sample.ledger in
  let run := Inserter.set Sample.loaded w in
  let self1 := match run.1 with Ok s => s | Raise _ => Sample.loaded end in
  Inserter.dates Sample.loaded = Inserter.Datetimes ds
  ∧ ds ≠ []
  ∧ map_Forall (fun _ col => length col = length ds)
      (Inserter.data Sample.loaded)
  ∧ Inserter.data_size Sample.loaded = length ds
  ∧ Inserter.data Sample.loaded !! "purpose" = Some purpose
  ∧ Inserter.data Sample.loaded !! "invoice_date" = Some invoice_date
  ∧ Inserter.data Sample.loaded !! "cost" = Some cost
  ∧ OS.has_dir (OS.tree w) ["tex"; "blocks"] = true
  ∧ (∀ f, OS.has_dir (OS.tree w) ["tex"; "blocks"; f] = false)
  ∧ Inserter.set Sample.loaded w = (Ok self1, run.2)
  ∧ Inserter.set self1 run.2 = (Raise TypeError, run.2).
Proof.
  intros ds purpose invoice_date cost w run self1.
  assert (H1 : Inserter.dates Sample.loaded = Inserter.Datetimes ds)
    by reflexivity.
  assert (H0 : ds ≠ []) by discriminate.
  assert (H2 : map_Forall (fun _ col => length col = length ds)
                 (Inserter.data Sample.loaded)) by exact loaded_columns.
  assert (H3 : Inserter.data_size Sample.loaded = length ds) by reflexivity.
  assert (H4 : Inserter.data Sample.loaded !! "purpose" = Some purpose)
    by reflexivity.
  assert (H5 : Inserter.data Sample.loaded !! "invoice_date"
               = Some invoice_date) by reflexivity.
  assert (H6 : Inserter.data Sample.loaded !! "cost" = Some cost)
    by reflexivity.
  assert (H7 : OS.has_dir (OS.tree w) ["tex"; "blocks"] = true)
    by (vm_compute; reflexivity).
  assert (H8 : ∀ f, OS.has_dir (OS.tree w) ["tex"; "blocks"; f] = false)
    by (apply blocks_free; reflexivity).
  assert (H9 : Inserter.set Sample.loaded w = (Ok self1, run.2))
    by (vm_compute; reflexivity).
  exact (conj H1 (conj H0 (conj H2 (conj H3 (conj H4 (conj H5 (conj H6
           (conj H7 (conj H8 (conj H9
              (set_second_call Sample.loaded ds purpose invoice_date cost w
                 self1 run.2 H1 H0 H2 H3 H4 H5 H6 H7 H8 H9))))))))))).
Defined.

(** X8. Without the directory [tex/blocks], and with no regular file
    standing at [tex] or at [tex/blocks], [set] raises a
    [FileNotFoundError] for [tex/blocks/tableitems.tex] and writes
    nothing: the machine is unchanged. *)
Theorem set_without_directory self ds cost w :
  Inserter.dates self = Inserter.Datetimes ds →
  map_Forall (fun _ col => length col = length ds) (Inserter.data self) →
  Inserter.data self !! "cost" = Some cost →
  OS.has_dir (OS.tree w) ["tex"; "blocks"] = false →
  OS.has_file (OS.tree w) ["tex"] = false →
  OS.has_file (OS.tree w) ["tex"; "blocks"] = false →
  OS.has_dir (OS.tree w) ["tex"; "blocks"; "tableitems.tex"] = false →
  Inserter.set self w
  = (Raise (FileNotFoundError "tex/blocks/tableitems.tex"), w).
Proof.
  intros Hd Hcols Hc Hdir Htex Hfile Hfree. unfold Inserter.set.
  rewrite (sort_by_date_ok self ds Hd Hcols).
  unfold mbind, OS.M_bind, OS.lift. unfold OS.bind at 1.
  unfold OS.bind at 1.
  rewrite (pad_prices_result _
             (at_positions (PySort.argsort PyDate.ltb ds) cost))
    by (cbn [Inserter.data]; by rewrite lookup_fmap, Hc).
  unfold OS.bind at 1. unfold OS.open_w.
  change (OS.norm (Inserter.prefix +:+ "tableitems.tex"))
    with ["tex"; "blocks"; "tableitems.tex"].
  rewrite Hfree. unfold OS.parent_error.
  change (OS.parent ["tex"; "blocks"; "tableitems.tex"])
    with ["tex"; "blocks"].
  rewrite Hdir. cbn [OS.obstacle app]. rewrite Htex, Hdir, Hfile.
  by destruct (OS.has_dir (OS.tree w) ["tex"]).
Qed.

Lemma set_without_directory_witness :
  let ds := [PyDate.mkdate 2024 3 1; PyDate.mkdate 2024 1 15;
             PyDate.mkdate 2024 2 20] in
  let cost := ["10.0"; "5.5"; "2"] in
  Inserter.dates Sample.loaded = Inserter.Datetimes ds
  ∧ map_Forall (fun _ col => length col = length ds)
      (Inserter.data Sample.loaded)
  ∧ Inserter.data Sample.loaded !! "cost" = Some cost
  ∧ OS.has_dir (OS.tree bare_machine) ["tex"; "blocks"] = false
  ∧ OS.has_file (OS.tree bare_machine) ["tex"] = false
  ∧ OS.has_file (OS.tree bare_machine) ["tex"; "blocks"] = false
  ∧ OS.has_dir (OS.tree bare_machine) ["tex"; "blocks"; "tableitems.tex"]
    = false
  ∧ Inserter.set Sample.loaded bare_machine
    = (Raise (FileNotFoundError "tex/blocks/tableitems.tex"), bare_machine).
Proof.
  intros ds cost.
  assert (H1 : Inserter.dates Sample.loaded = Inserter.Datetimes ds)
    by reflexivity.
  assert (H2 : map_Forall (fun _ col => length col = length ds)
                 (Inserter.data Sample.loaded)) by exact loaded_columns.
  assert (H3 : Inserter.data Sample.loaded !! "cost" = Some cost)
    by reflexivity.
  assert (H4 : OS.has_dir (OS.tree bare_machine) ["tex"; "blocks"] = false)
    by (vm_compute; reflexivity).
  assert (H0 : OS.has_file (OS.tree bare_machine) ["tex"] = false)
    by (vm_compute; reflexivity).
  assert (H5 : OS.has_file (OS.tree bare_machine) ["tex"; "blocks"] = false)
    by (vm_compute; reflexivity).
  assert (H6 : OS.has_dir (OS.tree bare_machine)
                 ["tex"; "blocks"; "tableitems.tex"] = false)
    by (vm_compute; reflexivity).
  exact (conj H1 (conj H2 (conj H3 (conj H4 (conj H0 (conj H5 (conj H6
           (set_without_directory Sample.loaded ds cost bare_machine
              H1 H2 H3 H4 H0 H5 H6)))))))).
Defined.

(** ** The ledger file and the rest of the machine *)

Lemma put_same p c w :
  OS.files (OS.tree w) !! p = Some c → put p c w = w.
Proof.
  intros H. destruct w as [[ds fs] sp]. unfold put. cbn in *.
  by rewrite insert_id.
Qed.

Lemma open_a_put name c w :
  OS.has_dir (OS.tree w) (OS.parent (OS.norm name)) = true →
  OS.has_dir (OS.tree w) (OS.norm name) = false →
  OS.files (OS.tree w) !! OS.norm name = Some c →
  OS.open_a name w = (Ok tt, w).
Proof.
  intros Hparent Hdir Hc. unfold OS.open_a, OS.parent_error.
  rewrite Hdir, Hparent. unfold OS.with_tree. cbn zeta.
  rewrite Hc. cbn [default].
  f_equal. by apply (put_same (OS.norm name) c w).
Qed.

Lemma holds_put e w c text :
  holds e w c → holds e (put (ledger_path e) text w) text.
Proof.
  intros (Hdb & Hpd & Hc). unfold holds. rewrite !has_dir_put.
  repeat split; try done. apply put_lookup.
Qed.

Section LedgerFrame.
Context (get_events : gmap string (gmap string string)).
Context (e date : string) (info : gmap string string).
Hypothesis Hevent : get_events !! e = Some info.
Hypothesis Hdate : info !! "date" = Some date.
Hypothesis Hplain : occurs "/" e = false.

Let name := Helper.datapath +:+ e +:+ Helper.extension.
Local Abbreviation p := (ledger_path e).

Lemma store_put (new : bool) d w c :
  holds e w c →
  Helper.store (Helper.mkDatafile e new name date) d w
  = (Ok (Helper.mkDatafile e false name date),
     put p (c +:+ (if new then Helper.header_line d else EmptyString)
              +:+ Helper.row_line d) w).
Proof.
  intros (Hdb & Hpd & Hc). unfold Helper.store.
  unfold mbind, OS.M_bind. cbn [Helper.filename Helper.is_new_file].
  pose proof (norm_ledger e Hplain) as Hn. fold name in Hn.
  unfold OS.bind at 1.
  rewrite (open_a_put name c) by (rewrite ?Hn; done).
  destruct new.
  - unfold OS.bind at 1. rewrite (write_put name _ c) by by rewrite Hn.
    unfold OS.bind at 1.
    rewrite (write_put name _ (c +:+ Helper.header_line d))
      by (rewrite Hn; apply put_lookup).
    rewrite Hn, put_put. unfold OS.ret. by rewrite append_assoc.
  - unfold OS.bind at 1. unfold OS.ret at 1. unfold OS.bind at 1.
    rewrite (write_put name _ c) by by rewrite Hn.
    rewrite Hn. unfold OS.ret. by rewrite append_nil_l.
Qed.

Lemma Datafile_init_new w :
  absent e w →
  Helper.Datafile_init get_events e w
  = (Ok (Helper.mkDatafile e true name date),
     put p EmptyString (with_db w)).
Proof.
  intros (Hdb & Hpd & Hpf). unfold Helper.Datafile_init.
  unfold mbind, OS.M_bind, OS.bind, OS.lift, getitem.
  rewrite Hevent, Hdate. unfold OS.isdir, with_db.
  change (OS.norm Helper.datapath) with ["db"].
  destruct (OS.has_dir (OS.tree w) ["db"]) eqn:Hd.
  - unfold OS.ret, OS.isfile. rewrite norm_ledger by done.
    rewrite Hpf. unfold OS.open_w. rewrite norm_ledger by done.
    rewrite Hpd. unfold OS.parent_error.
    change (OS.parent p) with ["db"]. by rewrite Hd.
  - unfold OS.mkdir. change (OS.norm Helper.datapath) with ["db"].
    rewrite Hd, Hdb. cbn [orb]. unfold OS.parent_error.
    change (OS.parent ["db"]) with (@nil string). cbn [OS.has_dir].
    unfold OS.with_tree, OS.isfile. cbn [OS.tree].
    rewrite norm_ledger by done.
    unfold OS.has_file at 1. cbn [OS.files].
    fold (OS.has_file (OS.tree w) p).
    rewrite Hpf. unfold OS.open_w. rewrite norm_ledger by done.
    cbn [OS.tree].
    assert (Hp : ∀ fs, OS.has_dir
                         (OS.mkfs ({[["db"]]} ∪ OS.dirs (OS.tree w)) fs) p
                       = false).
    { intros fs. rewrite has_dir_add.
      rewrite (bool_decide_eq_false_2 (p = ["db"])) by done.
      by rewrite (has_dir_dirs _ (OS.tree w)). }
    assert (Hq : ∀ fs, OS.has_dir
                         (OS.mkfs ({[["db"]]} ∪ OS.dirs (OS.tree w)) fs)
                         ["db"] = true).
    { intros fs. rewrite has_dir_add. by rewrite bool_decide_eq_true_2. }
    rewrite Hp. unfold OS.parent_error. change (OS.parent p) with ["db"].
    by rewrite Hq.
Qed.

Lemma holds_new w :
  absent e w → holds e (put p EmptyString (with_db w)) EmptyString.
Proof.
  intros (Hdb & Hpd & Hpf). unfold holds. rewrite !has_dir_put.
  split; [|split; [|apply put_lookup]]; unfold with_db;
    destruct (OS.has_dir (OS.tree w) ["db"]) eqn:Hd; try done;
    cbn [OS.tree]; rewrite has_dir_add.
  - by rewrite bool_decide_eq_true_2.
  - rewrite (has_dir_dirs _ (OS.tree w)) by done. rewrite Hpd.
    by rewrite bool_decide_eq_false_2.
Qed.

(** X13. Two [Datafile] objects made for one event before either stores
    disagree on who writes the header: the first made the file and
    remembers it as new, the second found it. When the second stores
    first, its row becomes the first line of the ledger, and the header
    follows it with the row of the first object. *)
Theorem two_objects_header_after_row d1 d2 w :
  absent e w →
  two_objects get_events e d1 d2 w
  = (Ok (Helper.mkDatafile e false name date),
     put p (Helper.row_line d2 +:+ Helper.header_line d1
              +:+ Helper.row_line d1) (with_db w)).
Proof.
  intros Ha. unfold two_objects. unfold mbind, OS.M_bind.
  unfold OS.bind at 1. rewrite (Datafile_init_new w Ha).
  pose proof (holds_new w Ha) as H1.
  unfold OS.bind at 1.
  pose proof H1 as (Hdb & Hpd & Hc).
  rewrite (Datafile_init_existing get_events e date info Hevent Hdate Hplain
             _ EmptyString Hdb Hc).
  unfold OS.bind at 1. fold name.
  rewrite (store_put false d2 _ EmptyString) by done.
  rewrite !append_nil_l.
  rewrite (store_put true d1 _ (Helper.row_line d2))
    by (by apply (holds_put e _ EmptyString)).
  by rewrite !put_put.
Qed.

(** X12. [store] appends to the ledger and touches nothing else: on a
    machine whose ledger holds [c], the ledger afterwards holds [c], then
    the header line if the object took the file for new, then the row of
    the record; directories, other files and the log of processes are as
    before, and the object no longer takes the file for new. *)
Theorem store_appends_row (new : bool) d w c :
  holds e w c →
  Helper.store (Helper.mkDatafile e new name date) d w
  = (Ok (Helper.mkDatafile e false name date),
     put p (c +:+ (if new then Helper.header_line d else EmptyString)
              +:+ Helper.row_line d) w).
Proof. apply store_put. Qed.

(** X10. Making a [Datafile] for an event whose ledger exists changes
    nothing on the machine: the ledger is not truncated, and the object
    does not take the file for new. *)
Theorem Datafile_keeps_existing_ledger w c :
  holds e w c →
  Helper.Datafile_init get_events e w
  = (Ok (Helper.mkDatafile e false name date), w).
Proof.
  intros (Hdb & _ & Hc).
  exact (Datafile_init_existing get_events e date info Hevent Hdate Hplain
           w c Hdb Hc).
Qed.

(** X11. Making a [Datafile] for an event without a ledger makes the
    directory [db] if it is missing and an empty ledger file, changes
    nothing else, and the object takes the file for new. *)
Theorem Datafile_makes_empty_ledger w :
  absent e w →
  Helper.Datafile_init get_events e w
  = (Ok (Helper.mkDatafile e true name date),
     put p EmptyString (with_db w)).
Proof. apply Datafile_init_new. Qed.

End LedgerFrame.

(** X9. For an event that the lookup does not know, the constructor of
    [Datafile] raises a [KeyError] for its name before it touches the
    machine: neither the directory [db] nor a ledger file is made. *)
Theorem Datafile_unknown_event get_events e w :
  get_events !! e = None →
  Helper.Datafile_init get_events e w = (Raise (KeyError e), w).
Proof.
  intros H. unfold Helper.Datafile_init, mbind, OS.M_bind, OS.bind, OS.lift.
  unfold getitem. by rewrite H.
Qed.

Lemma Datafile_unknown_event_witness :
  Sample.events !! "Paris_2025" = None
  ∧ Helper.Datafile_init Sample.events "Paris_2025" Sample.machine
    = (Raise (KeyError "Paris_2025"), Sample.machine).
Proof.
  assert (H : Sample.events !! "Paris_2025" = None) by reflexivity.
  exact (conj H (Datafile_unknown_event Sample.events "Paris_2025"
                   Sample.machine H)).
Defined.

Lemma sample_event :
  Sample.events !! "Berlin_2024" = Some {[ "date" := "2024-05-01" ]}
  ∧ ({[ "date" := "2024-05-01" ]} : gmap string string) !! "date"
    = Some "2024-05-01"
  ∧ occurs "/" "Berlin_2024" = false.
Proof. repeat split. Qed.

Lemma sample_holds :
  holds "Berlin_2024" (Sample.with_ledger Sample.ledger) Sample.ledger.
Proof. repeat split; vm_compute; reflexivity. Qed.

Lemma sample_absent : absent "Berlin_2024" Sample.machine.
Proof. repeat split; vm_compute; reflexivity. Qed.

Lemma Datafile_keeps_existing_ledger_witness :
  let info : gmap string string := {[ "date" := "2024-05-01" ]} in
  let w := Sample.with_ledger Sample.ledger in
  Sample.events !! "Berlin_2024" = Some info
  ∧ info !! "date" = Some "2024-05-01"
  ∧ occurs "/" "Berlin_2024" = false
  ∧ holds "Berlin_2024" w Sample.ledger
  ∧ Helper.Datafile_init Sample.events "Berlin_2024" w
    = (Ok (Helper.mkDatafile "Berlin_2024" false
             (Helper.datapath +:+ "Berlin_2024" +:+ Helper.extension)
             "2024-05-01"), w).
Proof.
  intros info w.
  destruct sample_event as (H1 & H2 & H3).
  pose proof sample_holds as H4.
  exact (conj H1 (conj H2 (conj H3 (conj H4
           (Datafile_keeps_existing_ledger Sample.events "Berlin_2024"
              "2024-05-01" info H1 H2 H3 w Sample.ledger H4))))).
Defined.

Lemma Datafile_makes_empty_ledger_witness :
  let info : gmap string string := {[ "date" := "2024-05-01" ]} in
  Sample.events !! "Berlin_2024" = Some info
  ∧ info !! "date" = Some "2024-05-01"
  ∧ occurs "/" "Berlin_2024" = false
  ∧ absent "Berlin_2024" Sample.machine
  ∧ Helper.Datafile_init Sample.events "Berlin_2024" Sample.machine
    = (Ok (Helper.mkDatafile "Berlin_2024" true
             (Helper.datapath +:+ "Berlin_2024" +:+ Helper.extension)
             "2024-05-01"),
       put (ledger_path "Berlin_2024") EmptyString (with_db Sample.machine)).
Proof.
  intros info.
  destruct sample_event as (H1 & H2 & H3).
  pose proof sample_absent as H4.
  exact (conj H1 (conj H2 (conj H3 (conj H4
           (Datafile_makes_empty_ledger Sample.events "Berlin_2024"
              "2024-05-01" info H1 H2 H3 Sample.machine H4))))).
Defined.

Lemma store_appends_row_witness :
  let w := Sample.with_ledger Sample.ledger in
  occurs "/" "Berlin_2024" = false
  ∧ holds "Berlin_2024" w Sample.ledger
  ∧ Helper.store
      (Helper.mkDatafile "Berlin_2024" false
         (Helper.datapath +:+ "Berlin_2024" +:+ Helper.extension)
         "2024-05-01") Sample.taxi w
    = (Ok (Helper.mkDatafile "Berlin_2024" false
             (Helper.datapath +:+ "Berlin_2024" +:+ Helper.extension)
             "2024-05-01"),
       put (ledger_path "Berlin_2024")
         (Sample.ledger +:+ EmptyString +:+ Helper.row_line Sample.taxi) w).
Proof.
  intros w.
  assert (H3 : occurs "/" "Berlin_2024" = false) by reflexivity.
  pose proof sample_holds as H4.
  exact (conj H3 (conj H4
           (store_appends_row "Berlin_2024" "2024-05-01" H3 false
              Sample.taxi w Sample.ledger H4))).
Defined.

Lemma two_objects_header_after_row_witness :
  let info : gmap string string := {[ "date" := "2024-05-01" ]} in
  Sample.events !! "Berlin_2024" = Some info
  ∧ info !! "date" = Some "2024-05-01"
  ∧ occurs "/" "Berlin_2024" = false
  ∧ absent "Berlin_2024" Sample.machine
  ∧ two_objects Sample.events "Berlin_2024" Sample.taxi Sample.hotel
      Sample.machine
    = (Ok (Helper.mkDatafile "Berlin_2024" false
             (Helper.datapath +:+ "Berlin_2024" +:+ Helper.extension)
             "2024-05-01"),
       put (ledger_path "Berlin_2024")
         (Helper.row_line Sample.hotel +:+ Helper.header_line Sample.taxi
          +:+ Helper.row_line Sample.taxi)
         (with_db Sample.machine)).
Proof.
  intros info.
  destruct sample_event as (H1 & H2 & H3).
  pose proof sample_absent as H4.
  exact (conj H1 (conj H2 (conj H3 (conj H4
           (two_objects_header_after_row Sample.events "Berlin_2024"
              "2024-05-01" info H1 H2 H3 Sample.taxi Sample.hotel
              Sample.machine H4))))).
Defined.

Lemma years_read_back y :
  0 ≤ y ≤ 9999 → reads_back_year y = true.
Proof.
  intros Hy.
  assert (H : forallb reads_back_year (seqZ 0 10000) = true)
    by (vm_compute; reflexivity).
  rewrite forallb_forall in H. apply H. apply list_elem_of_In.
  apply elem_of_seqZ. lia.
Qed.

Lemma first_match_fmap {A B C} (f : B → C) (k : A → string → option B) alts :
  PyDate.first_match (fun a s => f <$> k a s) alts
  = f <$> PyDate.first_match k alts.
Proof.
  induction alts as [|[a rest] alts IH]; cbn; [done|].
  destruct (k a rest); cbn; [done|]. exact IH.
Qed.

Lemma first_match_ext {A B} (k k' : A → string → option B) alts :
  (∀ a s, k a s = k' a s) →
  PyDate.first_match k alts = PyDate.first_match k' alts.
Proof.
  intros H. induction alts as [|[a rest] alts IH]; cbn; [done|].
  by rewrite H, IH.
Qed.

Lemma match_ymd_md y1 y2 y3 y4 s :
  PyStr.isdigit y1 && PyStr.isdigit y2 && PyStr.isdigit y3
  && PyStr.isdigit y4 = true →
  PyDate.match_ymd
    (String y1 (String y2 (String y3 (String y4 (String "-" s)))))
  = (fun '(m, d, rest) =>
       (100 * PyDate.two y1 y2 + PyDate.two y3 y4, m, d, rest))
      <$> match_md s.
Proof.
  intros H. cbn [PyDate.match_ymd]. rewrite H. cbv zeta.
  unfold match_md. rewrite <- first_match_fmap.
  apply first_match_ext. intros m s2.
  destruct s2 as [|c s3]; [done|].
  destruct (Ascii.eqb_spec c "-") as [->|Hc].
  - by rewrite <- first_match_fmap.
  - destruct c as [[] [] [] [] [] [] [] []]; try done.
Qed.

Lemma days_read_back m d :
  1 ≤ m ≤ 12 → 1 ≤ d ≤ 31 → reads_back_day (m, d) = true.
Proof.
  intros Hm Hd.
  assert (H : forallb reads_back_day
                (m ← seqZ 1 12; d ← seqZ 1 31; [(m, d)]) = true)
    by (vm_compute; reflexivity).
  rewrite forallb_forall in H. apply H. apply list_elem_of_In.
  apply list_elem_of_bind. exists m. split; [|apply elem_of_seqZ; lia].
  apply list_elem_of_bind. exists d. split; [|apply elem_of_seqZ; lia].
  apply list_elem_of_singleton. done.
Qed.

Lemma strptime_iso y m d :
  1 ≤ y ≤ 9999 → 1 ≤ m ≤ 12 → 1 ≤ d ≤ PyDate.days_in_month y m →
  PyDate.strptime (iso y m d) = Ok (PyDate.mkdate y m d).
Proof.
  intros Hy Hm Hd.
  assert (Hd31 : 1 ≤ d ≤ 31).
  { unfold PyDate.days_in_month in Hd.
    repeat match type of Hd with context [if ?b then _ else _] =>
      destruct b end; lia. }
  pose proof (years_read_back y ltac:(lia)) as Hyear.
  pose proof (days_read_back m d Hm Hd31) as Hday.
  apply bool_decide_eq_true in Hday. cbn [fst snd] in Hday.
  unfold reads_back_year in Hyear. unfold iso, PyDate.strptime.
  destruct (PyStr.zfill 4 y) as [|y1 [|y2 [|y3 [|y4 [|? ?]]]]]; try done.
  apply andb_true_iff in Hyear as [Hdig Heq]. apply Z.eqb_eq in Heq.
  change (String y1 (String y2 (String y3 (String y4 EmptyString)))
          +:+ "-" +:+ PyStr.zfill 2 m +:+ "-" +:+ PyStr.zfill 2 d)
    with (String y1 (String y2 (String y3 (String y4 (String "-"
            (PyStr.zfill 2 m +:+ "-" +:+ PyStr.zfill 2 d)))))).
  rewrite (match_ymd_md _ _ _ _ _ Hdig), Hday. cbn [fmap option_fmap option_map].
  rewrite Heq.
  destruct (Z.leb_spec 1 y); [|lia].
  destruct (Z.leb_spec d (PyDate.days_in_month y m)); [|lia]. done.
Qed.

(** X14. [event_date] turns the date of the event from [YYYY-MM-DD] into
    [DD.MM.YYYY]: for every date of the calendar from the year 1 to the
    year 9999, written with a four-digit year and two-digit month and
    day, it returns the day and the month with two digits and the year,
    which the C library prints without padding. *)
Theorem event_date_of_iso self y m d :
  1 ≤ y ≤ 9999 → 1 ≤ m ≤ 12 → 1 ≤ d ≤ PyDate.days_in_month y m →
  Helper.date_of_event self = iso y m d →
  Helper.event_date self
  = Ok (PyStr.zfill 2 d +:+ "." +:+ PyStr.zfill 2 m +:+ "."
        +:+ PyStr.of_Z y).
Proof.
  intros Hy Hm Hd Hdate. unfold Helper.event_date.
  by rewrite Hdate, strptime_iso.
Qed.

Lemma event_date_of_iso_witness :
  let self := Helper.mkDatafile "Berlin_2024" false "db/Berlin_2024.data"
                "2024-02-29" in
  1 ≤ 2024 ≤ 9999 ∧ 1 ≤ 2 ≤ 12 ∧ 1 ≤ 29 ≤ PyDate.days_in_month 2024 2
  ∧ Helper.date_of_event self = iso 2024 2 29
  ∧ Helper.event_date self
    = Ok (PyStr.zfill 2 29 +:+ "." +:+ PyStr.zfill 2 2 +:+ "."
          +:+ PyStr.of_Z 2024).
Proof.
  intros self.
  assert (H1 : 1 ≤ 2024 ≤ 9999) by lia.
  assert (H2 : 1 ≤ 2 ≤ 12) by lia.
  assert (H3 : 1 ≤ 29 ≤ PyDate.days_in_month 2024 2)
    by (change (PyDate.days_in_month 2024 2) with 29; lia).
  assert (H4 : Helper.date_of_event self = iso 2024 2 29) by reflexivity.
  exact (conj H1 (conj H2 (conj H3 (conj H4
           (event_date_of_iso self 2024 2 29 H1 H2 H3 H4))))).
Defined.

Lemma event_date_sample :
  Helper.event_date
    (Helper.mkDatafile "Berlin_2024" false "db/Berlin_2024.data"
       "2024-02-29")
  = Ok "29.02.2024".
Proof. reflexivity. Qed.

(** ** Plain texts *)

Lemma all_chars_append P a b :
  all_chars P (a +:+ b) = all_chars P a && all_chars P b.
Proof.
  induction a as [|c a IH]; [done|].
  rewrite append_cons. cbn. by rewrite IH, andb_assoc.
Qed.

Lemma all_chars_substring P n m s :
  all_chars P s = true → all_chars P (String.substring n m s) = true.
Proof.
  revert n m. induction s as [|c s IH]; intros n m H.
  - by destruct n, m.
  - cbn in H. apply andb_true_iff in H as [Hc Hs].
    destruct n as [|n]; cbn.
    + destruct m as [|m]; [done|]. cbn. by rewrite Hc, IH.
    + by apply IH.
Qed.

Lemma all_chars_from1 P s :
  all_chars P s = true → all_chars P (PyStr.from1 s) = true.
Proof.
  destruct s as [|c s]; [done|]. cbn. by intros [_ H]%andb_true_iff.
Qed.

Lemma all_chars_zeros P n :
  P "0"%char = true → all_chars P (PyStr.zeros n) = true.
Proof. intros H. induction n as [|n IH]; [done|]. cbn. by rewrite H, IH. Qed.

Lemma all_chars_uint P u :
  (∀ c, PyStr.isdigit c = true → P c = true) →
  all_chars P (NilEmpty.string_of_uint u) = true.
Proof.
  intros H. induction u as [|u IH|u IH|u IH|u IH|u IH|u IH|u IH|u IH|u IH|u IH];
    [done|..]; cbn; rewrite IH, H; done.
Qed.

Lemma all_chars_of_Z P z :
  (∀ c, PyStr.isdigit c = true → P c = true) → P "-"%char = true →
  all_chars P (PyStr.of_Z z) = true.
Proof.
  intros H Hm. destruct z as [|p|p]; unfold PyStr.of_Z.
  - cbn. by rewrite H.
  - by apply all_chars_uint.
  - rewrite all_chars_append, all_chars_uint by done. cbn. by rewrite Hm.
Qed.

Lemma plain_digit c : PyStr.isdigit c = true → negb (separator c) = true.
Proof. destruct c as [[] [] [] [] [] [] [] []]; done. Qed.

Lemma plain_of_Z z : plain (PyStr.of_Z z) = true.
Proof. apply all_chars_of_Z; [apply plain_digit | done]. Qed.

Lemma plain_append a b : plain (a +:+ b) = plain a && plain b.
Proof. apply all_chars_append. Qed.

Lemma plain_zeros n : plain (PyStr.zeros n) = true.
Proof. by apply all_chars_zeros. Qed.

Lemma plain_zfill w z : plain (PyStr.zfill w z) = true.
Proof. unfold PyStr.zfill. by rewrite plain_append, plain_zeros, plain_of_Z. Qed.

Lemma plain_format_r ds k :
  plain ds = true → plain (PyFloat.format_r ds k) = true.
Proof.
  intros H. unfold PyFloat.format_r. cbv zeta.
  assert (Hsub : ∀ n m, plain (String.substring n m ds) = true)
    by (intros; by apply all_chars_substring).
  assert (Hf : plain (PyStr.from1 ds) = true) by by apply all_chars_from1.
  assert (He : ∀ e, plain (PyFloat.exponent_str e) = true).
  { intros e. unfold PyFloat.exponent_str.
    destruct (e <? 0); by rewrite plain_append, plain_zfill. }
  destruct (_ || _).
  - rewrite !plain_append, Hsub, He.
    destruct (PyStr.from1 ds) eqn:E; [done|]. by rewrite plain_append, Hf.
  - destruct (k <=? 0); [by rewrite !plain_append, plain_zeros, H|].
    destruct (k <? _); [by rewrite !plain_append, !Hsub|].
    by rewrite !plain_append, plain_zeros, H.
Qed.

Lemma plain_repr x : plain (PyFloat.repr x) = true.
Proof.
  destruct x as [[]|[]| |s m e]; try done.
  unfold PyFloat.repr, PyFloat.shortest_digits.
  destruct (PyFloat.to_ratio m e) as [n d].
  destruct (PyFloat.shortest _ _ _ _ _ _) as [dm de].
  destruct (PyFloat.drop_zeros _ _ _) as [dm' de'].
  rewrite plain_append, plain_format_r by apply plain_of_Z.
  by destruct s.
Qed.

Lemma plain_occurs s c :
  plain s = true → separator c = true → occurs c s = false.
Proof.
  intros H Hc. induction s as [|a s IH]; [done|].
  cbn in H. apply andb_true_iff in H as [Ha Hs]. cbn.
  rewrite (IH Hs), orb_false_r.
  destruct (Ascii.eqb_spec a c) as [->|]; [|done].
  by rewrite Hc in Ha.
Qed.

(** ** The lines of a stored ledger *)

Lemma universal_newlines_plain s :
  occurs "013" s = false → OS.universal_newlines s = s.
Proof.
  induction s as [|c s IH]; [done|]. cbn.
  intros [Hc Hs]%orb_false_iff. rewrite Hc. by rewrite IH.
Qed.

Lemma lines_first l rest :
  occurs "010" l = false →
  OS.lines (l +:+ String "010" rest) = (l +:+ String "010" EmptyString)
                                    :: OS.lines rest.
Proof.
  induction l as [|c l IH]; [done|].
  intros [Hc Hl]%orb_false_iff. rewrite !append_cons.
  cbn [OS.lines]. rewrite Hc. by rewrite (IH Hl).
Qed.

Lemma rstrip_line s :
  PyStr.rstrip (s +:+ String "010" EmptyString) = PyStr.rstrip s.
Proof.
  induction s as [|c s IH]; [done|].
  rewrite append_cons. cbn [PyStr.rstrip]. by rewrite IH.
Qed.

Lemma kept_cons c s : kept s → kept (String c s).
Proof.
  intros [Hs Hne]. split; [|done]. cbn [PyStr.rstrip]. rewrite Hs.
  by destruct s.
Qed.

Lemma kept_append a s : kept s → kept (a +:+ s).
Proof.
  intros H. induction a as [|x a IH]; [done|].
  rewrite append_cons. by apply kept_cons.
Qed.

Lemma kept_comma u : PyStr.rstrip u = u → kept (String "," u).
Proof.
  intros Hu. split; [|done]. cbn [PyStr.rstrip]. rewrite Hu. by destruct u.
Qed.

Lemma split_field sep f rest :
  occurs sep f = false →
  PyStr.split sep (f +:+ String sep rest) = f :: PyStr.split sep rest.
Proof.
  induction f as [|c f IH].
  - intros _. rewrite append_nil_l. cbn [PyStr.split].
    by rewrite Ascii.eqb_refl.
  - intros [Hc Hf]%orb_false_iff. rewrite append_cons. cbn [PyStr.split].
    rewrite Hc. by rewrite (IH Hf).
Qed.

Lemma comma_first x : "," +:+ x = String "," x.
Proof. reflexivity. Qed.

Lemma split_row a b c d e :
  occurs "," a = false → occurs "," b = false → occurs "," c = false →
  occurs "," d = false → occurs "," e = false →
  PyStr.split "," (PyStr.join "," [a; b; c; d; e]) = [a; b; c; d; e].
Proof.
  intros Ha Hb Hc Hd He. cbn [PyStr.join].
  rewrite !comma_first.
  rewrite !split_field by done. by rewrite split_absent.
Qed.

Lemma row_fields d :
  storable d = true →
  PyStr.split "," (PyStr.rstrip (Helper.row_line d)) = Helper.values_str d.
Proof.
  unfold storable. rewrite !andb_true_iff, bool_decide_eq_true.
  intros ((((Hd & He) & Hp) & Hu) & Hr).
  unfold Helper.row_line. rewrite rstrip_line.
  unfold Helper.values_str. cbn [PyStr.join].
  rewrite !comma_first.
  assert (Hk : kept (Helper.invoice_date d +:+ String ","
                  (Helper.event_name d +:+ String ","
                     (Helper.purpose d +:+ String ","
                        (PyFloat.repr (Helper.cost d) +:+ String ","
                           (Helper.user d)))))).
  { repeat first [apply kept_comma; exact Hr
                 | apply kept_append | apply kept_cons]. }
  rewrite (proj1 Hk).
  rewrite !split_field
    by (apply plain_occurs;
        [first [assumption | apply plain_repr] | reflexivity]).
  rewrite split_absent by by apply plain_occurs. done.
Qed.

Lemma lines_all (ls : list string) :
  Forall (fun l => occurs "010" l = false) ls →
  OS.lines (join_all ((fun l => l +:+ String "010" EmptyString) <$> ls))
  = (fun l => l +:+ String "010" EmptyString) <$> ls.
Proof.
  induction 1 as [|l ls Hl _ IH]; [done|].
  cbn [fmap list_fmap join_all foldr]. rewrite append_assoc.
  change (String "010" EmptyString +:+ ?x) with (String "010" x).
  rewrite lines_first by done. f_equal. exact IH.
Qed.

Lemma occurs_join_all c (ls : list string) :
  Forall (fun l => occurs c l = false) ls → occurs c (join_all ls) = false.
Proof.
  induction 1 as [|l ls Hl _ IH]; [done|].
  cbn [join_all foldr]. by rewrite occurs_append, Hl.
Qed.

Lemma occurs_row c d :
  storable d = true → separator c = true →
  Ascii.eqb "," c = false →
  occurs c (PyStr.join "," (Helper.values_str d)) = false.
Proof.
  unfold storable. rewrite !andb_true_iff, bool_decide_eq_true.
  intros ((((Hd & He) & Hp) & Hu) & Hr) Hc Hcomma.
  unfold Helper.values_str. cbn [PyStr.join].
  rewrite !comma_first.
  do 4 (rewrite occurs_append; cbn [occurs]; rewrite Hcomma).
  rewrite !(plain_occurs _ c) by (done || apply plain_repr).
  done.
Qed.

Lemma load_rows ds xs es ps cs us :
  Forall (fun d => storable d = true) ds →
  foldl (fun data line =>
           Inserter.add_entry expected_header
             (PyStr.split "," (PyStr.rstrip line)) data)
    (columns xs es ps cs us) (Helper.row_line <$> ds)
  = columns (xs ++ (Helper.invoice_date <$> ds))
      (es ++ (Helper.event_name <$> ds))
      (ps ++ (Helper.purpose <$> ds))
      (cs ++ ((fun d => PyFloat.repr (Helper.cost d)) <$> ds))
      (us ++ (Helper.user <$> ds)).
Proof.
  intros H. revert xs es ps cs us.
  induction H as [|d ds Hd _ IH]; intros xs es ps cs us.
  - cbn. by rewrite !app_nil_r.
  - cbn [fmap list_fmap foldl]. rewrite (row_fields d Hd).
    unfold Helper.values_str. rewrite add_entry_columns, IH.
    by rewrite <- !app_assoc.
Qed.

(** X17. What [store] writes, the constructor of [LatexBuilder] reads back:
    on the text of a header line and one row per record, the loop over
    the lines yields the five columns of the records, in their order,
    with the cost as [str] prints it, and counts one row per record.
    This holds for records whose texts have no comma, line feed or
    carriage return and whose user does not end in a space. *)
Theorem load_recovers_stored d0 ds :
  Forall (fun d => storable d = true) ds →
  Inserter.load
    (OS.readlines (Helper.header_line d0
                   +:+ join_all (Helper.row_line <$> ds)))
  = (Some (columns (Helper.invoice_date <$> ds)
             (Helper.event_name <$> ds)
             (Helper.purpose <$> ds)
             ((fun d => PyFloat.repr (Helper.cost d)) <$> ds)
             (Helper.user <$> ds)),
     length ds).
Proof.
  intros H.
  set (content := fun d => PyStr.join "," (Helper.values_str d)).
  assert (Hrows : Helper.row_line <$> ds
                  = (fun l => l +:+ String "010" EmptyString)
                      <$> (content <$> ds))
    by by rewrite <- list_fmap_compose.
  assert (Hnl : Forall (fun l => occurs "010" l = false) (content <$> ds)).
  { apply Forall_fmap. eapply Forall_impl; [exact H|].
    intros d Hd. by apply occurs_row. }
  assert (Hcr : Forall (fun l => occurs "013" l = false)
                  (Helper.row_line <$> ds)).
  { apply Forall_fmap. eapply Forall_impl; [exact H|].
    intros d Hd. unfold compose, Helper.row_line.
    rewrite occurs_append. by rewrite occurs_row. }
  unfold OS.readlines.
  rewrite universal_newlines_plain
    by (rewrite occurs_append, occurs_join_all by done; done).
  change (Helper.header_line d0)
    with (PyStr.join "," expected_header +:+ String "010" EmptyString).
  rewrite append_assoc.
  change (String "010" EmptyString +:+ ?x) with (String "010" x).
  rewrite lines_first by done.
  rewrite Hrows, lines_all by done. rewrite <- Hrows.
  unfold Inserter.load. rewrite rstrip_line.
  change (PyStr.split "," (PyStr.rstrip (PyStr.join "," expected_header)))
    with expected_header.
  rewrite empty_columns_expected, load_rows by done.
  by rewrite !length_fmap.
Qed.

Lemma add_entry_six a b c d e f :
  Inserter.add_entry expected_header [a; b; c; d; e; f]
    (columns [] [] [] [] [])
  = columns [a] [b] [c] [d] [e].
Proof. vm_compute. reflexivity. Qed.

(** X18. [store] does not escape commas: a record whose purpose has one
    comma is read back with the fields after it shifted by one column.
    The second part of the purpose lands in the column [cost], the cost
    in the column [user], and the user is dropped. *)
Theorem load_comma_in_purpose d0 d p1 p2 :
  plain (Helper.invoice_date d) = true →
  plain (Helper.event_name d) = true →
  Helper.purpose d = p1 +:+ "," +:+ p2 →
  plain p1 = true → plain p2 = true →
  plain (Helper.user d) = true →
  PyStr.rstrip (Helper.user d) = Helper.user d →
  Inserter.load (OS.readlines (Helper.header_line d0 +:+ Helper.row_line d))
  = (Some (columns [Helper.invoice_date d] [Helper.event_name d]
             [p1] [p2] [PyFloat.repr (Helper.cost d)]),
     1%nat).
Proof.
  intros Hd He Hp Hp1 Hp2 Hu Hr.
  pose proof (plain_repr (Helper.cost d)) as Hc.
  set (row := PyStr.join "," (Helper.values_str d)).
  assert (Hrow : row = Helper.invoice_date d +:+ String ","
                  (Helper.event_name d +:+ String ","
                     (p1 +:+ String ","
                        (p2 +:+ String ","
                           (PyFloat.repr (Helper.cost d) +:+ String ","
                              (Helper.user d)))))).
  { unfold row, Helper.values_str. cbn [PyStr.join].
    by rewrite Hp, !append_assoc, !comma_first. }
  assert (Hsep : ∀ c, separator c = true → Ascii.eqb "," c = false →
                      occurs c row = false).
  { intros c Hsc Hcomma. rewrite Hrow.
    do 5 (rewrite occurs_append; cbn [occurs]; rewrite Hcomma).
    by rewrite !(plain_occurs _ c). }
  unfold OS.readlines.
  rewrite universal_newlines_plain.
  2:{ rewrite occurs_append. unfold Helper.row_line. fold row.
      rewrite occurs_append, Hsep by done. done. }
  change (Helper.header_line d0)
    with (PyStr.join "," expected_header +:+ String "010" EmptyString).
  rewrite append_assoc.
  change (String "010" EmptyString +:+ ?x) with (String "010" x).
  rewrite lines_first by done.
  unfold Helper.row_line. fold row.
  change (row +:+ "
") with (row +:+ String "010" EmptyString).
  rewrite lines_first by by apply Hsep.
  change (OS.lines EmptyString) with (@nil string).
  unfold Inserter.load. cbn [foldl length]. rewrite !rstrip_line.
  change (PyStr.split "," (PyStr.rstrip (PyStr.join "," expected_header)))
    with expected_header.
  assert (Hk : kept row).
  { rewrite Hrow.
    repeat first [apply kept_comma; exact Hr
                 | apply kept_append | apply kept_cons]. }
  rewrite (proj1 Hk), Hrow.
  rewrite !split_field by by apply plain_occurs.
  rewrite split_absent by by apply plain_occurs.
  by rewrite empty_columns_expected, add_entry_six.
Qed.

Lemma load_recovers_stored_witness :
  let ds := [Sample.taxi; Sample.hotel; Sample.food] in
  Forall (fun d => storable d = true) ds
  ∧ Inserter.load
      (OS.readlines (Helper.header_line Sample.taxi
                     +:+ join_all (Helper.row_line <$> ds)))
    = (Some (columns (Helper.invoice_date <$> ds)
               (Helper.event_name <$> ds)
               (Helper.purpose <$> ds)
               ((fun d => PyFloat.repr (Helper.cost d)) <$> ds)
               (Helper.user <$> ds)),
       length ds).
Proof.
  intros ds.
  assert (H : Forall (fun d => storable d = true) ds)
    by (repeat constructor).
  exact (conj H (load_recovers_stored Sample.taxi ds H)).
Defined.

Lemma load_comma_in_purpose_witness :
  plain (Helper.invoice_date night_taxi) = true
  ∧ plain (Helper.event_name night_taxi) = true
  ∧ Helper.purpose night_taxi = "Taxi" +:+ "," +:+ " at night"
  ∧ plain "Taxi" = true ∧ plain " at night" = true
  ∧ plain (Helper.user night_taxi) = true
  ∧ PyStr.rstrip (Helper.user night_taxi) = Helper.user night_taxi
  ∧ Inserter.load
      (OS.readlines (Helper.header_line night_taxi
                     +:+ Helper.row_line night_taxi))
    = (Some (columns [Helper.invoice_date night_taxi]
               [Helper.event_name night_taxi]
               ["Taxi"] [" at night"]
               [PyFloat.repr (Helper.cost night_taxi)]),
       1%nat).
Proof.
  assert (H1 : plain (Helper.invoice_date night_taxi) = true)
    by reflexivity.
  assert (H2 : plain (Helper.event_name night_taxi) = true) by reflexivity.
  assert (H3 : Helper.purpose night_taxi = "Taxi" +:+ "," +:+ " at night")
    by reflexivity.
  assert (H4 : plain "Taxi" = true) by reflexivity.
  assert (H5 : plain " at night" = true) by reflexivity.
  assert (H6 : plain (Helper.user night_taxi) = true) by reflexivity.
  assert (H7 : PyStr.rstrip (Helper.user night_taxi)
               = Helper.user night_taxi) by reflexivity.
  exact (conj H1 (conj H2 (conj H3 (conj H4 (conj H5 (conj H6 (conj H7
           (load_comma_in_purpose night_taxi night_taxi "Taxi" " at night"
              H1 H2 H3 H4 H5 H6 H7)))))))).
Defined.

(** The constructor of [LatexBuilder] on the ledger of that record: the
    second part of the purpose is no number. *)
Lemma init_comma_in_purpose :
  Inserter.init "db/Berlin_2024.data" "01.05.2024"
    (Sample.with_ledger (Helper.header_line night_taxi
                         +:+ Helper.row_line night_taxi))
  = (Raise ValueError,
     Sample.with_ledger (Helper.header_line night_taxi
                         +:+ Helper.row_line night_taxi)).
Proof. vm_compute. reflexivity. Qed.

(** ** What [strip] raises and what it lets pass *)

Lemma bind_raises {A B} (P : exn → Prop) (m : res A) (k : A → res B) e :
  (m = Raise e → P e) → (∀ a, k a = Raise e → P e) →
  res_bind m k = Raise e → P e.
Proof.
  intros Hm Hk. destruct m as [a|e']; cbn; [apply Hk|].
  intros [= ->]. by apply Hm.
Qed.

Lemma getitem_raises {V} (d : gmap string V) k e :
  getitem d k = Raise e → e = KeyError k.
Proof. unfold getitem. destruct (d !! k); by intros [=]. Qed.

Lemma entry_raises {V} k (o : option V) e :
  Helper.entry k o = Raise e → e = KeyError k.
Proof. destruct o; by intros [=]. Qed.

Lemma subscriptable_raises {A} (o : Helper.nullable A) e :
  Helper.subscriptable o = Raise e → e = TypeError.
Proof. destruct o; by intros [=]. Qed.

Lemma fields_raises ev v e :
  Helper.fields ev v = Raise e → (∃ k, e = KeyError k) ∨ e = TypeError.
Proof.
  unfold Helper.fields, mbind, res_mbind.
  repeat (apply (bind_raises (fun e => (∃ k, e = KeyError k) ∨ e = TypeError));
          [intros H;
           first [apply getitem_raises in H; left; by eexists
                 | apply entry_raises in H; left; by eexists
                 | apply subscriptable_raises in H; by right]
          | intros ?]).
  intros [=].
Qed.

(** X15. On a form whose entries are texts, missing, or left empty
    (JSON [null] for a text input or for the select menu), [strip]
    raises nothing but a [KeyError] (an entry is missing), a [TypeError]
    (the select menu or the purpose was left empty), an [IndexError]
    (the purpose is the empty text) or an [InputError] for the field
    [invoice_cost]. *)
Theorem strip_raises_only ev v user_id e :
  Helper.strip ev v user_id = Raise e →
  (∃ k, e = KeyError k) ∨ e = TypeError ∨ e = IndexError
  ∨ (∃ msg, e = InputError msg "invoice_cost").
Proof.
  unfold Helper.strip. unfold mbind, res_mbind.
  destruct (Helper.fields ev v) as [r|e'] eqn:Hf; cbn [res_bind].
  - destruct (Helper.raw_purpose r) as [|p];
      cbn [Helper.subscriptable res_bind].
    + intros [= <-]. auto.
    + destruct p as [|c rest]; cbn [PyStr.first res_bind].
      * intros [= <-]. auto.
      * destruct (Helper.float_of_value (Helper.raw_cost r)) as [x|].
        -- destruct (2 <? _); intros [= <-]. eauto 6.
        -- intros [= <-]. eauto 6.
  - intros [= <-]. apply fields_raises in Hf as [Hk | ->]; auto.
Qed.

(** X16. [strip] lets a cost pass that [float] reads as an infinity or as
    not a number (as [inf], [nan] or [1e400]): their texts have no
    decimal point, so the check of the digits finds nothing. The record
    has the date and the event as submitted, the purpose with its first
    character in upper case and the rest as typed, and the user id. The
    first character of the purpose is taken to be ASCII, where
    [upper_char] is [str.upper]. *)
Theorem strip_accepts_non_finite ev v user_id r c rest cost x :
  Helper.fields ev v = Ok r →
  Helper.raw_purpose r = Helper.Val (String c rest) →
  (PyStr.code c < 128)%N →
  Helper.raw_cost r = Helper.Val cost →
  PyFloat.of_string cost = Some x →
  (x = S754_nan ∨ ∃ s, x = S754_infinity s) →
  Helper.strip ev v user_id
  = Ok (Helper.mkinvoice (Helper.raw_invoice_date r)
          (Helper.raw_event_name r)
          (String (PyStr.upper_char c) rest) x user_id).
Proof.
  intros Hf Hp _ Hc Hx Hnf. rewrite (strip_unfold _ _ _ _ Hf), Hp, Hc.
  cbn [PyStr.first Helper.float_of_value]. rewrite Hx.
  destruct Hnf as [->|[[] ->]]; reflexivity.
Qed.

Lemma strip_raises_only_witness :
  let v := <["invoice_description" := {[ "purpose" := Sample.empty_input ]}]>
             (Sample.form "Berlin_2024" "2024-03-01" "12.69" "taxi") in
  Helper.strip Sample.ids v "U1" = Raise TypeError
  ∧ ((∃ k, TypeError = KeyError k) ∨ TypeError = TypeError
     ∨ TypeError = IndexError
     ∨ (∃ msg, TypeError = InputError msg "invoice_cost")).
Proof.
  intros v.
  assert (H : Helper.strip Sample.ids v "U1" = Raise TypeError)
    by (vm_compute; reflexivity).
  exact (conj H (strip_raises_only Sample.ids v "U1" TypeError H)).
Defined.

Lemma strip_accepts_non_finite_witness :
  let v := Sample.form "Berlin_2024" "2024-03-01" "1e400" "taxi" in
  let r := Helper.mkraw "Berlin_2024" "2024-03-01" (Helper.Val "1e400")
             (Helper.Val "taxi") in
  let x := S754_infinity false in
  Helper.fields Sample.ids v = Ok r
  ∧ Helper.raw_purpose r = Helper.Val (String "t" "axi")
  ∧ (PyStr.code "t" < 128)%N
  ∧ Helper.raw_cost r = Helper.Val "1e400"
  ∧ PyFloat.of_string "1e400" = Some x
  ∧ (x = S754_nan ∨ ∃ s, x = S754_infinity s)
  ∧ Helper.strip Sample.ids v "U1"
    = Ok (Helper.mkinvoice (Helper.raw_invoice_date r)
            (Helper.raw_event_name r)
            (String (PyStr.upper_char "t") "axi") x "U1").
Proof.
  intros v r x.
  assert (H1 : Helper.fields Sample.ids v = Ok r)
    by (vm_compute; reflexivity).
  assert (H2 : Helper.raw_purpose r = Helper.Val (String "t" "axi"))
    by reflexivity.
  assert (H0 : (PyStr.code "t" < 128)%N) by (vm_compute; reflexivity).
  assert (H5 : Helper.raw_cost r = Helper.Val "1e400") by reflexivity.
  assert (H3 : PyFloat.of_string "1e400" = Some x)
    by (vm_compute; reflexivity).
  assert (H4 : x = S754_nan ∨ ∃ s, x = S754_infinity s)
    by (right; exists false; reflexivity).
  exact (conj H1 (conj H2 (conj H0 (conj H5 (conj H3 (conj H4
           (strip_accepts_non_finite Sample.ids v "U1" r "t" "axi" "1e400"
              x H1 H2 H0 H5 H3 H4))))))).
Defined.

(** ** The processes that [compile] starts *)

Lemma ran_none w w' : OS.spawned w' = OS.spawned w → ran w w' [].
Proof. intros H. exists []. by rewrite app_nil_r. Qed.

Lemma ran_app w w1 w2 a b :
  ran w w1 a → ran w1 w2 b → ran w w2 (a ++ b).
Proof.
  intros (ea & Ha & <-) (eb & Hb & <-). exists (ea ++ eb).
  split; [by rewrite Hb, Ha, app_assoc | by rewrite fmap_app].
Qed.

Lemma call_ran sys cmd w r w' :
  OS.call sys cmd w = (r, w') → ran w w' [cmd].
Proof.
  intros (ev & Ha & Hs & _)%call_inv. exists [ev]. by rewrite <- Ha.
Qed.

Lemma check_call_ran sys cmd w r w' :
  OS.check_call sys cmd w = (r, w') → ran w w' [cmd].
Proof.
  intros (ev & Ha & Hs & _)%check_call_inv. exists [ev]. by rewrite <- Ha.
Qed.

Lemma cleanup_ran sys extensions w r w' :
  Inserter.cleanup sys extensions w = (r, w') →
  ∃ cmds, ran w w' cmds
          ∧ cmds `prefix_of` (Inserter.find_delete <$> extensions)
          ∧ (r = Ok tt → cmds = Inserter.find_delete <$> extensions).
Proof.
  revert w. induction extensions as [|x xs IH]; intros w; cbn.
  - intros [= <- <-]. exists []. by split; [apply ran_none|].
  - intros H.
    apply (bind_inv (OS.check_call sys _)) in H
      as [(a & w1 & Hc & H)|(e & Hc & ->)]; apply check_call_ran in Hc.
    + apply IH in H as (cmds & Hr & Hp & Hok).
      exists (Inserter.find_delete x :: cmds). split; [|split].
      * by apply (ran_app w w1 w' [_]).
      * by apply prefix_cons.
      * intros Hr'. by rewrite Hok.
    + exists [Inserter.find_delete x]. split; [done|]. split; [|done].
      apply prefix_cons, prefix_nil.
Qed.

Lemma after_build_ran sys (debug : bool) w r w' :
  (if debug then OS.ret tt
   else Inserter.cleanup sys ["aux"; "log"; "out"; "gz"]) w = (r, w') →
  ∃ cmds, ran w w' cmds ∧ cmds `prefix_of` finds debug
          ∧ (r = Ok tt → cmds = finds debug).
Proof.
  destruct debug.
  - intros [= <- <-]. exists []. by split; [apply ran_none|].
  - apply cleanup_ran.
Qed.

(** What a run of [compile] started, stated for a run that got as far
    as [head] before the cleanup. *)
Lemma run_finished sys self (debug : bool) w w4 r w' head :
  ran w w4 head →
  head ++ finds debug ∈ runs self debug →
  (if debug then OS.ret tt
   else Inserter.cleanup sys ["aux"; "log"; "out"; "gz"]) w4 = (r, w') →
  ∃ cmds full, ran w w' cmds ∧ full ∈ runs self debug
               ∧ cmds `prefix_of` full
               ∧ (r = Ok tt → cmds = full).
Proof.
  intros Hhead Hin (tail & Hr & Hp & Hok)%after_build_ran.
  exists (head ++ tail), (head ++ finds debug).
  split; [by apply (ran_app w w4 w')|]. split; [done|].
  split; [by apply prefix_app|]. intros Hr'. by rewrite Hok.
Qed.

Lemma run_stopped self (debug : bool) w w' (e : exn) head rest :
  ran w w' head →
  (head ++ rest) ++ finds debug ∈ runs self debug →
  ∃ cmds full, ran w w' cmds ∧ full ∈ runs self debug
               ∧ cmds `prefix_of` full
               ∧ (@Raise unit e = Ok tt → cmds = full).
Proof.
  intros Hhead Hin. exists head, ((head ++ rest) ++ finds debug).
  split; [done|]. split; [done|]. split; [|done].
  rewrite <- app_assoc. by apply prefix_app_r.
Qed.

Lemma runs_tectonic self debug :
  [which "tectonic"; tectonic_cmd self] ++ finds debug ∈ runs self debug.
Proof. apply list_elem_of_here. Qed.

Lemma runs_pdflatex self debug :
  [which "tectonic"; which "pdflatex"; pdflatex_cmd self] ++ finds debug
  ∈ runs self debug.
Proof. apply list_elem_of_further, list_elem_of_here. Qed.

Lemma runs_neither self debug :
  [which "tectonic"; which "pdflatex"] ++ finds debug ∈ runs self debug.
Proof. do 2 apply list_elem_of_further. apply list_elem_of_here. Qed.

(** X19. The processes that [compile] starts are, in this order, the
    first commands of one of three runs: the probe for [tectonic] and
    [tectonic]; the two probes and [pdflatex]; or the two probes alone;
    each followed, unless [debug] is set, by the four deletions of the
    cleanup. It starts no other process, and when it returns normally
    on a builder that is set, the run was made to its end. *)
Theorem compile_commands sys self debug w r w' :
  Inserter.compile sys self debug w = (r, w') →
  ∃ cmds full, ran w w' cmds ∧ full ∈ runs self debug
               ∧ cmds `prefix_of` full
               ∧ (Inserter.is_set self = true → r = Ok tt → cmds = full).
Proof.
  intros Hrun.
  enough (Inserter.is_set self = false
          ∨ ∃ cmds full, ran w w' cmds ∧ full ∈ runs self debug
                         ∧ cmds `prefix_of` full
                         ∧ (r = Ok tt → cmds = full)) as [Hs|H].
  { unfold Inserter.compile in Hrun. rewrite Hs in Hrun.
    injection Hrun as <- <-.
    exists [], ([which "tectonic"; tectonic_cmd self] ++ finds debug).
    split; [by apply ran_none|]. split; [apply runs_tectonic|].
    split; [apply prefix_nil|]. by rewrite Hs. }
  { destruct H as (cmds & full & ? & ? & ? & ?). exists cmds, full. auto. }
  unfold Inserter.compile in Hrun.
  destruct (Inserter.is_set self); [right|by left]. cbn [negb] in Hrun.
  apply bind_inv in Hrun as [(d & w1 & Hd & Hrun)|(e & Hd & ->)].
  2:{ apply isdir_inv in Hd as [_ [b Hb]]. done. }
  apply isdir_inv in Hd as [-> _].
  apply bind_inv in Hrun as [([] & w2 & Hmk & Hrun)|(e & Hmk & ->)];
    apply ensure_dir_spawned, ran_none in Hmk.
  2:{ eapply (run_stopped self debug w w' e [] [_; _]);
        [done | apply runs_tectonic]. }
  apply bind_inv in Hrun as [(found & w3 & Hwhich & Hrun)|(e & Hwhich & ->)];
    apply call_ran in Hwhich;
    pose proof (ran_app w w2 _ [] _ Hmk Hwhich) as H1; cbn [app] in H1.
  2:{ eapply (run_stopped self debug w w' e [_] [_]);
        [done | apply runs_tectonic]. }
  fold (which "tectonic") in H1.
  destruct (found =? 0).
  - (* tectonic *)
    apply bind_inv in Hrun as [([] & w4 & Hbuild & Hrun)|(e & Hbuild & ->)];
      apply bind_inv in Hbuild as [([] & w5 & Hmd & Hcc)|(e' & Hmd & He)];
      apply makedirs_from_spawned, ran_none in Hmd;
      try (apply check_call_ran in Hcc;
           pose proof (ran_app _ _ _ _ _ H1
                         (ran_app _ _ _ _ _ Hmd Hcc)) as H2;
           cbn [app] in H2).
    + eapply (run_finished sys self debug w w4 r w' [_; _]);
        [exact H2 | apply runs_tectonic | done].
    + done.
    + eapply (run_stopped self debug w w' e [_; _] []);
        [exact H2 | apply runs_tectonic].
    + pose proof (ran_app _ _ _ _ _ H1 Hmd) as H2. cbn [app] in H2.
      eapply (run_stopped self debug w w' e [_] [_]);
        [exact H2 | apply runs_tectonic].
  - (* pdflatex, or no compiler at all *)
    apply bind_inv in Hrun as [([] & w4 & Hbuild & Hrun)|(e & Hbuild & ->)];
      apply bind_inv in Hbuild
        as [(found' & w5 & Hwhich' & Hcc)|(e' & Hwhich' & He)];
      apply call_ran in Hwhich';
      pose proof (ran_app _ _ _ _ _ H1 Hwhich') as H2; cbn [app] in H2.
    + destruct (found' =? 0).
      * apply check_call_ran in Hcc.
        pose proof (ran_app _ _ _ _ _ H2 Hcc) as H3. cbn [app] in H3.
        eapply (run_finished sys self debug w w4 r w' [_; _; _]);
          [exact H3 | apply runs_pdflatex | done].
      * injection Hcc as <-.
        eapply (run_finished sys self debug w _ r w' [_; _]);
          [exact H2 | apply runs_neither | done].
    + done.
    + destruct (found' =? 0).
      * apply check_call_ran in Hcc.
        pose proof (ran_app _ _ _ _ _ H2 Hcc) as H3. cbn [app] in H3.
        eapply (run_stopped self debug w w' e [_; _; _] []);
          [exact H3 | apply runs_pdflatex].
      * done.
    + eapply (run_stopped self debug w w' e [_; _] []);
        [exact H2 | apply runs_neither].
Qed.

Lemma call_found sys cmd w found w' :
  OS.call sys cmd w = (Ok found, w') →
  (sys cmd (OS.tree w)).1 = Some found.
Proof.
  unfold OS.call. destruct (sys cmd (OS.tree w)) as [[c|] t];
    intros [=]; by subst.
Qed.

(** X20. [tectonic] is preferred: on a system where the probe for
    [tectonic] exits with 0, [compile] never probes for [pdflatex] nor
    starts it; what it starts are the first commands of the run with
    [tectonic]. *)
Theorem compile_prefers_tectonic sys self debug w r w' :
  (∀ t, (sys (which "tectonic") t).1 = Some 0) →
  Inserter.compile sys self debug w = (r, w') →
  ∃ cmds, ran w w' cmds
          ∧ cmds `prefix_of`
              [which "tectonic"; tectonic_cmd self] ++ finds debug
          ∧ (Inserter.is_set self = true → r = Ok tt →
             cmds = [which "tectonic"; tectonic_cmd self] ++ finds debug).
Proof.
  intros Hsys Hrun. unfold Inserter.compile in Hrun.
  destruct (Inserter.is_set self); cbn [negb] in Hrun.
  2:{ injection Hrun as <- <-. exists [].
      split; [by apply ran_none|]. split; [apply prefix_nil|done]. }
  apply bind_inv in Hrun as [(d & w1 & Hd & Hrun)|(e & Hd & ->)].
  2:{ apply isdir_inv in Hd as [_ [b Hb]]. done. }
  apply isdir_inv in Hd as [-> _].
  apply bind_inv in Hrun as [([] & w2 & Hmk & Hrun)|(e & Hmk & ->)];
    apply ensure_dir_spawned, ran_none in Hmk.
  2:{ exists []. split; [done|]. split; [apply prefix_nil|done]. }
  apply bind_inv in Hrun as [(found & w3 & Hwhich & Hrun)|(e & Hwhich & ->)].
  2:{ apply call_ran in Hwhich.
      pose proof (ran_app w w2 _ [] _ Hmk Hwhich) as H1. cbn [app] in H1.
      eexists. split; [exact H1|]. split; [|done].
      apply prefix_cons, prefix_nil. }
  pose proof (call_found _ _ _ _ _ Hwhich) as Hfound.
  rewrite Hsys in Hfound. injection Hfound as <-.
  apply call_ran in Hwhich.
  pose proof (ran_app w w2 _ [] _ Hmk Hwhich) as H1. cbn [app] in H1.
  change (0 =? 0) with true in Hrun. cbv iota in Hrun.
  apply bind_inv in Hrun as [([] & w4 & Hbuild & Hrun)|(e & Hbuild & ->)];
    apply bind_inv in Hbuild as [([] & w5 & Hmd & Hcc)|(e' & Hmd & He)];
    apply makedirs_from_spawned, ran_none in Hmd;
    try (apply check_call_ran in Hcc;
         pose proof (ran_app _ _ _ _ _ H1
                       (ran_app _ _ _ _ _ Hmd Hcc)) as H2;
         cbn [app] in H2).
  - apply after_build_ran in Hrun as (tail & Hr & Hp & Hok).
    exists ([which "tectonic"; tectonic_cmd self] ++ tail).
    split; [by apply (ran_app w w4 w')|].
    split; [by apply prefix_app|]. intros _ Hr'. by rewrite Hok.
  - done.
  - eexists. split; [exact H2|]. split; [|done].
    by apply prefix_app_r.
  - pose proof (ran_app _ _ _ _ _ H1 Hmd) as H2. cbn [app] in H2.
    eexists. split; [exact H2|]. split; [|done].
    apply prefix_cons, prefix_nil.
Qed.

(** X21. Without a compiler [compile] does not fail: when the directory
    [out] exists and both probes exit with a status other than 0, it
    goes on to the cleanup (or returns at once under [debug]) after the
    two probes, having started no compiler and made no document. *)
Theorem compile_without_compiler sys self debug w c1 t1 c2 t2 :
  Inserter.is_set self = true →
  OS.has_dir (OS.tree w) ["out"] = true →
  sys (which "tectonic") (OS.tree w) = (Some c1, t1) → c1 ≠ 0 →
  sys (which "pdflatex") t1 = (Some c2, t2) → c2 ≠ 0 →
  Inserter.compile sys self debug w
  = (if debug then OS.ret tt
     else Inserter.cleanup sys ["aux"; "log"; "out"; "gz"])
      (OS.mkworld t2
         (OS.spawned w
          ++ [OS.mkevent (which "tectonic") (Some c1) t1;
              OS.mkevent (which "pdflatex") (Some c2) t2])).
Proof.
  intros Hset Hout H1 Hc1 H2 Hc2. unfold Inserter.compile.
  rewrite Hset. cbn [negb].
  unfold mbind, OS.M_bind. unfold OS.bind at 1. unfold OS.isdir.
  change (OS.norm "./out/") with ["out"]. rewrite Hout.
  unfold OS.bind at 1. unfold OS.ret at 1.
  unfold OS.bind at 1. unfold OS.bind at 1. unfold OS.call at 1.
  fold (which "tectonic"). rewrite H1.
  destruct (Z.eqb_spec c1 0) as [|_]; [done|].
  unfold OS.bind at 1. unfold OS.call at 1. cbn [OS.tree OS.spawned].
  fold (which "pdflatex"). rewrite H2.
  destruct (Z.eqb_spec c2 0) as [|_]; [done|].
  unfold OS.ret at 1. cbn [OS.tree OS.spawned].
  by rewrite <- app_assoc.
Qed.

Lemma compile_commands_witness :
  let self := Sample.builder true in
  Inserter.compile Sample.failing_tectonic self false Sample.machine
  = (Sample.failed_run.1, Sample.failed_run.2)
  ∧ ∃ cmds full,
      ran Sample.machine Sample.failed_run.2 cmds
      ∧ full ∈ runs self false
      ∧ cmds `prefix_of` full
      ∧ (Inserter.is_set self = true → Sample.failed_run.1 = Ok tt →
         cmds = full).
Proof.
  intros self.
  assert (H : Inserter.compile Sample.failing_tectonic self false
                Sample.machine
              = (Sample.failed_run.1, Sample.failed_run.2))
    by (vm_compute; reflexivity).
  exact (conj H (compile_commands Sample.failing_tectonic self false
                   Sample.machine _ _ H)).
Defined.

Lemma compile_prefers_tectonic_witness :
  let self := Sample.builder true in
  (∀ t, (Sample.failing_tectonic (which "tectonic") t).1 = Some 0)
  ∧ Inserter.compile Sample.failing_tectonic self false Sample.machine
    = (Sample.failed_run.1, Sample.failed_run.2)
  ∧ ∃ cmds,
      ran Sample.machine Sample.failed_run.2 cmds
      ∧ cmds `prefix_of`
          [which "tectonic"; tectonic_cmd self] ++ finds false
      ∧ (Inserter.is_set self = true → Sample.failed_run.1 = Ok tt →
         cmds = [which "tectonic"; tectonic_cmd self] ++ finds false).
Proof.
  intros self.
  assert (H1 : ∀ t, (Sample.failing_tectonic (which "tectonic") t).1
                    = Some 0) by (intros t; reflexivity).
  assert (H2 : Inserter.compile Sample.failing_tectonic self false
                 Sample.machine
               = (Sample.failed_run.1, Sample.failed_run.2))
    by (vm_compute; reflexivity).
  exact (conj H1 (conj H2
           (compile_prefers_tectonic Sample.failing_tectonic self false
              Sample.machine _ _ H1 H2))).
Defined.

Lemma compile_without_compiler_witness :
  let self := Sample.builder true in
  let w := machine_with_out in
  Inserter.is_set self = true
  ∧ OS.has_dir (OS.tree w) ["out"] = true
  ∧ no_compiler (which "tectonic") (OS.tree w) = (Some 1, OS.tree w)
  ∧ 1 ≠ 0
  ∧ no_compiler (which "pdflatex") (OS.tree w) = (Some 1, OS.tree w)
  ∧ 1 ≠ 0
  ∧ Inserter.compile no_compiler self true w
    = OS.ret tt
        (OS.mkworld (OS.tree w)
           (OS.spawned w
            ++ [OS.mkevent (which "tectonic") (Some 1) (OS.tree w);
                OS.mkevent (which "pdflatex") (Some 1) (OS.tree w)])).
Proof.
  intros self w.
  assert (H1 : Inserter.is_set self = true) by reflexivity.
  assert (H2 : OS.has_dir (OS.tree w) ["out"] = true)
    by (vm_compute; reflexivity).
  assert (H3 : no_compiler (which "tectonic") (OS.tree w)
               = (Some 1, OS.tree w)) by reflexivity.
  assert (H4 : 1 ≠ 0) by lia.
  assert (H5 : no_compiler (which "pdflatex") (OS.tree w)
               = (Some 1, OS.tree w)) by reflexivity.
  exact (conj H1 (conj H2 (conj H3 (conj H4 (conj H5 (conj H4
           (compile_without_compiler no_compiler self true w 1 (OS.tree w)
              1 (OS.tree w) H1 H2 H3 H4 H5 H4))))))).
Defined.

(** ** Padding twice *)

Lemma padded_padded (price : string) : padded (padded price) = padded price.
Proof.
  unfold padded at 2 3.
  destruct (PyStr.endswith price ".0") eqn:E; [|unfold padded; by rewrite E].
  apply endswith_append in E as [front ->].
  unfold padded.
  assert (H : PyStr.endswith ((front +:+ ".0") +:+ "0") ".0" = false);
    [|by rewrite H].
  unfold PyStr.endswith. rewrite !reversed_append. reflexivity.
Qed.

(** X22. [pad_prices] is idempotent: a builder that it has padded is left
    as it is by a second call. A price that ended in [.0] ends in [.00]
    afterwards and gets no further zero. *)
Theorem pad_prices_idempotent self cost self1 :
  Inserter.data self !! "cost" = Some cost →
  Inserter.pad_prices self = Ok self1 →
  Inserter.pad_prices self1 = Ok self1.
Proof.
  intros Hc. rewrite (pad_prices_result self cost Hc). intros [= <-].
  rewrite (pad_prices_result _ (padded <$> cost))
    by (cbn [Inserter.data]; apply lookup_insert_eq).
  cbn [Inserter.data_size Inserter.event_date Inserter.is_set Inserter.data
       Inserter.total Inserter.dates Inserter.event_name].
  rewrite insert_insert_eq, padded_padded, <- list_fmap_compose.
  do 3 f_equal. apply list_fmap_ext. intros _ x _. apply padded_padded.
Qed.

(** ** The constructor and the machine *)

Lemma read_keeps name w : (OS.read name w).2 = w.
Proof. unfold OS.read. by repeat case_match. Qed.

(** X23. The constructor of [LatexBuilder] only reads: whether it returns
    a builder or raises, it leaves the files, the directories and the
    log of processes as they were. *)
Theorem init_reads_only name date w : (Inserter.init name date w).2 = w.
Proof.
  unfold Inserter.init. destruct (negb _); [done|].
  unfold mbind, OS.M_bind, OS.bind.
  pose proof (read_keeps name w) as H.
  destruct (OS.read name w) as [[text|e] w1]; cbn in H; subst w1; [|done].
  by destruct (Inserter.load _).
Qed.

(** X24. On an empty file the constructor of [LatexBuilder] raises an
    [AttributeError]: the loop over the lines never sets [self.data],
    which the total then reads. *)
Theorem init_empty_file name date w :
  PyStr.endswith name ".data" = true →
  OS.read name w = (Ok EmptyString, w) →
  Inserter.init name date w = (Raise AttributeError, w).
Proof.
  intros Hn Hr. unfold Inserter.init. rewrite Hn. cbn [negb].
  unfold mbind, OS.M_bind, OS.bind. by rewrite Hr.
Qed.

Lemma pad_prices_idempotent_witness :
  let self1 :=
    Inserter.mkLatexBuilder 3 "01.05.2024" false
      {[ "invoice_date" := ["2024-03-01"; "2024-01-15"; "2024-02-20"];
         "event_name" := ["Berlin_2024"; "Berlin_2024"; "Berlin_2024"];
         "purpose" := ["Taxi"; "Hotel"; "Food"];
         "cost" := ["10.00"; "5.5"; "2"];
         "user" := ["U1"; "U2"; "U1"] ]}
      "17.5"
      (Inserter.Datetimes
         [PyDate.mkdate 2024 3 1; PyDate.mkdate 2024 1 15;
          PyDate.mkdate 2024 2 20])
      "berlin_2024" in
  Inserter.data Sample.loaded !! "cost" = Some ["10.0"; "5.5"; "2"]
  ∧ Inserter.pad_prices Sample.loaded = Ok self1
  ∧ Inserter.pad_prices self1 = Ok self1.
Proof.
  intros self1.
  assert (H1 : Inserter.data Sample.loaded !! "cost"
               = Some ["10.0"; "5.5"; "2"]) by reflexivity.
  assert (H2 : Inserter.pad_prices Sample.loaded = Ok self1)
    by (vm_compute; reflexivity).
  exact (conj H1 (conj H2
           (pad_prices_idempotent Sample.loaded ["10.0"; "5.5"; "2"] self1
              H1 H2))).
Defined.

Lemma init_empty_file_witness :
  PyStr.endswith "db/Berlin_2024.data" ".data" = true
  ∧ OS.read "db/Berlin_2024.data" empty_ledger = (Ok EmptyString, empty_ledger)
  ∧ Inserter.init "db/Berlin_2024.data" "01.05.2024" empty_ledger
    = (Raise AttributeError, empty_ledger).
Proof.
  assert (H1 : PyStr.endswith "db/Berlin_2024.data" ".data" = true)
    by reflexivity.
  assert (H2 : OS.read "db/Berlin_2024.data" empty_ledger
               = (Ok EmptyString, empty_ledger))
    by (vm_compute; reflexivity).
  exact (conj H1 (conj H2
           (init_empty_file "db/Berlin_2024.data" "01.05.2024" empty_ledger
              H1 H2))).
Defined.

(** ** [NotSetError] only before [set] *)

Lemma mkdir_not_set name w e w' :
  OS.mkdir name w = (Raise e, w') → is_not_set e = false.
Proof.
  unfold OS.mkdir, OS.parent_error, OS.with_tree. cbv zeta.
  destruct (_ || _); [by intros [= <- _]|].
  destruct (OS.has_dir _ _); [by intros [=]|].
  destruct (obstacle_cases (OS.tree w) name [] (OS.parent (OS.norm name)))
    as [-> | ->]; by intros [= <- _].
Qed.

Lemma makedirs_from_not_set name todo seen w e w' :
  OS.makedirs_from name seen todo w = (Raise e, w') → is_not_set e = false.
Proof.
  revert seen w. induction todo as [|c todo IH]; intros seen w; cbn.
  - by intros [=].
  - destruct (OS.has_dir _ _); [apply IH|].
    destruct (OS.has_file _ _).
    + intros [= <- _]. by destruct todo.
    + unfold OS.bind, OS.with_tree. apply IH.
Qed.

Lemma check_call_not_set sys cmd w e w' :
  OS.check_call sys cmd w = (Raise e, w') → is_not_set e = false.
Proof.
  intros (ev & _ & _ & _ & H)%check_call_inv.
  destruct (OS.status ev) as [code|]; [|by injection H as ->].
  destruct (code =? 0); [done|]. by injection H as ->.
Qed.

Lemma call_not_set sys cmd w e w' :
  OS.call sys cmd w = (@Raise Z e, w') → is_not_set e = false.
Proof.
  intros (ev & _ & _ & _ & H)%call_inv.
  destruct (OS.status ev) as [code|]; [done|]. by injection H as ->.
Qed.

Lemma cleanup_not_set sys extensions w e w' :
  Inserter.cleanup sys extensions w = (Raise e, w') → is_not_set e = false.
Proof.
  revert w. induction extensions as [|x xs IH]; intros w; cbn.
  - by intros [=].
  - intros H.
    apply (bind_inv (OS.check_call sys _)) in H
      as [(a & w1 & Hc & H)|(e' & Hc & [= ->])].
    + by apply IH in H.
    + by apply check_call_not_set in Hc.
Qed.

(** X25. [compile] raises [NotSetError] only before [set]: on a builder
    that is set, whatever the system and the machine do, the exception
    it may raise is another one. With C9 this makes [NotSetError] the
    mark of a builder that is not set, and of nothing else. *)
Theorem compile_set_no_not_set_error sys self debug w e w' :
  Inserter.is_set self = true →
  Inserter.compile sys self debug w = (Raise e, w') →
  is_not_set e = false.
Proof.
  intros Hset Hrun. unfold Inserter.compile in Hrun.
  rewrite Hset in Hrun. cbn [negb] in Hrun.
  apply bind_inv in Hrun as [(d & w1 & Hd & Hrun)|(e1 & Hd & _)].
  2:{ apply isdir_inv in Hd as [_ [b Hb]]. done. }
  apply bind_inv in Hrun as [([] & w2 & Hmk & Hrun)|(e1 & Hmk & [= ->])].
  2:{ destruct d; [done|]. by apply mkdir_not_set in Hmk. }
  apply bind_inv in Hrun
    as [(found & w3 & Hwhich & Hrun)|(e1 & Hwhich & [= ->])].
  2:{ by apply call_not_set in Hwhich. }
  apply bind_inv in Hrun as [([] & w4 & Hbuild & Hrun)|(e1 & Hbuild & [= ->])].
  { destruct debug; [done|]. by apply cleanup_not_set in Hrun. }
  destruct (found =? 0).
  - apply bind_inv in Hbuild as [([] & w5 & Hmd & Hcc)|(e2 & Hmd & [= ->])].
    + by apply check_call_not_set in Hcc.
    + by apply makedirs_from_not_set in Hmd.
  - apply bind_inv in Hbuild
      as [(found' & w5 & Hwhich' & Hcc)|(e2 & Hwhich' & [= ->])].
    + destruct (found' =? 0); [|done]. by apply check_call_not_set in Hcc.
    + by apply call_not_set in Hwhich'.
Qed.

Lemma compile_set_no_not_set_error_witness :
  let e := CalledProcessError 1
             ["tectonic"; "./tex/main.tex"; "-o"; "./out/berlin-2024"] in
  Inserter.is_set (Sample.builder true) = true
  ∧ Inserter.compile Sample.failing_tectonic (Sample.builder true) false
      Sample.machine
    = (Raise e, Sample.failed_run.2)
  ∧ is_not_set e = false.
Proof.
  intros e.
  assert (H1 : Inserter.is_set (Sample.builder true) = true) by reflexivity.
  assert (H2 : Inserter.compile Sample.failing_tectonic (Sample.builder true)
                 false Sample.machine
               = (Raise e, Sample.failed_run.2))
    by (vm_compute; reflexivity).
  exact (conj H1 (conj H2
           (compile_set_no_not_set_error Sample.failing_tectonic
              (Sample.builder true) false Sample.machine e
              Sample.failed_run.2 H1 H2))).
Defined.

(** ** The characters of a float's text *)

Lemma all_chars_impl (P Q : ascii → bool) s :
  (∀ c, P c = true → Q c = true) →
  all_chars P s = true → all_chars Q s = true.
Proof.
  intros H. induction s as [|c s IH]; [done|]. cbn.
  intros [Hc Hs]%andb_true_iff. by rewrite (H c Hc), IH.
Qed.

Lemma float_char_digit c : PyStr.isdigit c = true → float_char c = true.
Proof. intros H. unfold float_char. by rewrite H. Qed.

Lemma float_chars_format_r ds k :
  all_chars float_char ds = true →
  all_chars float_char (PyFloat.format_r ds k) = true.
Proof.
  intros H. unfold PyFloat.format_r. cbv zeta.
  assert (Hsub : ∀ n m, all_chars float_char (String.substring n m ds) = true)
    by (intros; by apply all_chars_substring).
  assert (Hf : all_chars float_char (PyStr.from1 ds) = true)
    by by apply all_chars_from1.
  assert (Hz : ∀ n, all_chars float_char (PyStr.zeros n) = true)
    by (intros; by apply all_chars_zeros).
  assert (He : ∀ e, all_chars float_char (PyFloat.exponent_str e) = true).
  { intros e. unfold PyFloat.exponent_str, PyStr.zfill.
    rewrite !all_chars_append, Hz.
    rewrite all_chars_of_Z by (done || apply float_char_digit).
    by destruct (e <? 0). }
  destruct (_ || _).
  - rewrite !all_chars_append, Hsub, He.
    destruct (PyStr.from1 ds) eqn:E; [done|].
    by rewrite all_chars_append, Hf.
  - destruct (k <=? 0); [by rewrite !all_chars_append, Hz, H|].
    destruct (k <? _); [by rewrite !all_chars_append, !Hsub|].
    by rewrite !all_chars_append, Hz, H.
Qed.

Lemma float_chars_repr x : all_chars float_char (PyFloat.repr x) = true.
Proof.
  destruct x as [[]|[]| |s m e]; try done.
  unfold PyFloat.repr, PyFloat.shortest_digits.
  destruct (PyFloat.to_ratio m e) as [n d].
  destruct (PyFloat.shortest _ _ _ _ _ _) as [dm de].
  destruct (PyFloat.drop_zeros _ _ _) as [dm' de'].
  rewrite all_chars_append, float_chars_format_r
    by (apply all_chars_of_Z; [apply float_char_digit | done]).
  by destruct s.
Qed.

Lemma no_line_break_repr x : no_line_break (PyFloat.repr x) = true.
Proof.
  apply (all_chars_impl float_char); [|apply float_chars_repr].
  intros c. by destruct c as [[] [] [] [] [] [] [] []].
Qed.

Lemma no_line_break_occurs s c :
  no_line_break s = true → c = "010"%char ∨ c = "013"%char →
  occurs c s = false.
Proof.
  intros H Hc. induction s as [|a s IH]; [done|].
  cbn in H. apply andb_true_iff in H as [Ha Hs]. cbn.
  rewrite (IH Hs), orb_false_r.
  destruct (Ascii.eqb_spec a c) as [->|]; [|done].
  by destruct Hc as [-> | ->].
Qed.

(** ** The lines of a ledger *)

Lemma split_append sep x y :
  PyStr.split sep (x +:+ String sep y)
  = PyStr.split sep x ++ PyStr.split sep y.
Proof.
  induction x as [|c x IH].
  - rewrite append_nil_l. cbn [PyStr.split]. by rewrite Ascii.eqb_refl.
  - rewrite append_cons. cbn [PyStr.split]. rewrite IH.
    destruct (Ascii.eqb c sep); [done|].
    by destruct (split_first sep x) as (w0 & ws & ->).
Qed.

Lemma append_line_inj a b :
  a +:+ String "010" EmptyString = b +:+ String "010" EmptyString → a = b.
Proof.
  intros H. apply (f_equal PyStr.reversed) in H.
  rewrite !reversed_append in H.
  change (PyStr.reversed (String "010" EmptyString))
    with (String "010" EmptyString) in H.
  rewrite !append_cons, !append_nil_l in H. injection H as H.
  by rewrite <- (reversed_involutive a), H, reversed_involutive.
Qed.

(** The line of a record is never the header line: its fourth value is
    the text of a float. *)
Lemma row_not_header a b c x u :
  PyStr.join "," [a; b; c; PyFloat.repr x; u] +:+ String "010" EmptyString
  ≠ "invoice_date,event_name,purpose,cost,user
".
Proof.
  intros H.
  change "invoice_date,event_name,purpose,cost,user
" with ("invoice_date,event_name,purpose,cost,user"
        +:+ String "010" EmptyString) in H.
  apply append_line_inj in H. apply (f_equal (PyStr.split ",")) in H.
  cbn [PyStr.join] in H. rewrite !comma_first, !split_append in H.
  change (PyStr.split "," "invoice_date,event_name,purpose,cost,user")
    with expected_header in H.
  pose proof (float_chars_repr x) as Hx.
  assert (Hin : PyFloat.repr x ∈ expected_header).
  { rewrite <- H. rewrite !elem_of_app. right. right. right. left.
    rewrite split_absent; [apply list_elem_of_here|].
    clear H. induction (PyFloat.repr x) as [|k s IH]; [done|].
    cbn in Hx. apply andb_true_iff in Hx as [Hk Hs]. cbn.
    rewrite (IH Hs), orb_false_r.
    destruct (Ascii.eqb_spec k ",") as [->|]; [done|done]. }
  unfold expected_header in Hin.
  repeat (apply elem_of_cons in Hin as [Hin|Hin];
          [rewrite Hin in Hx; vm_compute in Hx; discriminate|]).
  by apply elem_of_nil in Hin.
Qed.

Lemma occurs_line_break c a b p x u :
  c = "010"%char ∨ c = "013"%char →
  no_line_break a = true → no_line_break b = true →
  no_line_break p = true → no_line_break u = true →
  occurs c (PyStr.join "," [a; b; p; PyFloat.repr x; u]) = false.
Proof.
  intros Hc Ha Hb Hp Hu. cbn [PyStr.join]. rewrite !comma_first.
  assert (Hcomma : Ascii.eqb "," c = false) by by destruct Hc as [-> | ->].
  do 4 (rewrite occurs_append; cbn [occurs]; rewrite Hcomma).
  rewrite !(no_line_break_occurs _ c) by (done || apply no_line_break_repr).
  done.
Qed.

Lemma readlines_ledger (ds : list Helper.invoice) d0 :
  Forall (fun d => one_line d = true) ds →
  OS.readlines (Helper.header_line d0 +:+ join_all (Helper.row_line <$> ds))
  = Helper.header_line d0 :: (Helper.row_line <$> ds).
Proof.
  intros H.
  set (content := fun d => PyStr.join "," (Helper.values_str d)).
  assert (Hrows : Helper.row_line <$> ds
                  = (fun l => l +:+ String "010" EmptyString)
                      <$> (content <$> ds))
    by by rewrite <- list_fmap_compose.
  assert (Hbreak : ∀ c, c = "010"%char ∨ c = "013"%char →
            Forall (fun l => occurs c l = false) (content <$> ds)).
  { intros c Hc. apply Forall_fmap. eapply Forall_impl; [exact H|].
    intros d Hd. unfold one_line in Hd.
    rewrite !andb_true_iff in Hd. destruct Hd as (((Ha & Hb) & Hp) & Hu).
    by apply occurs_line_break. }
  assert (Hcr : Forall (fun l => occurs "013" l = false)
                  (Helper.row_line <$> ds)).
  { rewrite Hrows. apply Forall_fmap.
    eapply Forall_impl; [apply (Hbreak "013"%char); by right|].
    intros l Hl. unfold compose. by rewrite occurs_append, Hl. }
  unfold OS.readlines.
  rewrite universal_newlines_plain
    by (rewrite occurs_append, occurs_join_all by done; done).
  change (Helper.header_line d0)
    with (PyStr.join "," expected_header +:+ String "010" EmptyString).
  rewrite append_assoc.
  change (String "010" EmptyString +:+ ?x) with (String "010" x).
  rewrite lines_first by done.
  rewrite Hrows, lines_all by (apply Hbreak; by left). done.
Qed.

Lemma count_occ_absent (l : list string) (x : string) :
  Forall (fun y => y ≠ x) l → count_occ string_dec l x = 0%nat.
Proof.
  intros H. apply count_occ_not_In. intros Hin.
  rewrite Forall_forall in H. by apply (H x); [apply list_elem_of_In|].
Qed.

Lemma row_line_unfold d :
  Helper.row_line d
  = PyStr.join ","
      [Helper.invoice_date d; Helper.event_name d; Helper.purpose d;
       PyFloat.repr (Helper.cost d); Helper.user d]
    +:+ String "010" EmptyString.
Proof. reflexivity. Qed.

(** C4, as the code has it. For an event that the lookup knows, whose
    name has no slash, and whose ledger does not exist yet: the
    submissions [d :: ds] to that event, none of whose texts has a line
    break, all succeed. Read back line by line, the ledger is then the
    header line followed by one line per submission, in the order of the
    submissions: the five values of the record, the cost as [str] prints
    the float, joined by commas. These are one line more than there are
    submissions, and the header line is found once among them. *)
Theorem ledger_header_once get_events e info date d ds w :
  get_events !! e = Some info →
  info !! "date" = Some date →
  occurs "/" e = false →
  Forall (fun d' => Helper.event_name d' = e) (d :: ds) →
  Forall (fun d' => one_line d' = true) (d :: ds) →
  absent e w →
  ∃ w' text,
    Helper.append_all get_events (d :: ds) w = (Ok tt, w')
    ∧ OS.files (OS.tree w')
        !! OS.norm (Helper.datapath +:+ e +:+ Helper.extension)
      = Some text
    ∧ OS.readlines text
      = "invoice_date,event_name,purpose,cost,user
"
        :: ((fun d' =>
               PyStr.join ","
                 [Helper.invoice_date d'; Helper.event_name d';
                  Helper.purpose d'; PyFloat.repr (Helper.cost d');
                  Helper.user d']
               +:+ String "010" EmptyString) <$> d :: ds)
    ∧ length (OS.readlines text) = S (length (d :: ds))
    ∧ count_occ string_dec (OS.readlines text)
        "invoice_date,event_name,purpose,cost,user
" = 1%nat.
Proof.
  intros Hevent Hdate Hplain Hname Hline Habsent.
  destruct (ledger_text get_events e info date d ds w
              Hevent Hdate Hplain Hname Habsent) as (w' & Hrun & Hfile).
  exists w', (Helper.header_line d +:+ join_all (Helper.row_line <$> d :: ds)).
  split; [exact Hrun|]. split; [exact Hfile|].
  rewrite (readlines_ledger (d :: ds) d Hline).
  split; [reflexivity|]. split.
  - cbn [length]. by rewrite length_fmap.
  - change (Helper.header_line d) with "invoice_date,event_name,purpose,cost,user
".
    rewrite count_occ_cons_eq by done. f_equal.
    apply count_occ_absent, Forall_fmap, Forall_forall.
    intros d' _. apply row_not_header.
Qed.

Lemma ledger_header_once_witness :
  let ds := [Sample.taxi; Sample.hotel; Sample.food] in
  let info : gmap string string := {[ "date" := "2024-05-01" ]} in
  Sample.events !! "Berlin_2024" = Some info
  ∧ info !! "date" = Some "2024-05-01"
  ∧ occurs "/" "Berlin_2024" = false
  ∧ Forall (fun d' => Helper.event_name d' = "Berlin_2024") ds
  ∧ Forall (fun d' => one_line d' = true) ds
  ∧ absent "Berlin_2024" Sample.machine
  ∧ ∃ w' text,
      Helper.append_all Sample.events ds Sample.machine = (Ok tt, w')
      ∧ OS.files (OS.tree w') !! OS.norm "db/Berlin_2024.data" = Some text
      ∧ OS.readlines text
        = "invoice_date,event_name,purpose,cost,user
"
          :: ((fun d' =>
                 PyStr.join ","
                   [Helper.invoice_date d'; Helper.event_name d';
                    Helper.purpose d'; PyFloat.repr (Helper.cost d');
                    Helper.user d']
                 +:+ String "010" EmptyString) <$> ds)
      ∧ length (OS.readlines text) = 4%nat
      ∧ count_occ string_dec (OS.readlines text)
          "invoice_date,event_name,purpose,cost,user
" = 1%nat.
Proof.
  intros ds info.
  assert (H1 : Sample.events !! "Berlin_2024" = Some info) by reflexivity.
  assert (H2 : info !! "date" = Some "2024-05-01") by reflexivity.
  assert (H3 : occurs "/" "Berlin_2024" = false) by reflexivity.
  assert (H4 : Forall (fun d' => Helper.event_name d' = "Berlin_2024") ds)
    by (repeat constructor).
  assert (H5 : Forall (fun d' => one_line d' = true) ds)
    by (repeat constructor).
  assert (H6 : absent "Berlin_2024" Sample.machine)
    by (repeat split; vm_compute; reflexivity).
  exact (conj H1 (conj H2 (conj H3 (conj H4 (conj H5 (conj H6
           (ledger_header_once Sample.events "Berlin_2024" info "2024-05-01"
              Sample.taxi [Sample.hotel; Sample.food] Sample.machine
              H1 H2 H3 H4 H5 H6))))))).
Defined.

(** C4 does not hold as stated: a purpose is any text, and one with line
    feeds is written as it is. A single submission to a new ledger then
    leaves four lines, not two, and the header line is there twice. *)
Lemma ledger_line_feed_in_purpose :
  absent "Berlin_2024" Sample.machine
  ∧ ∃ w' text,
      Helper.append_all Sample.events [three_line_taxi] Sample.machine
      = (Ok tt, w')
      ∧ OS.files (OS.tree w') !! ["db"; "Berlin_2024.data"] = Some text
      ∧ OS.readlines text
        = ["invoice_date,event_name,purpose,cost,user
";
           "2024-03-01,Berlin_2024,Taxi
";
           "invoice_date,event_name,purpose,cost,user
";
           "and back,10.0,U1
"]
      ∧ length (OS.readlines text) ≠ 2%nat
      ∧ count_occ string_dec (OS.readlines text)
          "invoice_date,event_name,purpose,cost,user
" = 2%nat.
Proof.
  split; [repeat split; vm_compute; reflexivity|].
  eexists _, _. split; [vm_compute; reflexivity|].
  split; [vm_compute; reflexivity|].
  split; [vm_compute; reflexivity|].
  split; [vm_compute; discriminate|vm_compute; reflexivity].
Qed.
